(** * ERP-SYSTEM backend: authentication, refresh ledger and authorization

    A shallow embedding of [backend/app/auth.py], [backend/app/models.py],
    the origin settings of [backend/app/config.py] and the session, user,
    task, event, access-grant and request handlers of [backend/app/main.py].

    Conventions.
    - A SQLAlchemy session is a value of type [DB]; a handler is a function
      from the committed database to the committed database it leaves behind
      and its outcome.  A handler that raises before [db.commit()] leaves the
      database as it found it.
    - A table is the list of its rows in insertion order; [db.get] and
      [.first()] return the first matching row.
    - Time is an integer number of seconds; [datetime.utcnow()] is the
      argument [now] of a handler.
    - What [secrets.token_urlsafe] and [secrets.token_hex] return is an
      argument of the handler that draws it ([raw], [jti]).
    - Only the columns the modelled handlers read or write are kept; the
      rows [log_activity] and [log_request_audit] append and the [messages]
      rows are left out.  [update_task] and the request handlers are given
      the one table they touch.
    - A Python [str] is the string of its code points, for text whose code
      points are below 256; [len] counts them, and [passlib.utf8] is the
      encoding bcrypt is handed.
    - [hashlib.sha256], passlib's bcrypt context and python-jose's [jwt] are
      third-party code; they are given their symbolic (collision-free,
      unforgeable) models in the modules [hashlib], [passlib] and [jwt].
      passlib's refusals and bcrypt's 72-byte limit are part of the model.
    - The database is the SQLite default of [config.py]: foreign keys are
      not enforced, and rows of equal sort key come out in table order. *)

From Stdlib Require Import ZArith List String Ascii Bool Lia.
From Stdlib Require Import DecimalString Sorted Permutation.
Import ListNotations.

Local Open Scope string_scope.
Local Open Scope Z_scope.

(* ================================================================= *)
(** ** Exceptions and outcomes *)

Inductive exn : Type :=
| HTTPException (status_code : Z) (detail : string)
| IntegrityError
| PasswordValueError.

Inductive outcome (A : Type) : Type :=
| Return (a : A)
| Raise (e : exn).

Arguments Return {A} a.
Arguments Raise {A} e.

Definition HTTP_400_BAD_REQUEST : Z := 400.
Definition HTTP_401_UNAUTHORIZED : Z := 401.
Definition HTTP_403_FORBIDDEN : Z := 403.
Definition HTTP_404_NOT_FOUND : Z := 404.

Definition is_return {A : Type} (o : outcome A) : bool :=
  match o with Return _ => true | Raise _ => false end.

Definition opt_Z_eqb (a b : option Z) : bool :=
  match a, b with
  | Some x, Some y => x =? y
  | None, None => true
  | _, _ => false
  end.

(* ================================================================= *)
(** ** Third-party primitives, symbolically *)

Module hashlib.
(** [hashlib.sha256(data).hexdigest()]: a digest is the free term over its
    input, so two digests are equal exactly when their inputs are. *)
Inductive hexdigest : Type := sha256 (data : string).

Definition eqb (a b : hexdigest) : bool :=
  match a, b with sha256 x, sha256 y => String.eqb x y end.
End hashlib.

(** [len(s)], the number of code points of [s]. *)
Definition len (s : string) : Z := Z.of_nat (String.length s).

Module passlib.
(** [CryptContext(schemes=["bcrypt"])].  passlib refuses a secret of more
    than [MAX_PASSWORD_SIZE] characters and a secret that holds a NUL, both
    with [PasswordValueError]; bcrypt reads the first 72 bytes of the
    secret's UTF-8 encoding and nothing after them.  A hash records the salt
    drawn by [hash] and the bytes bcrypt read; [verify] compares those
    bytes. *)
Inductive bcrypt_hash : Type := bcrypt (salt : string) (secret : string).

Definition MAX_PASSWORD_SIZE : Z := 4096.

(** [secret.encode("utf-8")]: one byte for a code point below 128, two for
    a code point from 128 to 255. *)
Fixpoint utf8 (secret : string) : string :=
  match secret with
  | EmptyString => EmptyString
  | String c rest =>
      let n := nat_of_ascii c in
      if (n <? 128)%nat then String c (utf8 rest)
      else String (ascii_of_nat (n / 64 + 192))
             (String (ascii_of_nat (n mod 64 + 128)) (utf8 rest))
  end.

(** [b"\x00" in secret]. *)
Fixpoint has_null (bytes : string) : bool :=
  match bytes with
  | EmptyString => false
  | String c rest => Ascii.eqb c Ascii.zero || has_null rest
  end.

(** [secret[:n]]. *)
Fixpoint truncate (n : nat) (bytes : string) : string :=
  match n, bytes with
  | S m, String c rest => String c (truncate m rest)
  | _, _ => EmptyString
  end.

(** The bytes bcrypt is handed for [secret], or passlib's refusal:
    [validate_secret] measures the secret as given and again once encoded. *)
Definition digest_secret (secret : string) : outcome string :=
  if MAX_PASSWORD_SIZE <? len secret then Raise PasswordValueError
  else
    let bytes := utf8 secret in
    if MAX_PASSWORD_SIZE <? len bytes then Raise PasswordValueError
    else if has_null bytes then Raise PasswordValueError
    else Return (truncate 72 bytes).

Definition hash (salt secret : string) : outcome bcrypt_hash :=
  match digest_secret secret with
  | Raise e => Raise e
  | Return bytes => Return (bcrypt salt bytes)
  end.

Definition verify (secret : string) (hashed : bcrypt_hash) : outcome bool :=
  match digest_secret secret with
  | Raise e => Raise e
  | Return bytes =>
      match hashed with bcrypt _ read => Return (String.eqb bytes read) end
  end.
End passlib.

Module jwt.
(** The claims [create_access_token] writes and [get_current_user] reads.
    [sub] is the user id ([str(user.id)] on the way in, the key of
    [db.get(models.User, _)] on the way out). *)
Record Claims : Type := {
  sub : option Z;
  exp : option Z;
  iat : option Z;
  jti : option string
}.

(** A bearer string is either no JWS at all, or the claims together with
    the algorithm and the key its signature was made with. *)
Inductive Token : Type :=
| Malformed (raw : string)
| Signed (alg : string) (key : string) (claims : Claims).

Inductive JWTError : Type :=
| DecodeError             (* not a JWS, or algorithm not allowed *)
| SignatureError          (* signature does not verify under the key *)
| ExpiredSignatureError.  (* [exp] lies in the past *)

Definition encode (claims : Claims) (key : string) (algorithm : string)
  : Token :=
  Signed algorithm key claims.

(** python-jose's [_validate_exp]: [if exp < now: raise
    ExpiredSignatureError]; a token without [exp] passes. *)
Definition validate_exp (claims : Claims) (now : Z) : bool :=
  match exp claims with
  | Some e => negb (e <? now)
  | None => true
  end.

(** [jwt.decode(token, key, algorithms=...)]: the signature is verified
    first, the claims are validated after. *)
Definition decode (token : Token) (key : string) (algorithms : list string)
           (now : Z) : JWTError + Claims :=
  match token with
  | Malformed _ => inl DecodeError
  | Signed alg k claims =>
      if negb (existsb (String.eqb alg) algorithms) then inl DecodeError
      else if negb (String.eqb k key) then inl SignatureError
      else if validate_exp claims now then inr claims
      else inl ExpiredSignatureError
  end.
End jwt.

(* ================================================================= *)
(** ** config.py *)

Record Settings : Type := {
  secret_key : string;
  algorithm : string;
  access_token_expire_minutes : Z;
  refresh_token_expire_minutes : Z
}.

Definition default_settings : Settings := {|
  secret_key := "change-me";
  algorithm := "HS256";
  access_token_expire_minutes := 60 * 24;
  refresh_token_expire_minutes := 60 * 24 * 7
|}.

(** [timedelta(minutes=m)] in seconds. *)
Definition timedelta_minutes (m : Z) : Z := 60 * m.

(* ================================================================= *)
(** [Settings._normalize_origins] and [Settings._parse_allowed_origins].
    [str.strip] and [json.loads] are library code and stay abstract:
    [json_loads_list value] is the list of [str(item)] when
    [json.loads(value)] returns a list, and [None] when it raises
    [JSONDecodeError] or returns anything else. *)
Module config.
Section Origins.
Variable strip : string -> string.
Variable json_loads_list : string -> option (list string).

(** [s.rstrip("/")]. *)
Fixpoint rstrip_slash (s : string) : string :=
  match s with
  | EmptyString => EmptyString
  | String a rest =>
      match rstrip_slash rest with
      | EmptyString =>
          if Ascii.eqb a "/" then EmptyString else String a EmptyString
      | kept => String a kept
      end
  end.

(** The loop of [_normalize_origins], [seen] being the list built so far. *)
Fixpoint normalize_loop (seen : list string) (origins : list string)
  : list string :=
  match origins with
  | [] => seen
  | origin :: rest =>
      let cleaned := rstrip_slash (strip origin) in
      if negb (String.eqb cleaned "")
         && negb (existsb (String.eqb cleaned) seen)
      then normalize_loop (seen ++ [cleaned]) rest
      else normalize_loop seen rest
  end.

Definition _normalize_origins (origins : list string) : list string :=
  normalize_loop [] origins.

(** [value.split(",")]. *)
Fixpoint split_comma (s : string) : list string :=
  match s with
  | EmptyString => [EmptyString]
  | String a rest =>
      if Ascii.eqb a "," then EmptyString :: split_comma rest
      else match split_comma rest with
           | [] => [String a EmptyString]
           | chunk :: chunks => String a chunk :: chunks
           end
  end.

(** [value.startswith("[")]. *)
Definition startswith_bracket (value : string) : bool :=
  match value with
  | String a _ => Ascii.eqb a "["
  | EmptyString => false
  end.

(** [raw] is a [str] ([inl]) or already a list ([inr]). *)
Definition _parse_allowed_origins (raw : string + list string) : list string :=
  match raw with
  | inr items => _normalize_origins items
  | inl raw =>
      let value := strip raw in
      if String.eqb value "" then []
      else
        match (if startswith_bracket value then json_loads_list value
               else None) with
        | Some parsed => _normalize_origins parsed
        | None =>
            _normalize_origins
              (filter (fun part => negb (String.eqb part ""))
                      (map strip (split_comma value)))
        end
  end.
End Origins.
End config.

(** The settings the account handlers and [seed_admin] read. *)
Record AccountSettings : Type := {
  password_min_length : Z;
  admin_email : string;
  default_admin_password : string
}.

Definition default_account_settings : AccountSettings := {|
  password_min_length := 8;
  admin_email := "admin@example.com";
  default_admin_password := "changeme"
|}.

(** [query.order_by(column.asc())]: rows by increasing key; rows with equal
    keys stay in table order. *)
Fixpoint insert_by {A : Type} (key : A -> Z) (x : A) (rows : list A) : list A :=
  match rows with
  | [] => [x]
  | y :: rest =>
      if key x <=? key y then x :: y :: rest
      else y :: insert_by key x rest
  end.

Fixpoint order_by_asc {A : Type} (key : A -> Z) (rows : list A) : list A :=
  match rows with
  | [] => []
  | x :: rest => insert_by key x (order_by_asc key rest)
  end.

(** [x not in (None, y)]. *)
Definition not_in_none_or (x y : option Z) : bool :=
  negb (opt_Z_eqb x None || opt_Z_eqb x y).

(** ** models.py *)

Module models.

Inductive Role : Type := admin | manager | staff | collaborator.

Definition Role_eqb (a b : Role) : bool :=
  match a, b with
  | admin, admin | manager, manager | staff, staff
  | collaborator, collaborator => true
  | _, _ => false
  end.

Module Department.
Record t : Type := { id : Z; name : string }.
End Department.

Module User.
Record t : Type := {
  id : Z;
  full_name : string;
  email : string;
  hashed_password : passlib.bcrypt_hash;
  department_id : option Z;
  role : Role;
  active : bool
}.
End User.

Module Task.
Record t : Type := {
  id : Z;
  title : string;
  start_date : Z;
  end_date : Z;
  department_id : Z;
  assigned_to_id : Z;
  created_by_id : Z
}.
End Task.

Module Event.
Record t : Type := {
  id : Z;
  title : string;
  description : option string;
  scheduled_at : Z;
  department_id : option Z
}.
End Event.

Module RefreshToken.
Record t : Type := {
  id : Z;
  user_id : Z;
  token_hash : hashlib.hexdigest;
  expires_at : Z;
  revoked : bool;
  created_at : Z
}.

Definition set_revoked (r : t) (b : bool) : t :=
  {| id := id r; user_id := user_id r; token_hash := token_hash r;
     expires_at := expires_at r; revoked := b; created_at := created_at r |}.

(** [UPDATE refresh_tokens SET revoked = 1 WHERE sel]: the statement both
    revocations of [main.py] issue, each with its own [WHERE]. *)
Definition update_revoked (sel : t -> bool) (rows : list t) : list t :=
  map (fun r => if sel r then set_revoked r true else r) rows.
End RefreshToken.

Module AccessGrant.
Record t : Type := {
  id : Z;
  user_id : Z;
  resource_type : string;
  resource_id : string;
  permission : string;
  department_id : option Z
}.
End AccessGrant.

Module RequestTicket.
Record t : Type := {
  id : Z;
  requester_id : Z;
  department_id : Z;
  type : string;
  payload : option string;
  status : string;
  resolved_at : option Z
}.
End RequestTicket.

Inductive TaskStatus : Type := pending | in_progress | done | blocked.

Definition TaskStatus_eqb (a b : TaskStatus) : bool :=
  match a, b with
  | pending, pending | in_progress, in_progress | done, done
  | blocked, blocked => true
  | _, _ => false
  end.

(** A row of [tasks] with the columns [Task.t] leaves out and [update_task]
    writes. *)
Module TaskRow.
Record t : Type := {
  task : Task.t;
  description : option string;
  status : TaskStatus;
  due_date : option Z;
  completed_at : option Z
}.
End TaskRow.

End models.

Import models.

(** The committed database. *)
Record DB : Type := {
  departments : list Department.t;
  users : list User.t;
  tasks : list Task.t;
  events : list Event.t;
  refresh_tokens : list RefreshToken.t;
  access_grants : list AccessGrant.t
}.

Definition with_refresh_tokens (db : DB) (l : list RefreshToken.t) : DB :=
  {| departments := departments db; users := users db; tasks := tasks db;
     events := events db; refresh_tokens := l;
     access_grants := access_grants db |}.

Definition with_users (db : DB) (l : list User.t) : DB :=
  {| departments := departments db; users := l; tasks := tasks db;
     events := events db; refresh_tokens := refresh_tokens db;
     access_grants := access_grants db |}.

Definition with_tasks (db : DB) (l : list Task.t) : DB :=
  {| departments := departments db; users := users db; tasks := l;
     events := events db; refresh_tokens := refresh_tokens db;
     access_grants := access_grants db |}.

Definition with_events (db : DB) (l : list Event.t) : DB :=
  {| departments := departments db; users := users db; tasks := tasks db;
     events := l; refresh_tokens := refresh_tokens db;
     access_grants := access_grants db |}.

Definition with_access_grants (db : DB) (l : list AccessGrant.t) : DB :=
  {| departments := departments db; users := users db; tasks := tasks db;
     events := events db; refresh_tokens := refresh_tokens db;
     access_grants := l |}.

(** [db.get(Model, pk)]. *)
Definition get_Department (db : DB) (pk : Z) : option Department.t :=
  find (fun d => Department.id d =? pk) (departments db).

Definition get_User (db : DB) (pk : Z) : option User.t :=
  find (fun u => User.id u =? pk) (users db).

Definition get_Task (db : DB) (pk : Z) : option Task.t :=
  find (fun t => Task.id t =? pk) (tasks db).

Definition get_Event (db : DB) (pk : Z) : option Event.t :=
  find (fun e => Event.id e =? pk) (events db).

(** The integer primary key a fresh row receives: one more than the largest
    key in the table. *)
Definition next_id {A : Type} (id_of : A -> Z) (rows : list A) : Z :=
  1 + fold_right (fun r m => Z.max (id_of r) m) 0 rows.

(* ================================================================= *)
(** ** schemas.py *)

Module schemas.

Module Token.
Record t : Type := {
  access_token : jwt.Token;
  token_type : string;
  refresh_token : option string
}.
End Token.

Module TaskCreate.
Record t : Type := {
  title : string;
  start_date : Z;
  end_date : Z;
  department_id : Z;
  assigned_to_id : Z
}.
End TaskCreate.

Module EventUpdate.
Record t : Type := {
  title : option string;
  description : option string;
  scheduled_at : option Z;
  department_id : option Z
}.
End EventUpdate.

Module UserCreate.
Record t : Type := {
  full_name : string;
  email : string;
  department_id : option Z;
  role : Role;
  active : bool;
  password : string
}.
End UserCreate.

Module UserUpdate.
Record t : Type := {
  full_name : option string;
  department_id : option Z;
  role : option Role;
  active : option bool;
  password : option string
}.
End UserUpdate.

Module TaskUpdate.
Record t : Type := {
  title : option string;
  description : option string;
  status : option TaskStatus;
  start_date : option Z;
  end_date : option Z;
  due_date : option Z;
  assigned_to_id : option Z;
  department_id : option Z
}.
End TaskUpdate.

Module EventCreate.
Record t : Type := {
  title : string;
  description : option string;
  scheduled_at : Z;
  department_id : option Z
}.
End EventCreate.

Module AccessGrantCreate.
Record t : Type := {
  user_id : Z;
  resource_type : string;
  resource_id : string;
  permission : string;
  department_id : option Z
}.
End AccessGrantCreate.

Module RequestTicketCreate.
Record t : Type := {
  type : string;
  payload : option string;
  department_id : option Z
}.
End RequestTicketCreate.

Module RequestTicketUpdate.
Record t : Type := { status : option string }.
End RequestTicketUpdate.

Module RequestResponse.
Record t : Type := {
  subject : string;
  body : string;
  status : option string
}.
End RequestResponse.

End schemas.

(* ================================================================= *)
(** ** auth.py *)

Module auth.

Definition verify_password (plain_password : string)
           (hashed_password : passlib.bcrypt_hash) : outcome bool :=
  passlib.verify plain_password hashed_password.

Definition get_password_hash (salt password : string)
  : outcome passlib.bcrypt_hash :=
  passlib.hash salt password.

(** [data] is [{"sub": str(user.id)}] at both call sites; [expires_delta or
    timedelta(minutes=...)] falls back to the configured lifetime when the
    delta is absent or zero. *)
Definition create_access_token (settings : Settings) (now : Z) (jti : string)
           (data_sub : Z) (expires_delta : option Z) : jwt.Token :=
  let lifetime :=
    match expires_delta with
    | Some d => if d =? 0
                then timedelta_minutes (access_token_expire_minutes settings)
                else d
    | None => timedelta_minutes (access_token_expire_minutes settings)
    end in
  let expire := now + lifetime in
  jwt.encode
    {| jwt.sub := Some data_sub; jwt.exp := Some expire;
       jwt.iat := Some now; jwt.jti := Some jti |}
    (secret_key settings) (algorithm settings).

Definition get_user (db : DB) (email : string) : option User.t :=
  find (fun u => String.eqb (User.email u) email) (users db).

(** [not user or not verify_password(...)]: the password is checked only
    when the e-mail selects a row, and a refusal of passlib passes through. *)
Definition authenticate_user (db : DB) (email password : string)
  : outcome (option User.t) :=
  match get_user db email with
  | None => Return None
  | Some user =>
      match verify_password password (User.hashed_password user) with
      | Raise e => Raise e
      | Return verified =>
          if negb verified then Return None else Return (Some user)
      end
  end.

Definition credentials_exception : exn :=
  HTTPException HTTP_401_UNAUTHORIZED "Could not validate credentials".

Definition get_current_user (settings : Settings) (db : DB) (now : Z)
           (token : jwt.Token) : outcome User.t :=
  match jwt.decode token (secret_key settings) [algorithm settings] now with
  | inl _ => Raise credentials_exception
  | inr payload =>
      match jwt.sub payload with
      | None => Raise credentials_exception
      | Some user_id =>
          match get_User db user_id with
          | None => Raise credentials_exception
          | Some user =>
              if negb (User.active user) then Raise credentials_exception
              else Return user
          end
      end
  end.

Definition require_role (roles : list Role) (user : outcome User.t)
  : outcome User.t :=
  match user with
  | Raise e => Raise e
  | Return u =>
      if negb (existsb (Role_eqb (User.role u)) roles)
      then Raise (HTTPException HTTP_403_FORBIDDEN "Insufficient permissions")
      else Return u
  end.

End auth.

(* ================================================================= *)
(** ** main.py: the refresh ledger and the session endpoints *)

Module main.

Definition _hash_refresh_token (settings : Settings) (token : string)
  : hashlib.hexdigest :=
  hashlib.sha256 (token ++ secret_key settings)%string.

(** [db.add(record); db.commit()].  The unique index on [token_hash]
    rejects a second row with a hash already in the table. *)
Definition _issue_refresh_token (settings : Settings) (db : DB) (now : Z)
           (raw : string) (user_id : Z) : DB * outcome string :=
  let token_hash := _hash_refresh_token settings raw in
  let expires :=
    now + timedelta_minutes (refresh_token_expire_minutes settings) in
  let record :=
    {| RefreshToken.id := next_id RefreshToken.id (refresh_tokens db);
       RefreshToken.user_id := user_id;
       RefreshToken.token_hash := token_hash;
       RefreshToken.expires_at := expires;
       RefreshToken.revoked := false;
       RefreshToken.created_at := now |} in
  if existsb (fun r => hashlib.eqb (RefreshToken.token_hash r) token_hash)
             (refresh_tokens db)
  then (db, Raise IntegrityError)
  else (with_refresh_tokens db (refresh_tokens db ++ [record]), Return raw).

(** [query.filter(token_hash == h).update({"revoked": True}); db.commit()]. *)
Definition _revoke_refresh_token (db : DB) (token_hash : hashlib.hexdigest)
  : DB :=
  with_refresh_tokens db
    (RefreshToken.update_revoked
       (fun r => hashlib.eqb (RefreshToken.token_hash r) token_hash)
       (refresh_tokens db)).

Definition login_for_access_token (settings : Settings) (db : DB) (now : Z)
           (raw jti : string) (username password : string)
  : DB * outcome schemas.Token.t :=
  match auth.authenticate_user db username password with
  | Raise e => (db, Raise e)
  | Return None =>
      (db, Raise (HTTPException HTTP_401_UNAUTHORIZED
                                "Incorrect email or password"))
  | Return (Some user) =>
      let access_token :=
        auth.create_access_token settings now jti (User.id user) None in
      match _issue_refresh_token settings db now raw (User.id user) with
      | (db', Raise e) => (db', Raise e)
      | (db', Return refresh_token) =>
          (db', Return {| schemas.Token.access_token := access_token;
                          schemas.Token.token_type := "bearer";
                          schemas.Token.refresh_token := Some refresh_token |})
      end
  end.

(** The row the [/auth/refresh] query selects. *)
Definition refresh_lookup (db : DB) (token_hash : hashlib.hexdigest)
           (now : Z) : option RefreshToken.t :=
  find (fun r =>
          hashlib.eqb (RefreshToken.token_hash r) token_hash
          && negb (RefreshToken.revoked r)
          && (now <? RefreshToken.expires_at r))
       (refresh_tokens db).

(** [record.revoked = True; db.commit()]: the row with the record's
    primary key is written back. *)
Definition revoke_record (db : DB) (record : RefreshToken.t) : DB :=
  with_refresh_tokens db
    (RefreshToken.update_revoked
       (fun r => RefreshToken.id r =? RefreshToken.id record)
       (refresh_tokens db)).

Definition refresh_token (settings : Settings) (db : DB) (now : Z)
           (raw jti : string) (payload_refresh_token : string)
  : DB * outcome schemas.Token.t :=
  let token_hash := _hash_refresh_token settings payload_refresh_token in
  match refresh_lookup db token_hash now with
  | None =>
      (db, Raise (HTTPException HTTP_401_UNAUTHORIZED "Invalid refresh token"))
  | Some record =>
      match get_User db (RefreshToken.user_id record) with
      | None =>
          (db, Raise (HTTPException HTTP_401_UNAUTHORIZED "User inactive"))
      | Some user =>
          if negb (User.active user)
          then (db, Raise (HTTPException HTTP_401_UNAUTHORIZED "User inactive"))
          else
            let db1 := revoke_record db record in
            match _issue_refresh_token settings db1 now raw (User.id user) with
            | (db2, Raise e) => (db2, Raise e)
            | (db2, Return new_refresh) =>
                let access_token :=
                  auth.create_access_token settings now jti (User.id user) None in
                (db2, Return {| schemas.Token.access_token := access_token;
                                schemas.Token.token_type := "bearer";
                                schemas.Token.refresh_token := Some new_refresh |})
            end
      end
  end.

(** [/auth/logout]: status 204, no body. *)
Definition logout (settings : Settings) (db : DB)
           (payload_refresh_token : string) : DB * outcome unit :=
  let token_hash := _hash_refresh_token settings payload_refresh_token in
  (_revoke_refresh_token db token_hash, Return tt).

(* ----------------------------------------------------------------- *)
(** *** Tasks *)

Definition create_task (db : DB) (current_user : User.t)
           (task_in : schemas.TaskCreate.t) : DB * outcome Task.t :=
  match get_Department db (schemas.TaskCreate.department_id task_in) with
  | None =>
      (db, Raise (HTTPException HTTP_400_BAD_REQUEST "Department not found"))
  | Some _ =>
  match get_User db (schemas.TaskCreate.assigned_to_id task_in) with
  | None => (db, Raise (HTTPException HTTP_404_NOT_FOUND "Assignee not found"))
  | Some _ =>
  if Role_eqb (User.role current_user) manager
     && negb (opt_Z_eqb (User.department_id current_user)
                        (Some (schemas.TaskCreate.department_id task_in)))
  then (db, Raise (HTTPException HTTP_403_FORBIDDEN
                     "Managers can only create tasks in their department"))
  else if Role_eqb (User.role current_user) staff
          && negb (opt_Z_eqb (User.department_id current_user)
                             (Some (schemas.TaskCreate.department_id task_in)))
  then (db, Raise (HTTPException HTTP_403_FORBIDDEN
                     "Staff can only create tasks in their department"))
  else if Role_eqb (User.role current_user) staff
          && negb (User.id current_user
                   =? schemas.TaskCreate.assigned_to_id task_in)
  then (db, Raise (HTTPException HTTP_403_FORBIDDEN
                     "Staff can only assign tasks to themselves"))
  else if schemas.TaskCreate.end_date task_in
          <? schemas.TaskCreate.start_date task_in
  then (db, Raise (HTTPException HTTP_400_BAD_REQUEST
                     "End date must be after start date"))
  else
    let db_task :=
      {| Task.id := next_id Task.id (tasks db);
         Task.title := schemas.TaskCreate.title task_in;
         Task.start_date := schemas.TaskCreate.start_date task_in;
         Task.end_date := schemas.TaskCreate.end_date task_in;
         Task.department_id := schemas.TaskCreate.department_id task_in;
         Task.assigned_to_id := schemas.TaskCreate.assigned_to_id task_in;
         Task.created_by_id := User.id current_user |} in
    (with_tasks db (tasks db ++ [db_task]), Return db_task)
  end end.

Definition _task_guard (task : Task.t) (user : User.t) : outcome unit :=
  if Role_eqb (User.role user) admin then Return tt
  else if Role_eqb (User.role user) manager
          && negb (opt_Z_eqb (User.department_id user)
                             (Some (Task.department_id task)))
  then Raise (HTTPException HTTP_403_FORBIDDEN "Not allowed outside department")
  else if Role_eqb (User.role user) staff
          && negb (existsb (Z.eqb (User.id user)) [Task.assigned_to_id task])
  then Raise (HTTPException HTTP_403_FORBIDDEN "Task not assigned to you")
  else Return tt.

Definition get_task (db : DB) (task_id : Z) (current_user : User.t)
  : outcome Task.t :=
  match get_Task db task_id with
  | None => Raise (HTTPException HTTP_404_NOT_FOUND "Task not found")
  | Some db_task =>
      match _task_guard db_task current_user with
      | Raise e => Raise e
      | Return _ => Return db_task
      end
  end.

Definition delete_task (db : DB) (task_id : Z) (current_user : User.t)
  : DB * outcome unit :=
  match get_Task db task_id with
  | None => (db, Raise (HTTPException HTTP_404_NOT_FOUND "Task not found"))
  | Some db_task =>
      let deleted :=
        (with_tasks db
           (filter (fun t => negb (Task.id t =? Task.id db_task)) (tasks db)),
         Return tt) in
      match User.role current_user with
      | admin => deleted
      | manager =>
          if negb (opt_Z_eqb (User.department_id current_user)
                             (Some (Task.department_id db_task)))
          then (db, Raise (HTTPException HTTP_403_FORBIDDEN
                             "Managers can only delete tasks in their department"))
          else deleted
      | staff =>
          if negb (Task.assigned_to_id db_task =? User.id current_user)
          then (db, Raise (HTTPException HTTP_403_FORBIDDEN
                             "Staff can only delete their own tasks"))
          else deleted
      | collaborator =>
          (db, Raise (HTTPException HTTP_403_FORBIDDEN
                        "Not allowed to delete tasks"))
      end
  end.

(* ----------------------------------------------------------------- *)
(** *** Events *)

(** The role check that opens [update_event] and [delete_event]. *)
Definition event_role_check (db_event : Event.t) (current_user : User.t)
           (manager_detail other_detail : string) : outcome unit :=
  if Role_eqb (User.role current_user) manager then
    if negb (opt_Z_eqb (Event.department_id db_event)
                       (User.department_id current_user))
       || opt_Z_eqb (Event.department_id db_event) None
    then Raise (HTTPException HTTP_403_FORBIDDEN manager_detail)
    else Return tt
  else if negb (Role_eqb (User.role current_user) admin)
  then Raise (HTTPException HTTP_403_FORBIDDEN other_detail)
  else Return tt.

Definition set_title (e : Event.t) (v : string) : Event.t :=
  {| Event.id := Event.id e; Event.title := v;
     Event.description := Event.description e;
     Event.scheduled_at := Event.scheduled_at e;
     Event.department_id := Event.department_id e |}.

Definition set_description (e : Event.t) (v : string) : Event.t :=
  {| Event.id := Event.id e; Event.title := Event.title e;
     Event.description := Some v;
     Event.scheduled_at := Event.scheduled_at e;
     Event.department_id := Event.department_id e |}.

Definition set_scheduled_at (e : Event.t) (v : Z) : Event.t :=
  {| Event.id := Event.id e; Event.title := Event.title e;
     Event.description := Event.description e;
     Event.scheduled_at := v;
     Event.department_id := Event.department_id e |}.

Definition set_department_id (e : Event.t) (v : Z) : Event.t :=
  {| Event.id := Event.id e; Event.title := Event.title e;
     Event.description := Event.description e;
     Event.scheduled_at := Event.scheduled_at e;
     Event.department_id := Some v |}.

(** One field of [event_update.model_dump(exclude_none=True)]. *)
Inductive field : Type :=
| f_title (v : string)
| f_description (v : string)
| f_scheduled_at (v : Z)
| f_department_id (v : Z).

Definition model_dump_exclude_none (u : schemas.EventUpdate.t) : list field :=
  match schemas.EventUpdate.title u with
  | Some v => [f_title v] | None => [] end
  ++ match schemas.EventUpdate.description u with
     | Some v => [f_description v] | None => [] end
  ++ match schemas.EventUpdate.scheduled_at u with
     | Some v => [f_scheduled_at v] | None => [] end
  ++ match schemas.EventUpdate.department_id u with
     | Some v => [f_department_id v] | None => [] end.

(** The [for field, value in ...] loop of [update_event]. *)
Fixpoint apply_fields (current_user : User.t) (fields : list field)
         (db_event : Event.t) : outcome Event.t :=
  match fields with
  | [] => Return db_event
  | f_department_id v :: rest =>
      if Role_eqb (User.role current_user) manager
         && negb (opt_Z_eqb (Some v) (User.department_id current_user))
      then Raise (HTTPException HTTP_403_FORBIDDEN
                    "Cannot move events outside your department")
      else apply_fields current_user rest (set_department_id db_event v)
  | f_title v :: rest => apply_fields current_user rest (set_title db_event v)
  | f_description v :: rest =>
      apply_fields current_user rest (set_description db_event v)
  | f_scheduled_at v :: rest =>
      apply_fields current_user rest (set_scheduled_at db_event v)
  end.

Definition update_event (db : DB) (event_id : Z)
           (event_update : schemas.EventUpdate.t) (current_user : User.t)
  : DB * outcome Event.t :=
  match get_Event db event_id with
  | None => (db, Raise (HTTPException HTTP_404_NOT_FOUND "Event not found"))
  | Some db_event =>
      match event_role_check db_event current_user
              "Managers cannot modify shared or other department events"
              "Not allowed to update events" with
      | Raise e => (db, Raise e)
      | Return _ =>
          match apply_fields current_user
                  (model_dump_exclude_none event_update) db_event with
          | Raise e => (db, Raise e)
          | Return updated =>
              (with_events db
                 (map (fun e => if Event.id e =? Event.id db_event
                                then updated else e) (events db)),
               Return updated)
          end
      end
  end.

Definition delete_event (db : DB) (event_id : Z) (current_user : User.t)
  : DB * outcome unit :=
  match get_Event db event_id with
  | None => (db, Raise (HTTPException HTTP_404_NOT_FOUND "Event not found"))
  | Some db_event =>
      match event_role_check db_event current_user
              "Managers cannot delete shared or other department events"
              "Not allowed to delete events" with
      | Raise e => (db, Raise e)
      | Return _ =>
          (with_events db
             (filter (fun e => negb (Event.id e =? Event.id db_event))
                     (events db)),
           Return tt)
      end
  end.

(* ----------------------------------------------------------------- *)
(** *** Users *)

(** [f"Password must be at least {settings.password_min_length} characters"]
    under status 400. *)
Definition password_too_short (acct : AccountSettings) : exn :=
  HTTPException HTTP_400_BAD_REQUEST
    ("Password must be at least "
       ++ NilZero.string_of_int (Z.to_int (password_min_length acct))
       ++ " characters")%string.

Definition create_user (acct : AccountSettings) (db : DB) (salt : string)
           (user_in : schemas.UserCreate.t) (current_user : User.t)
  : DB * outcome User.t :=
  match auth.require_role [admin; manager] (Return current_user) with
  | Raise e => (db, Raise e)
  | Return current_user =>
      if Role_eqb (User.role current_user) manager
         && Role_eqb (schemas.UserCreate.role user_in) admin
      then (db, Raise (HTTPException HTTP_403_FORBIDDEN
                         "Managers cannot create admins"))
      else if Role_eqb (User.role current_user) manager
              && not_in_none_or (schemas.UserCreate.department_id user_in)
                                (User.department_id current_user)
      then (db, Raise (HTTPException HTTP_403_FORBIDDEN
                         "Managers can only create users in their department"))
      else
        let user_department_id :=
          if Role_eqb (User.role current_user) manager
          then User.department_id current_user
          else schemas.UserCreate.department_id user_in in
        if len (schemas.UserCreate.password user_in) <? password_min_length acct
        then (db, Raise (password_too_short acct))
        else
          match auth.get_user db (schemas.UserCreate.email user_in) with
          | Some _ =>
              (db, Raise (HTTPException HTTP_400_BAD_REQUEST
                            "Email already registered"))
          | None =>
              match auth.get_password_hash salt
                      (schemas.UserCreate.password user_in) with
              | Raise e => (db, Raise e)
              | Return hashed_password =>
                  let db_user :=
                    {| User.id := next_id User.id (users db);
                       User.full_name := schemas.UserCreate.full_name user_in;
                       User.email := schemas.UserCreate.email user_in;
                       User.hashed_password := hashed_password;
                       User.department_id := user_department_id;
                       User.role := schemas.UserCreate.role user_in;
                       User.active := schemas.UserCreate.active user_in |} in
                  (with_users db (users db ++ [db_user]), Return db_user)
              end
          end
  end.

Definition set_full_name (u : User.t) (v : string) : User.t :=
  {| User.id := User.id u; User.full_name := v; User.email := User.email u;
     User.hashed_password := User.hashed_password u;
     User.department_id := User.department_id u; User.role := User.role u;
     User.active := User.active u |}.

Definition set_user_department_id (u : User.t) (v : Z) : User.t :=
  {| User.id := User.id u; User.full_name := User.full_name u;
     User.email := User.email u;
     User.hashed_password := User.hashed_password u;
     User.department_id := Some v; User.role := User.role u;
     User.active := User.active u |}.

Definition set_role (u : User.t) (v : Role) : User.t :=
  {| User.id := User.id u; User.full_name := User.full_name u;
     User.email := User.email u;
     User.hashed_password := User.hashed_password u;
     User.department_id := User.department_id u; User.role := v;
     User.active := User.active u |}.

Definition set_active (u : User.t) (v : bool) : User.t :=
  {| User.id := User.id u; User.full_name := User.full_name u;
     User.email := User.email u;
     User.hashed_password := User.hashed_password u;
     User.department_id := User.department_id u; User.role := User.role u;
     User.active := v |}.

Definition set_hashed_password (u : User.t) (v : passlib.bcrypt_hash)
  : User.t :=
  {| User.id := User.id u; User.full_name := User.full_name u;
     User.email := User.email u; User.hashed_password := v;
     User.department_id := User.department_id u; User.role := User.role u;
     User.active := User.active u |}.

(** One field of [user_update.model_dump(exclude_none=True)]. *)
Inductive user_field : Type :=
| uf_full_name (v : string)
| uf_department_id (v : Z)
| uf_role (v : Role)
| uf_active (v : bool)
| uf_password (v : string).

Definition model_dump_user_update (u : schemas.UserUpdate.t)
  : list user_field :=
  match schemas.UserUpdate.full_name u with
  | Some v => [uf_full_name v] | None => [] end
  ++ match schemas.UserUpdate.department_id u with
     | Some v => [uf_department_id v] | None => [] end
  ++ match schemas.UserUpdate.role u with
     | Some v => [uf_role v] | None => [] end
  ++ match schemas.UserUpdate.active u with
     | Some v => [uf_active v] | None => [] end
  ++ match schemas.UserUpdate.password u with
     | Some v => [uf_password v] | None => [] end.

(** The [for field, value in ...] loop of [update_user]. *)
Fixpoint apply_user_fields (acct : AccountSettings) (salt : string)
         (fields : list user_field) (db_user : User.t) : outcome User.t :=
  match fields with
  | [] => Return db_user
  | uf_password v :: rest =>
      if len v <? password_min_length acct
      then Raise (password_too_short acct)
      else
        match auth.get_password_hash salt v with
        | Raise e => Raise e
        | Return hashed =>
            apply_user_fields acct salt rest
              (set_hashed_password db_user hashed)
        end
  | uf_full_name v :: rest =>
      apply_user_fields acct salt rest (set_full_name db_user v)
  | uf_department_id v :: rest =>
      apply_user_fields acct salt rest (set_user_department_id db_user v)
  | uf_role v :: rest =>
      apply_user_fields acct salt rest (set_role db_user v)
  | uf_active v :: rest =>
      apply_user_fields acct salt rest (set_active db_user v)
  end.

Definition update_user (acct : AccountSettings) (db : DB) (salt : string)
           (user_id : Z) (user_update : schemas.UserUpdate.t)
           (current_user : User.t) : DB * outcome User.t :=
  match auth.require_role [admin; manager] (Return current_user) with
  | Raise e => (db, Raise e)
  | Return current_user =>
      match get_User db user_id with
      | None =>
          (db, Raise (HTTPException HTTP_404_NOT_FOUND "User not found"))
      | Some db_user =>
          if Role_eqb (User.role current_user) manager
             && negb (opt_Z_eqb (User.department_id db_user)
                                (User.department_id current_user))
          then (db, Raise (HTTPException HTTP_403_FORBIDDEN
                             "Managers can only update their department"))
          else if Role_eqb (User.role current_user) manager
                  && match schemas.UserUpdate.role user_update with
                     | Some r => Role_eqb r admin
                     | None => false
                     end
          then (db, Raise (HTTPException HTTP_403_FORBIDDEN
                             "Managers cannot promote to admin"))
          else if Role_eqb (User.role current_user) manager
                  && not_in_none_or
                       (schemas.UserUpdate.department_id user_update)
                       (User.department_id current_user)
          then (db, Raise (HTTPException HTTP_403_FORBIDDEN
                    "Managers can only move users inside their department"))
          else
            match apply_user_fields acct salt
                    (model_dump_user_update user_update) db_user with
            | Raise e => (db, Raise e)
            | Return updated =>
                (with_users db
                   (map (fun u => if User.id u =? User.id db_user
                                  then updated else u) (users db)),
                 Return updated)
            end
      end
  end.

(* ----------------------------------------------------------------- *)
(** *** Access grants *)

Definition create_access_grant (db : DB)
           (grant : schemas.AccessGrantCreate.t) (current_user : User.t)
  : DB * outcome AccessGrant.t :=
  match auth.require_role [admin; manager] (Return current_user) with
  | Raise e => (db, Raise e)
  | Return current_user =>
      let db_grant :=
        {| AccessGrant.id := next_id AccessGrant.id (access_grants db);
           AccessGrant.user_id := schemas.AccessGrantCreate.user_id grant;
           AccessGrant.resource_type :=
             schemas.AccessGrantCreate.resource_type grant;
           AccessGrant.resource_id :=
             schemas.AccessGrantCreate.resource_id grant;
           AccessGrant.permission :=
             schemas.AccessGrantCreate.permission grant;
           AccessGrant.department_id :=
             schemas.AccessGrantCreate.department_id grant |} in
      let created :=
        (with_access_grants db (access_grants db ++ [db_grant]),
         Return db_grant) in
      if Role_eqb (User.role current_user) manager then
        if not_in_none_or (schemas.AccessGrantCreate.department_id grant)
                          (User.department_id current_user)
        then (db, Raise (HTTPException HTTP_403_FORBIDDEN
                           "Managers can only grant within their department"))
        else
          match get_User db (schemas.AccessGrantCreate.user_id grant) with
          | None =>
              (db, Raise (HTTPException HTTP_403_FORBIDDEN
                            "User not in your department"))
          | Some target =>
              if negb (opt_Z_eqb (User.department_id target)
                                 (User.department_id current_user))
              then (db, Raise (HTTPException HTTP_403_FORBIDDEN
                                 "User not in your department"))
              else created
          end
      else created
  end.

(* ----------------------------------------------------------------- *)
(** *** Task lists, escalation and update *)

Definition list_my_tasks (db : DB) (current_user : User.t) : list Task.t :=
  order_by_asc Task.end_date
    (filter (fun t => Task.assigned_to_id t =? User.id current_user)
            (tasks db)).

Definition list_department_tasks (db : DB) (current_user : User.t)
  : list Task.t :=
  match User.department_id current_user with
  | None => []
  | Some dept_id =>
      order_by_asc Task.end_date
        (filter (fun t => Task.department_id t =? dept_id) (tasks db))
  end.

Definition list_all_tasks (db : DB) (current_user : User.t) : list Task.t :=
  order_by_asc Task.end_date
    (if Role_eqb (User.role current_user) manager
     then filter (fun t => opt_Z_eqb (Some (Task.department_id t))
                                     (User.department_id current_user))
                 (tasks db)
     else if Role_eqb (User.role current_user) staff
     then filter (fun t => Task.assigned_to_id t =? User.id current_user)
                 (tasks db)
     else tasks db).

Definition set_assigned_to_id (t : Task.t) (v : Z) : Task.t :=
  {| Task.id := Task.id t; Task.title := Task.title t;
     Task.start_date := Task.start_date t; Task.end_date := Task.end_date t;
     Task.department_id := Task.department_id t; Task.assigned_to_id := v;
     Task.created_by_id := Task.created_by_id t |}.

Definition send_task_to_admin (db : DB) (task_id : Z) (current_user : User.t)
  : DB * outcome Task.t :=
  match get_Task db task_id with
  | None => (db, Raise (HTTPException HTTP_404_NOT_FOUND "Task not found"))
  | Some db_task =>
      match _task_guard db_task current_user with
      | Raise e => (db, Raise e)
      | Return _ =>
          match order_by_asc User.id
                  (filter (fun u => Role_eqb (User.role u) admin
                                    && User.active u) (users db)) with
          | [] =>
              (db, Raise (HTTPException HTTP_400_BAD_REQUEST
                            "No admin available to review"))
          | admin_user :: _ =>
              let updated := set_assigned_to_id db_task (User.id admin_user) in
              (with_tasks db
                 (map (fun t => if Task.id t =? Task.id db_task
                                then updated else t) (tasks db)),
               Return updated)
          end
      end
  end.

(** One field of [task_update.model_dump(exclude_none=True)]. *)
Inductive task_field : Type :=
| tf_title (v : string)
| tf_description (v : string)
| tf_status (v : TaskStatus)
| tf_start_date (v : Z)
| tf_end_date (v : Z)
| tf_due_date (v : Z)
| tf_assigned_to_id (v : Z)
| tf_department_id (v : Z).

Definition task_field_name (f : task_field) : string :=
  match f with
  | tf_title _ => "title"
  | tf_description _ => "description"
  | tf_status _ => "status"
  | tf_start_date _ => "start_date"
  | tf_end_date _ => "end_date"
  | tf_due_date _ => "due_date"
  | tf_assigned_to_id _ => "assigned_to_id"
  | tf_department_id _ => "department_id"
  end.

Definition model_dump_task_update (u : schemas.TaskUpdate.t)
  : list task_field :=
  match schemas.TaskUpdate.title u with
  | Some v => [tf_title v] | None => [] end
  ++ match schemas.TaskUpdate.description u with
     | Some v => [tf_description v] | None => [] end
  ++ match schemas.TaskUpdate.status u with
     | Some v => [tf_status v] | None => [] end
  ++ match schemas.TaskUpdate.start_date u with
     | Some v => [tf_start_date v] | None => [] end
  ++ match schemas.TaskUpdate.end_date u with
     | Some v => [tf_end_date v] | None => [] end
  ++ match schemas.TaskUpdate.due_date u with
     | Some v => [tf_due_date v] | None => [] end
  ++ match schemas.TaskUpdate.assigned_to_id u with
     | Some v => [tf_assigned_to_id v] | None => [] end
  ++ match schemas.TaskUpdate.department_id u with
     | Some v => [tf_department_id v] | None => [] end.

(** [task_update.model_fields.keys()]. *)
Definition task_update_model_fields : list string :=
  ["title"; "description"; "status"; "start_date"; "end_date"; "due_date";
   "assigned_to_id"; "department_id"].

Definition allowed_fields (current_user : User.t) : list string :=
  if Role_eqb (User.role current_user) staff
  then ["status"; "description"; "due_date"; "start_date"; "end_date"]
  else if Role_eqb (User.role current_user) manager
  then ["status"; "description"; "due_date"; "start_date"; "end_date"]
  else task_update_model_fields.

Definition with_task (r : TaskRow.t) (t : Task.t) : TaskRow.t :=
  {| TaskRow.task := t; TaskRow.description := TaskRow.description r;
     TaskRow.status := TaskRow.status r; TaskRow.due_date := TaskRow.due_date r;
     TaskRow.completed_at := TaskRow.completed_at r |}.

Definition with_completed_at (r : TaskRow.t) (v : option Z) : TaskRow.t :=
  {| TaskRow.task := TaskRow.task r;
     TaskRow.description := TaskRow.description r;
     TaskRow.status := TaskRow.status r; TaskRow.due_date := TaskRow.due_date r;
     TaskRow.completed_at := v |}.

(** [setattr(db_task, field, value)]. *)
Definition setattr_task (r : TaskRow.t) (f : task_field) : TaskRow.t :=
  let t := TaskRow.task r in
  match f with
  | tf_title v =>
      with_task r
        {| Task.id := Task.id t; Task.title := v;
           Task.start_date := Task.start_date t;
           Task.end_date := Task.end_date t;
           Task.department_id := Task.department_id t;
           Task.assigned_to_id := Task.assigned_to_id t;
           Task.created_by_id := Task.created_by_id t |}
  | tf_description v =>
      {| TaskRow.task := t; TaskRow.description := Some v;
         TaskRow.status := TaskRow.status r;
         TaskRow.due_date := TaskRow.due_date r;
         TaskRow.completed_at := TaskRow.completed_at r |}
  | tf_status v =>
      {| TaskRow.task := t; TaskRow.description := TaskRow.description r;
         TaskRow.status := v; TaskRow.due_date := TaskRow.due_date r;
         TaskRow.completed_at := TaskRow.completed_at r |}
  | tf_start_date v =>
      with_task r
        {| Task.id := Task.id t; Task.title := Task.title t;
           Task.start_date := v; Task.end_date := Task.end_date t;
           Task.department_id := Task.department_id t;
           Task.assigned_to_id := Task.assigned_to_id t;
           Task.created_by_id := Task.created_by_id t |}
  | tf_end_date v =>
      with_task r
        {| Task.id := Task.id t; Task.title := Task.title t;
           Task.start_date := Task.start_date t; Task.end_date := v;
           Task.department_id := Task.department_id t;
           Task.assigned_to_id := Task.assigned_to_id t;
           Task.created_by_id := Task.created_by_id t |}
  | tf_due_date v =>
      {| TaskRow.task := t; TaskRow.description := TaskRow.description r;
         TaskRow.status := TaskRow.status r; TaskRow.due_date := Some v;
         TaskRow.completed_at := TaskRow.completed_at r |}
  | tf_assigned_to_id v => with_task r (set_assigned_to_id t v)
  | tf_department_id v =>
      with_task r
        {| Task.id := Task.id t; Task.title := Task.title t;
           Task.start_date := Task.start_date t;
           Task.end_date := Task.end_date t;
           Task.department_id := v;
           Task.assigned_to_id := Task.assigned_to_id t;
           Task.created_by_id := Task.created_by_id t |}
  end.

(** The [for field, value in ...] loop of [update_task]. *)
Fixpoint apply_task_fields (allowed : list string) (fields : list task_field)
         (db_task : TaskRow.t) : TaskRow.t :=
  match fields with
  | [] => db_task
  | f :: rest =>
      if negb (existsb (String.eqb (task_field_name f)) allowed)
      then apply_task_fields allowed rest db_task
      else apply_task_fields allowed rest (setattr_task db_task f)
  end.

(** [update_task] on the [tasks] table with all its columns. *)
Definition update_task (rows : list TaskRow.t) (now : Z) (task_id : Z)
           (task_update : schemas.TaskUpdate.t) (current_user : User.t)
  : list TaskRow.t * outcome TaskRow.t :=
  match find (fun r => Task.id (TaskRow.task r) =? task_id) rows with
  | None => (rows, Raise (HTTPException HTTP_404_NOT_FOUND "Task not found"))
  | Some db_task =>
      match _task_guard (TaskRow.task db_task) current_user with
      | Raise e => (rows, Raise e)
      | Return _ =>
          let t1 :=
            apply_task_fields (allowed_fields current_user)
              (model_dump_task_update task_update) db_task in
          if Task.end_date (TaskRow.task t1) <? Task.start_date (TaskRow.task t1)
          then (rows, Raise (HTTPException HTTP_400_BAD_REQUEST
                               "End date must be after start date"))
          else
            let t2 :=
              if TaskStatus_eqb (TaskRow.status t1) done
                 && match TaskRow.completed_at t1 with
                    | None => true | Some _ => false end
              then with_completed_at t1 (Some now)
              else if negb (TaskStatus_eqb (TaskRow.status t1) done)
              then with_completed_at t1 None
              else t1 in
            (map (fun r => if Task.id (TaskRow.task r)
                              =? Task.id (TaskRow.task db_task)
                           then t2 else r) rows,
             Return t2)
      end
  end.

(* ----------------------------------------------------------------- *)
(** *** Creating events and meetings *)

(** [department_id is not None and not db.get(models.Department, _)]. *)
Definition department_missing (db : DB) (department_id : option Z) : bool :=
  match department_id with
  | None => false
  | Some d => match get_Department db d with None => true | Some _ => false end
  end.

Definition create_event (db : DB) (event_in : schemas.EventCreate.t)
           (current_user : User.t) : DB * outcome Event.t :=
  match auth.require_role [admin; manager] (Return current_user) with
  | Raise e => (db, Raise e)
  | Return current_user =>
      if Role_eqb (User.role current_user) manager
         && not_in_none_or (schemas.EventCreate.department_id event_in)
                           (User.department_id current_user)
      then (db, Raise (HTTPException HTTP_403_FORBIDDEN
                  "Managers can only post to their department or shared"))
      else if department_missing db (schemas.EventCreate.department_id event_in)
      then (db, Raise (HTTPException HTTP_400_BAD_REQUEST
                         "Department not found"))
      else
        let db_event :=
          {| Event.id := next_id Event.id (events db);
             Event.title := schemas.EventCreate.title event_in;
             Event.description := schemas.EventCreate.description event_in;
             Event.scheduled_at := schemas.EventCreate.scheduled_at event_in;
             Event.department_id :=
               schemas.EventCreate.department_id event_in |} in
        (with_events db (events db ++ [db_event]), Return db_event)
  end.

Definition schedule_meeting (db : DB) (meeting : schemas.EventCreate.t)
           (current_user : User.t) : DB * outcome Event.t :=
  if Role_eqb (User.role current_user) manager
     && not_in_none_or (schemas.EventCreate.department_id meeting)
                       (User.department_id current_user)
  then (db, Raise (HTTPException HTTP_403_FORBIDDEN
    "Managers can only schedule meetings for their department or shared"))
  else if Role_eqb (User.role current_user) staff
          && not_in_none_or (schemas.EventCreate.department_id meeting)
                            (User.department_id current_user)
  then (db, Raise (HTTPException HTTP_403_FORBIDDEN
    "Staff can only schedule meetings for their department or shared"))
  else if department_missing db (schemas.EventCreate.department_id meeting)
  then (db, Raise (HTTPException HTTP_400_BAD_REQUEST "Department not found"))
  else
    let description :=
      match schemas.EventCreate.description meeting with
      | None => Some "Scheduled meeting"
      | Some d => if String.eqb d "" then Some "Scheduled meeting" else Some d
      end in
    let db_event :=
      {| Event.id := next_id Event.id (events db);
         Event.title := schemas.EventCreate.title meeting;
         Event.description := description;
         Event.scheduled_at := schemas.EventCreate.scheduled_at meeting;
         Event.department_id := schemas.EventCreate.department_id meeting |} in
    (with_events db (events db ++ [db_event]), Return db_event).

(* ----------------------------------------------------------------- *)
(** *** Requests *)











(* ----------------------------------------------------------------- *)
(** *** Seeding the administrator *)

Inductive startup_exn : Type :=
| StartupIntegrityError
| RuntimeError (message : string)
| StartupPasswordValueError.

(** [seed_admin].  [db.flush()] sends the department insert, which the
    unique index on [departments.name] may refuse; nothing is committed
    before the final [db.commit()]. *)
Definition seed_admin (acct : AccountSettings) (db : DB) (salt : string)
  : DB * (startup_exn + unit) :=
  match auth.get_user db (admin_email acct) with
  | Some _ => (db, inr tt)
  | None =>
      if existsb (fun d => String.eqb (Department.name d) "Administration")
                 (departments db)
      then (db, inl StartupIntegrityError)
      else
        let dept :=
          {| Department.id := next_id Department.id (departments db);
             Department.name := "Administration" |} in
        if len (default_admin_password acct) <? password_min_length acct
        then (db, inl (RuntimeError
               "default_admin_password too short; update your environment"))
        else
          match auth.get_password_hash salt (default_admin_password acct) with
          | Raise _ => (db, inl StartupPasswordValueError)
          | Return hashed_password =>
              let admin_user :=
                {| User.id := next_id User.id (users db);
                   User.full_name := "System Admin";
                   User.email := admin_email acct;
                   User.hashed_password := hashed_password;
                   User.department_id := Some (Department.id dept);
                   User.role := admin;
                   User.active := true |} in
              ({| departments := departments db ++ [dept];
                  users := users db ++ [admin_user];
                  tasks := tasks db; events := events db;
                  refresh_tokens := refresh_tokens db;
                  access_grants := access_grants db |}, inr tt)
          end
  end.

End main.

(* ================================================================= *)
(** ** Vocabulary of the specification *)

(** The typed failures of the specification, as the responses the handlers
    raise. *)
Definition InvalidCredentials_login : exn :=
  HTTPException HTTP_401_UNAUTHORIZED "Incorrect email or password".

Definition InvalidToken : exn :=
  HTTPException HTTP_401_UNAUTHORIZED "Invalid refresh token".

Definition UserInactive : exn :=
  HTTPException HTTP_401_UNAUTHORIZED "User inactive".

Definition Allow {A : Type} (o : outcome A) : Prop := exists a, o = Return a.

Definition Forbidden {A : Type} (o : outcome A) : Prop :=
  exists detail, o = Raise (HTTPException HTTP_403_FORBIDDEN detail).

(** The unique index [ix_refresh_tokens_token_hash]. *)
Definition unique_token_hash (db : DB) : Prop :=
  NoDup (map RefreshToken.token_hash (refresh_tokens db)).

(** A secret whose hash no row of the ledger carries. *)
Definition fresh_secret (settings : Settings) (db : DB) (raw : string) : Prop :=
  forall r, In r (refresh_tokens db) ->
            RefreshToken.token_hash r <> main._hash_refresh_token settings raw.

(** Every row carrying the hash is revoked. *)
Definition all_revoked (h : hashlib.hexdigest) (db : DB) : Prop :=
  forall r, In r (refresh_tokens db) ->
            RefreshToken.token_hash r = h -> RefreshToken.revoked r = true.

(** The hash is in the ledger, on revoked rows only. *)
Definition spent (h : hashlib.hexdigest) (db : DB) : Prop :=
  (exists r, In r (refresh_tokens db) /\ RefreshToken.token_hash r = h)
  /\ all_revoked h db.

(** The ledger holds an unrevoked row for the secret, and it is not the row
    [record]. *)
Definition live (settings : Settings) (db : DB) (record : RefreshToken.t)
           (raw : string) : Prop :=
  exists r, In r (refresh_tokens db)
            /\ RefreshToken.token_hash r = main._hash_refresh_token settings raw
            /\ RefreshToken.revoked r = false
            /\ RefreshToken.id r <> RefreshToken.id record.

(** [r'] is the row [r] at a later time: every column as it was, except
    that [revoked] may have been set. *)
Definition later_row (r r' : RefreshToken.t) : Prop :=
  RefreshToken.id r' = RefreshToken.id r
  /\ RefreshToken.user_id r' = RefreshToken.user_id r
  /\ RefreshToken.token_hash r' = RefreshToken.token_hash r
  /\ RefreshToken.expires_at r' = RefreshToken.expires_at r
  /\ RefreshToken.created_at r' = RefreshToken.created_at r
  /\ (RefreshToken.revoked r = true -> RefreshToken.revoked r' = true).

(** Every row of [db] is still in [db'], the tables the session endpoints
    do not own are the same, and the ledger has not shrunk. *)
Definition ledger_extends (db db' : DB) : Prop :=
  (forall r, In r (refresh_tokens db) ->
             exists r', In r' (refresh_tokens db') /\ later_row r r')
  /\ (List.length (refresh_tokens db) <= List.length (refresh_tokens db'))%nat
  /\ departments db' = departments db
  /\ tasks db' = tasks db
  /\ events db' = events db
  /\ access_grants db' = access_grants db.

(** Requests that reach the database between two calls under study.
    [UsersChanged] stands for any committed write of the user handlers
    ([create_user], [update_user], [delete_user]): none of them touches the
    [refresh_tokens] table. *)
Inductive request : Type :=
| Login (now : Z) (raw jti : string) (username password : string)
| Refresh (now : Z) (raw jti : string) (token : string)
| Logout (token : string)
| UsersChanged (rows : list User.t).

Definition step (settings : Settings) (db : DB) (req : request) : DB :=
  match req with
  | Login now raw jti username password =>
      fst (main.login_for_access_token settings db now raw jti username password)
  | Refresh now raw jti token =>
      fst (main.refresh_token settings db now raw jti token)
  | Logout token => fst (main.logout settings db token)
  | UsersChanged rows => with_users db rows
  end.

Definition run (settings : Settings) (db : DB) (reqs : list request) : DB :=
  fold_left (step settings) reqs db.

(* ================================================================= *)
(** ** Two sessions on the refresh ledger *)

(** Every request runs [refresh_token] on a session of its own
    ([database.get_db]), and the engine of [database.py] sets no isolation
    level: a query reads what is committed when it runs, and [db.commit()]
    publishes the session's writes at once.  The handler meets the database
    at three points: its queries, the commit that revokes the row it
    selected, and the commit inside [_issue_refresh_token].  A thread is a
    request between two of these points, with the local variables the
    handler holds there. *)
Module refresh_thread.

Inductive t : Type :=
| Querying (now : Z) (raw jti : string) (payload_refresh_token : string)
| Revoking (now : Z) (raw jti : string) (record : RefreshToken.t)
           (user : User.t)
| Issuing (now : Z) (raw jti : string) (user : User.t)
| Responded (response : outcome schemas.Token.t).

Definition step (settings : Settings) (db : DB) (thread : t) : DB * t :=
  match thread with
  | Querying now raw jti payload_refresh_token =>
      let token_hash :=
        main._hash_refresh_token settings payload_refresh_token in
      match main.refresh_lookup db token_hash now with
      | None =>
          (db, Responded (Raise (HTTPException HTTP_401_UNAUTHORIZED
                                               "Invalid refresh token")))
      | Some record =>
          match get_User db (RefreshToken.user_id record) with
          | None =>
              (db, Responded (Raise (HTTPException HTTP_401_UNAUTHORIZED
                                                   "User inactive")))
          | Some user =>
              if negb (User.active user)
              then (db, Responded (Raise (HTTPException HTTP_401_UNAUTHORIZED
                                                        "User inactive")))
              else (db, Revoking now raw jti record user)
          end
      end
  | Revoking now raw jti record user =>
      (main.revoke_record db record, Issuing now raw jti user)
  | Issuing now raw jti user =>
      match main._issue_refresh_token settings db now raw (User.id user) with
      | (db2, Raise e) => (db2, Responded (Raise e))
      | (db2, Return new_refresh) =>
          let access_token :=
            auth.create_access_token settings now jti (User.id user) None in
          (db2, Responded
                  (Return {| schemas.Token.access_token := access_token;
                             schemas.Token.token_type := "bearer";
                             schemas.Token.refresh_token := Some new_refresh |}))
      end
  | Responded response => (db, Responded response)
  end.

(** One request served with no other session in between. *)
Definition alone (settings : Settings) (db : DB) (thread : t) : DB * t :=
  let (db1, t1) := step settings db thread in
  let (db2, t2) := step settings db1 t1 in
  step settings db2 t2.

Inductive who : Type := first | second.

(** Two requests, [a] and [b]; the schedule says whose step comes next. *)
Fixpoint interleave (settings : Settings) (db : DB) (a b : t)
         (schedule : list who) : DB * (t * t) :=
  match schedule with
  | [] => (db, (a, b))
  | first :: rest =>
      let (db', a') := step settings db a in
      interleave settings db' a' b rest
  | second :: rest =>
      let (db', b') := step settings db b in
      interleave settings db' a b' rest
  end.

(** The response of a rotation that went through. *)
Definition rotated (settings : Settings) (user : User.t) (now : Z)
           (raw jti : string) : schemas.Token.t :=
  {| schemas.Token.access_token :=
       auth.create_access_token settings now jti (User.id user) None;
     schemas.Token.token_type := "bearer";
     schemas.Token.refresh_token := Some raw |}.

(** Where a request that selected [record] for [user] stands [n] steps
    after its queries, when nothing stops it. *)
Definition after (settings : Settings) (record : RefreshToken.t)
           (user : User.t) (now : Z) (raw jti : string) (n : nat) : t :=
  match n with
  | O => Revoking now raw jti record user
  | S O => Issuing now raw jti user
  | S (S _) => Responded (Return (rotated settings user now raw jti))
  end.

(** The steps a schedule gives to one of the two requests. *)
Definition steps_of (w : who) (schedule : list who) : nat :=
  List.length
    (filter (fun x => match w, x with
                      | first, first | second, second => true
                      | _, _ => false
                      end) schedule).

End refresh_thread.

(** The grant match of the specification's escape hatch: same user, the
    resource type or the wildcard, the resource id or the wildcard ["all"],
    the permission.  The specification names no separate wildcard for the
    type; ["all"] is taken for both. *)
Definition grant_matches (g : AccessGrant.t) (user : User.t)
           (resource_type resource_id permission : string) : bool :=
  (AccessGrant.user_id g =? User.id user)
  && (String.eqb (AccessGrant.resource_type g) resource_type
      || String.eqb (AccessGrant.resource_type g) "all")
  && (String.eqb (AccessGrant.resource_id g) resource_id
      || String.eqb (AccessGrant.resource_id g) "all")
  && String.eqb (AccessGrant.permission g) permission.

(* ================================================================= *)
(** ** Sample data *)

Module sample.

Definition finance : Department.t :=
  {| Department.id := 1; Department.name := "Finance" |}.
Definition hr : Department.t :=
  {| Department.id := 2; Department.name := "HR" |}.

Definition mk_user (id : Z) (email : string) (dept : option Z) (r : Role)
           (is_active : bool) : User.t :=
  {| User.id := id; User.full_name := email; User.email := email;
     User.hashed_password := passlib.bcrypt "salt" "s3cretpass";
     User.department_id := dept; User.role := r; User.active := is_active |}.

Definition alice : User.t := mk_user 1 "alice@example.com" (Some 1) admin true.
Definition mona : User.t := mk_user 2 "mona@example.com" (Some 1) manager true.
Definition sam : User.t := mk_user 3 "sam@example.com" (Some 1) staff true.
Definition stella : User.t := mk_user 4 "stella@example.com" (Some 1) staff true.
Definition sam_inactive : User.t := mk_user 3 "sam@example.com" (Some 1) staff false.

Definition task1 : Task.t :=
  {| Task.id := 1; Task.title := "Quarterly report"; Task.start_date := 10;
     Task.end_date := 20; Task.department_id := 1; Task.assigned_to_id := 3;
     Task.created_by_id := 2 |}.

Definition event1 : Event.t :=
  {| Event.id := 1; Event.title := "Budget review"; Event.description := None;
     Event.scheduled_at := 50; Event.department_id := Some 1 |}.

Definition grant_exact : AccessGrant.t :=
  {| AccessGrant.id := 1; AccessGrant.user_id := 4;
     AccessGrant.resource_type := "tasks"; AccessGrant.resource_id := "1";
     AccessGrant.permission := "view"; AccessGrant.department_id := Some 1 |}.

Definition grant_all : AccessGrant.t :=
  {| AccessGrant.id := 2; AccessGrant.user_id := 4;
     AccessGrant.resource_type := "tasks"; AccessGrant.resource_id := "all";
     AccessGrant.permission := "view"; AccessGrant.department_id := None |}.

Definition db0 : DB :=
  {| departments := [finance; hr];
     users := [alice; mona; sam; stella];
     tasks := [task1];
     events := [event1];
     refresh_tokens := [];
     access_grants := [grant_exact; grant_all] |}.

(** [db0] after [sam] has been deactivated by [update_user]. *)
Definition users_sam_inactive : list User.t := [alice; mona; sam_inactive; stella].
Definition db0_sam_inactive : DB := with_users db0 users_sam_inactive.

(** [sam] logs in at time 100 and draws the secret ["secret-1"]. *)
Definition db1 : DB :=
  fst (main.login_for_access_token default_settings db0 100 "secret-1" "jti-1"
         "sam@example.com" "s3cretpass").

(** The ledger row [db1] holds for ["secret-1"]. *)
Definition record1 : RefreshToken.t :=
  {| RefreshToken.id := 1; RefreshToken.user_id := 3;
     RefreshToken.token_hash :=
       main._hash_refresh_token default_settings "secret-1";
     RefreshToken.expires_at := 100 + 60 * (60 * 24 * 7);
     RefreshToken.revoked := false; RefreshToken.created_at := 100 |}.


Definition rename : schemas.EventUpdate.t :=
  {| schemas.EventUpdate.title := Some "Budget review (moved)";
     schemas.EventUpdate.description := None;
     schemas.EventUpdate.scheduled_at := None;
     schemas.EventUpdate.department_id := None |}.

Definition sam_token (exp_at : Z) : jwt.Token :=
  jwt.Signed "HS256" "change-me"
    {| jwt.sub := Some 3; jwt.exp := Some exp_at; jwt.iat := Some 0;
       jwt.jti := Some "jti-0" |}.

Definition carl : User.t := mk_user 5 "carl@example.com" (Some 2) collaborator true.

Definition task_for_sam : schemas.TaskCreate.t :=
  {| schemas.TaskCreate.title := "Inventory"; schemas.TaskCreate.start_date := 30;
     schemas.TaskCreate.end_date := 40; schemas.TaskCreate.department_id := 1;
     schemas.TaskCreate.assigned_to_id := 3 |}.

Definition task_elsewhere : schemas.TaskCreate.t :=
  {| schemas.TaskCreate.title := "Audit"; schemas.TaskCreate.start_date := 30;
     schemas.TaskCreate.end_date := 40; schemas.TaskCreate.department_id := 2;
     schemas.TaskCreate.assigned_to_id := 3 |}.

Definition shared_notice : schemas.EventCreate.t :=
  {| schemas.EventCreate.title := "Town hall";
     schemas.EventCreate.description := None;
     schemas.EventCreate.scheduled_at := 60;
     schemas.EventCreate.department_id := None |}.

Definition town_hall : Event.t :=
  {| Event.id := 2; Event.title := "Town hall"; Event.description := None;
     Event.scheduled_at := 60; Event.department_id := None |}.

Definition town_hall_meeting : Event.t :=
  {| Event.id := 2; Event.title := "Town hall";
     Event.description := Some "Scheduled meeting";
     Event.scheduled_at := 60; Event.department_id := None |}.

Definition db0_no_admin : DB := with_users db0 [mona; sam; stella].

Definition new_hire : schemas.UserCreate.t :=
  {| schemas.UserCreate.full_name := "Nora New";
     schemas.UserCreate.email := "nora@example.com";
     schemas.UserCreate.department_id := None;
     schemas.UserCreate.role := staff;
     schemas.UserCreate.active := true;
     schemas.UserCreate.password := "longenough" |}.

Definition nora : User.t :=
  {| User.id := 5; User.full_name := "Nora New";
     User.email := "nora@example.com";
     User.hashed_password := passlib.bcrypt "salt-2" "longenough";
     User.department_id := Some 1; User.role := staff; User.active := true |}.

Definition new_password : schemas.UserUpdate.t :=
  {| schemas.UserUpdate.full_name := None;
     schemas.UserUpdate.department_id := None;
     schemas.UserUpdate.role := None;
     schemas.UserUpdate.active := None;
     schemas.UserUpdate.password := Some "correct horse" |}.

Definition sam_new_password : User.t :=
  {| User.id := 3; User.full_name := "sam@example.com";
     User.email := "sam@example.com";
     User.hashed_password := passlib.bcrypt "salt-3" "correct horse";
     User.department_id := Some 1; User.role := staff; User.active := true |}.

(** Seventy-two letters followed by one more. *)
Definition seventy_two : string :=
  "aaaaaaaaaaaaaaaaaaaaaaaaaaaaaaaaaaaaaaaaaaaaaaaaaaaaaaaaaaaaaaaaaaaaaaaa".
Definition seventy_two_b : string := (seventy_two ++ "b")%string.
Definition seventy_two_c : string := (seventy_two ++ "c")%string.

Definition long_hire : schemas.UserCreate.t :=
  {| schemas.UserCreate.full_name := "Lena Long";
     schemas.UserCreate.email := "lena@example.com";
     schemas.UserCreate.department_id := None;
     schemas.UserCreate.role := staff;
     schemas.UserCreate.active := true;
     schemas.UserCreate.password := seventy_two_b |}.

Definition lena : User.t :=
  {| User.id := 5; User.full_name := "Lena Long";
     User.email := "lena@example.com";
     User.hashed_password := passlib.bcrypt "salt-2" seventy_two;
     User.department_id := Some 1; User.role := staff; User.active := true |}.

Definition new_long_password : schemas.UserUpdate.t :=
  {| schemas.UserUpdate.full_name := None;
     schemas.UserUpdate.department_id := None;
     schemas.UserUpdate.role := None;
     schemas.UserUpdate.active := None;
     schemas.UserUpdate.password := Some seventy_two_b |}.

Definition sam_long_password : User.t :=
  {| User.id := 3; User.full_name := "sam@example.com";
     User.email := "sam@example.com";
     User.hashed_password := passlib.bcrypt "salt-3" seventy_two;
     User.department_id := Some 1; User.role := staff; User.active := true |}.






Definition row1 : TaskRow.t :=
  {| TaskRow.task := task1; TaskRow.description := None;
     TaskRow.status := in_progress; TaskRow.due_date := None;
     TaskRow.completed_at := None |}.

(** [sam] marks his task done and tries to rename and hand it over. *)
Definition finish_and_rename : schemas.TaskUpdate.t :=
  {| schemas.TaskUpdate.title := Some "Someone else's report";
     schemas.TaskUpdate.description := None;
     schemas.TaskUpdate.status := Some done;
     schemas.TaskUpdate.start_date := None;
     schemas.TaskUpdate.end_date := None;
     schemas.TaskUpdate.due_date := None;
     schemas.TaskUpdate.assigned_to_id := Some 4;
     schemas.TaskUpdate.department_id := Some 2 |}.

Definition row1_done : TaskRow.t :=
  {| TaskRow.task := task1; TaskRow.description := None;
     TaskRow.status := done; TaskRow.due_date := None;
     TaskRow.completed_at := Some 500 |}.

Definition grant_for_sam : schemas.AccessGrantCreate.t :=
  {| schemas.AccessGrantCreate.user_id := 3;
     schemas.AccessGrantCreate.resource_type := "donors";
     schemas.AccessGrantCreate.resource_id := "all";
     schemas.AccessGrantCreate.permission := "view";
     schemas.AccessGrantCreate.department_id := Some 1 |}.

Definition grant3 : AccessGrant.t :=
  {| AccessGrant.id := 3; AccessGrant.user_id := 3;
     AccessGrant.resource_type := "donors"; AccessGrant.resource_id := "all";
     AccessGrant.permission := "view"; AccessGrant.department_id := Some 1 |}.

End sample.

(* ================================================================= *)
(** ** Basic facts about the model *)

Lemma hashlib_eqb_eq (a b : hashlib.hexdigest) :
  hashlib.eqb a b = true <-> a = b.
Proof.
  destruct a as [x], b as [y]; simpl.
  rewrite String.eqb_eq. split; congruence.
Qed.

Lemma hashlib_eqb_neq (a b : hashlib.hexdigest) :
  hashlib.eqb a b = false <-> a <> b.
Proof.
  rewrite <- hashlib_eqb_eq. destruct (hashlib.eqb a b); split; congruence.
Qed.

Lemma with_refresh_tokens_same (db : DB) :
  with_refresh_tokens db (refresh_tokens db) = db.
Proof. destruct db; reflexivity. Qed.

Lemma refresh_tokens_with_users (db : DB) (rows : list User.t) :
  refresh_tokens (with_users db rows) = refresh_tokens db.
Proof. reflexivity. Qed.

Lemma unique_hash_inj (l : list RefreshToken.t) :
  NoDup (map RefreshToken.token_hash l) ->
  forall r r', In r l -> In r' l ->
               RefreshToken.token_hash r = RefreshToken.token_hash r' -> r = r'.
Proof.
  induction l as [|x l IH]; simpl; intros Hnd r r' Hr Hr' Heq.
  - contradiction.
  - inversion Hnd as [|? ? Hnotin Hnd']; subst.
    destruct Hr as [->|Hr], Hr' as [->|Hr']; auto.
    + exfalso. apply Hnotin. rewrite Heq. now apply in_map.
    + exfalso. apply Hnotin. rewrite <- Heq. now apply in_map.
Qed.

(** Revoking keeps the hashes, never clears a [revoked] flag, and sets it
    on every selected row. *)
Lemma in_update_revoked (sel : RefreshToken.t -> bool)
      (rows : list RefreshToken.t) (r' : RefreshToken.t) :
  In r' (RefreshToken.update_revoked sel rows) ->
  exists r, In r rows
            /\ RefreshToken.token_hash r' = RefreshToken.token_hash r
            /\ (RefreshToken.revoked r = true -> RefreshToken.revoked r' = true)
            /\ (sel r = true -> RefreshToken.revoked r' = true).
Proof.
  unfold RefreshToken.update_revoked. intros Hin.
  apply in_map_iff in Hin as [r [<- Hin]].
  exists r. split; [exact Hin|].
  destruct (sel r); simpl; repeat split; auto; discriminate.
Qed.

Lemma update_revoked_in (sel : RefreshToken.t -> bool)
      (rows : list RefreshToken.t) (r : RefreshToken.t) :
  In r rows ->
  exists r', In r' (RefreshToken.update_revoked sel rows)
             /\ RefreshToken.token_hash r' = RefreshToken.token_hash r.
Proof.
  intros Hin.
  exists (if sel r then RefreshToken.set_revoked r true else r). split.
  - unfold RefreshToken.update_revoked. apply in_map_iff. now exists r.
  - now destruct (sel r).
Qed.

Lemma update_revoked_hashes (sel : RefreshToken.t -> bool)
      (rows : list RefreshToken.t) :
  map RefreshToken.token_hash (RefreshToken.update_revoked sel rows)
  = map RefreshToken.token_hash rows.
Proof.
  unfold RefreshToken.update_revoked. rewrite map_map.
  apply map_ext. intros r. now destruct (sel r).
Qed.

Lemma update_revoked_none (sel : RefreshToken.t -> bool)
      (rows : list RefreshToken.t) :
  (forall r, In r rows -> sel r = false) ->
  RefreshToken.update_revoked sel rows = rows.
Proof.
  unfold RefreshToken.update_revoked.
  induction rows as [|x rows IH]; simpl; intros H; [reflexivity|].
  rewrite (H x (or_introl eq_refl)).
  f_equal. apply IH. intros r Hr. apply H. now right.
Qed.

Lemma update_revoked_idem (sel : RefreshToken.t -> bool)
      (rows : list RefreshToken.t) :
  (forall r, sel (RefreshToken.set_revoked r true) = sel r) ->
  RefreshToken.update_revoked sel (RefreshToken.update_revoked sel rows)
  = RefreshToken.update_revoked sel rows.
Proof.
  intros Hsel. unfold RefreshToken.update_revoked.
  rewrite map_map. apply map_ext. intros r.
  destruct (sel r) eqn:E.
  - now rewrite Hsel, E.
  - now rewrite E.
Qed.

Lemma update_revoked_spent (sel : RefreshToken.t -> bool)
      (h : hashlib.hexdigest) (db : DB) :
  spent h db ->
  spent h (with_refresh_tokens db
             (RefreshToken.update_revoked sel (refresh_tokens db))).
Proof.
  intros [[r [Hin Hh]] Hall]. split.
  - destruct (update_revoked_in sel _ r Hin) as [r' [Hin' Hh']].
    exists r'. split; [exact Hin'|congruence].
  - intros r' Hin' Hh'. simpl in Hin'.
    apply in_update_revoked in Hin' as [r0 [Hin0 [Hh0 [Hmono _]]]].
    apply Hmono. apply Hall; [exact Hin0|congruence].
Qed.

Lemma update_revoked_unique (sel : RefreshToken.t -> bool) (db : DB) :
  unique_token_hash db ->
  unique_token_hash (with_refresh_tokens db
                       (RefreshToken.update_revoked sel (refresh_tokens db))).
Proof.
  unfold unique_token_hash. simpl. now rewrite update_revoked_hashes.
Qed.

(* ================================================================= *)
(** ** The refresh ledger *)

Lemma fresh_secret_existsb (settings : Settings) (db : DB) (raw : string) :
  existsb (fun r => hashlib.eqb (RefreshToken.token_hash r)
                                (main._hash_refresh_token settings raw))
          (refresh_tokens db) = false
  <-> fresh_secret settings db raw.
Proof.
  unfold fresh_secret. split.
  - intros He r Hin Heq.
    assert (Ht : existsb (fun r => hashlib.eqb (RefreshToken.token_hash r)
                            (main._hash_refresh_token settings raw))
                         (refresh_tokens db) = true).
    { apply existsb_exists. exists r. split; [exact Hin|].
      now apply hashlib_eqb_eq. }
    congruence.
  - intros Hf.
    destruct (existsb _ (refresh_tokens db)) eqn:E; [|reflexivity].
    apply existsb_exists in E as [r [Hin Heq]].
    apply hashlib_eqb_eq in Heq. exfalso. exact (Hf r Hin Heq).
Qed.

(** What [_issue_refresh_token] does, by cases on the unique index. *)
Lemma issue_cases (settings : Settings) (db : DB) (now : Z) (raw : string)
      (user_id : Z) :
  (~ fresh_secret settings db raw
   /\ main._issue_refresh_token settings db now raw user_id
      = (db, Raise IntegrityError))
  \/ (fresh_secret settings db raw
      /\ exists record,
          RefreshToken.token_hash record = main._hash_refresh_token settings raw
          /\ RefreshToken.user_id record = user_id
          /\ RefreshToken.revoked record = false
          /\ RefreshToken.expires_at record
             = now + timedelta_minutes (refresh_token_expire_minutes settings)
          /\ main._issue_refresh_token settings db now raw user_id
             = (with_refresh_tokens db (refresh_tokens db ++ [record]),
                Return raw)).
Proof.
  unfold main._issue_refresh_token.
  destruct (existsb _ (refresh_tokens db)) eqn:E.
  - left. split; [|reflexivity].
    intros Hf. apply fresh_secret_existsb in Hf. congruence.
  - right. split; [now apply fresh_secret_existsb|].
    eexists.
    refine (conj _ (conj _ (conj _ (conj _ eq_refl)))); reflexivity.
Qed.

Lemma issue_spent (settings : Settings) (db : DB) (now : Z) (raw : string)
      (user_id : Z) (h : hashlib.hexdigest) :
  spent h db ->
  spent h (fst (main._issue_refresh_token settings db now raw user_id)).
Proof.
  intros Hs.
  destruct (issue_cases settings db now raw user_id)
    as [[_ ->]|[Hf [record [Hh [_ [_ [_ ->]]]]]]]; simpl; [exact Hs|].
  destruct Hs as [[r [Hin Hr]] Hall]. split.
  - exists r. split; [apply in_or_app; now left|exact Hr].
  - intros r' Hin' Hh'. simpl in Hin'.
    apply in_app_or in Hin' as [Hin'|[<-|[]]]; [now apply Hall|].
    exfalso. apply (Hf r Hin). congruence.
Qed.

Lemma issue_unique (settings : Settings) (db : DB) (now : Z) (raw : string)
      (user_id : Z) :
  unique_token_hash db ->
  unique_token_hash (fst (main._issue_refresh_token settings db now raw user_id)).
Proof.
  intros Hu.
  destruct (issue_cases settings db now raw user_id)
    as [[_ ->]|[Hf [record [Hh [_ [_ [_ ->]]]]]]]; simpl; [exact Hu|].
  unfold unique_token_hash in *. simpl.
  rewrite map_app. simpl.
  apply NoDup_app; [exact Hu| | ].
  - constructor; [intros []|constructor].
  - intros x Hx [<-|[]].
    apply in_map_iff in Hx as [r [Hr Hin]].
    apply (Hf r Hin). congruence.
Qed.

Lemma refresh_lookup_all_revoked (db : DB) (h : hashlib.hexdigest) (now : Z) :
  all_revoked h db -> main.refresh_lookup db h now = None.
Proof.
  intros Hall. unfold main.refresh_lookup.
  destruct (find _ (refresh_tokens db)) as [r|] eqn:E; [|reflexivity].
  apply find_some in E as [Hin Hp].
  apply andb_true_iff in Hp as [Hp _].
  apply andb_true_iff in Hp as [Hh Hrev].
  apply hashlib_eqb_eq in Hh.
  rewrite (Hall r Hin Hh) in Hrev. discriminate.
Qed.

Lemma refresh_lookup_unique (db : DB) (h : hashlib.hexdigest) (now : Z)
      (record : RefreshToken.t) :
  unique_token_hash db ->
  In record (refresh_tokens db) ->
  RefreshToken.token_hash record = h ->
  RefreshToken.revoked record = false ->
  now < RefreshToken.expires_at record ->
  main.refresh_lookup db h now = Some record.
Proof.
  intros Hu Hin Hh Hrev Hexp. unfold main.refresh_lookup.
  destruct (find _ (refresh_tokens db)) as [r|] eqn:E.
  - apply find_some in E as [Hin' Hp].
    apply andb_true_iff in Hp as [Hp _].
    apply andb_true_iff in Hp as [Hh' _].
    apply hashlib_eqb_eq in Hh'.
    f_equal. apply (unique_hash_inj _ Hu); auto. congruence.
  - exfalso.
    pose proof (find_none _ _ E record Hin) as Hp. simpl in Hp.
    assert (Ht : hashlib.eqb (RefreshToken.token_hash record) h = true)
      by now apply hashlib_eqb_eq.
    rewrite Ht, Hrev in Hp. simpl in Hp.
    apply Z.ltb_ge in Hp. lia.
Qed.

(** A spent secret is refused whatever the clock and the draws are. *)
Lemma refresh_refuses_revoked (settings : Settings) (db : DB) (now : Z)
      (raw jti token : string) :
  all_revoked (main._hash_refresh_token settings token) db ->
  main.refresh_token settings db now raw jti token = (db, Raise InvalidToken).
Proof.
  intros Hall. unfold main.refresh_token.
  now rewrite (refresh_lookup_all_revoked _ _ now Hall).
Qed.

Lemma revoke_record_spent (db : DB) (record : RefreshToken.t)
      (h : hashlib.hexdigest) :
  spent h db -> spent h (main.revoke_record db record).
Proof. intros Hs. unfold main.revoke_record. now apply update_revoked_spent. Qed.

Lemma step_spent (settings : Settings) (h : hashlib.hexdigest) (db : DB)
      (req : request) :
  spent h db -> spent h (step settings db req).
Proof.
  intros Hs. destruct req as [now raw jti u p|now raw jti token|token|rows]; simpl.
  - unfold main.login_for_access_token.
    destruct (auth.authenticate_user db u p) as [[user|]|e0];
      [|exact Hs|exact Hs].
    pose proof (issue_spent settings db now raw (User.id user) h Hs) as Hi.
    destruct (main._issue_refresh_token settings db now raw (User.id user))
      as [db' [tok|e]]; exact Hi.
  - unfold main.refresh_token.
    destruct (main.refresh_lookup db _ now) as [record|]; [|exact Hs].
    destruct (get_User db (RefreshToken.user_id record)) as [user|]; [|exact Hs].
    destruct (negb (User.active user)); [exact Hs|].
    pose proof (issue_spent settings (main.revoke_record db record) now raw
                  (User.id user) h (revoke_record_spent db record h Hs)) as Hi.
    destruct (main._issue_refresh_token settings (main.revoke_record db record)
                now raw (User.id user)) as [db' [tok|e]]; exact Hi.
  - unfold main._revoke_refresh_token. now apply update_revoked_spent.
  - exact Hs.
Qed.

Lemma run_spent (settings : Settings) (h : hashlib.hexdigest)
      (reqs : list request) :
  forall db, spent h db -> spent h (run settings db reqs).
Proof.
  induction reqs as [|req reqs IH]; intros db Hs; simpl; [exact Hs|].
  apply IH. now apply step_spent.
Qed.

(** The unique index is an invariant of every request. *)
Lemma step_unique (settings : Settings) (db : DB) (req : request) :
  unique_token_hash db -> unique_token_hash (step settings db req).
Proof.
  intros Hu. destruct req as [now raw jti u p|now raw jti token|token|rows]; simpl.
  - unfold main.login_for_access_token.
    destruct (auth.authenticate_user db u p) as [[user|]|e0];
      [|exact Hu|exact Hu].
    pose proof (issue_unique settings db now raw (User.id user) Hu) as Hi.
    destruct (main._issue_refresh_token settings db now raw (User.id user))
      as [db' [tok|e]]; exact Hi.
  - unfold main.refresh_token.
    destruct (main.refresh_lookup db _ now) as [record|]; [|exact Hu].
    destruct (get_User db (RefreshToken.user_id record)) as [user|]; [|exact Hu].
    destruct (negb (User.active user)); [exact Hu|].
    assert (Hu1 : unique_token_hash (main.revoke_record db record))
      by (unfold main.revoke_record; now apply update_revoked_unique).
    pose proof (issue_unique settings _ now raw (User.id user) Hu1) as Hi.
    destruct (main._issue_refresh_token settings (main.revoke_record db record)
                now raw (User.id user)) as [db' [tok|e]]; exact Hi.
  - unfold main._revoke_refresh_token. now apply update_revoked_unique.
  - exact Hu.
Qed.

Lemma run_unique (settings : Settings) (reqs : list request) :
  forall db, unique_token_hash db -> unique_token_hash (run settings db reqs).
Proof.
  induction reqs as [|req reqs IH]; intros db Hu; simpl; [exact Hu|].
  apply IH. now apply step_unique.
Qed.

Lemma revoke_record_fresh (settings : Settings) (db : DB)
      (record : RefreshToken.t) (raw : string) :
  fresh_secret settings db raw ->
  fresh_secret settings (main.revoke_record db record) raw.
Proof.
  intros Hf r Hin. simpl in Hin.
  apply in_update_revoked in Hin as [r0 [Hin0 [Hh _]]].
  rewrite Hh. now apply Hf.
Qed.

Lemma revoke_record_revokes (db : DB) (record : RefreshToken.t) :
  unique_token_hash db ->
  In record (refresh_tokens db) ->
  spent (RefreshToken.token_hash record) (main.revoke_record db record).
Proof.
  intros Hu Hin. split.
  - destruct (update_revoked_in
                (fun r => RefreshToken.id r =? RefreshToken.id record)
                _ record Hin) as [r' [Hin' Hh']].
    now exists r'.
  - intros r Hr Hh. simpl in Hr.
    apply in_update_revoked in Hr as [r0 [Hin0 [Hh0 [_ Hsel]]]].
    assert (r0 = record)
      by (apply (unique_hash_inj _ Hu); auto; congruence).
    subst r0. apply Hsel. apply Z.eqb_refl.
Qed.

(** Rotation: with a live record, an active owner and a fresh draw,
    [/auth/refresh] answers with the new pair and leaves the presented
    secret spent. *)
Lemma refresh_rotates (settings : Settings) (db : DB) (now : Z)
      (raw jti T : string) (record : RefreshToken.t) (user : User.t) :
  unique_token_hash db ->
  In record (refresh_tokens db) ->
  RefreshToken.token_hash record = main._hash_refresh_token settings T ->
  RefreshToken.revoked record = false ->
  now < RefreshToken.expires_at record ->
  get_User db (RefreshToken.user_id record) = Some user ->
  User.active user = true ->
  fresh_secret settings db raw ->
  exists db',
    main.refresh_token settings db now raw jti T
    = (db', Return {| schemas.Token.access_token :=
                        auth.create_access_token settings now jti
                                                 (User.id user) None;
                      schemas.Token.token_type := "bearer";
                      schemas.Token.refresh_token := Some raw |})
    /\ spent (main._hash_refresh_token settings T) db'
    /\ users db' = users db.
Proof.
  intros Hu Hin Hh Hrev Hexp Huser Hact Hf.
  unfold main.refresh_token.
  rewrite (refresh_lookup_unique db _ now record Hu Hin Hh Hrev Hexp).
  rewrite Huser, Hact. simpl negb. cbv iota.
  pose proof (revoke_record_fresh settings db record raw Hf) as Hf1.
  pose proof (revoke_record_revokes db record Hu Hin) as Hs1.
  rewrite Hh in Hs1.
  pose proof (issue_spent settings (main.revoke_record db record) now raw
                (User.id user) _ Hs1) as Hs2.
  destruct (issue_cases settings (main.revoke_record db record) now raw
              (User.id user))
    as [[Hnf _]|[_ [rec' [_ [_ [_ [_ Heq]]]]]]]; [contradiction|].
  rewrite Heq in Hs2 |- *. simpl in Hs2.
  eexists. split; [reflexivity|]. split; [exact Hs2|reflexivity].
Qed.

Lemma fresh_secret_differs (settings : Settings) (db : DB) (raw T : string)
      (record : RefreshToken.t) :
  In record (refresh_tokens db) ->
  RefreshToken.token_hash record = main._hash_refresh_token settings T ->
  fresh_secret settings db raw ->
  raw <> T.
Proof.
  intros Hin Hh Hf ->. exact (Hf record Hin Hh).
Qed.

(* ================================================================= *)
(** ** Refresh rotation (C1, C10) and logout (C6) *)

(** C1, as the code has it: a refresh secret [T] whose ledger record is
    unrevoked and unexpired, whose owner exists and is active, rotates once:
    [refresh(T)] returns a new access token and a new refresh secret
    (different from [T]), and every later [refresh(T)], on the resulting
    state or after any further requests, at any time, fails with
    [InvalidToken].  The new secret is the one drawn, whose hash the unique
    index requires to be absent from the ledger. *)
Theorem C1_refresh_rotates_once
        (settings : Settings) (db : DB) (now : Z) (raw jti T : string)
        (record : RefreshToken.t) (user : User.t) :
  unique_token_hash db ->
  In record (refresh_tokens db) ->
  RefreshToken.token_hash record = main._hash_refresh_token settings T ->
  RefreshToken.revoked record = false ->
  now < RefreshToken.expires_at record ->
  get_User db (RefreshToken.user_id record) = Some user ->
  User.active user = true ->
  fresh_secret settings db raw ->
  exists db',
    main.refresh_token settings db now raw jti T
    = (db', Return {| schemas.Token.access_token :=
                        auth.create_access_token settings now jti
                                                 (User.id user) None;
                      schemas.Token.token_type := "bearer";
                      schemas.Token.refresh_token := Some raw |})
    /\ raw <> T
    /\ (forall now' raw' jti',
           main.refresh_token settings db' now' raw' jti' T
           = (db', Raise InvalidToken))
    /\ (forall reqs now' raw' jti',
           main.refresh_token settings (run settings db' reqs) now' raw' jti' T
           = (run settings db' reqs, Raise InvalidToken)).
Proof.
  intros Hu Hin Hh Hrev Hexp Huser Hact Hf.
  destruct (refresh_rotates settings db now raw jti T record user
              Hu Hin Hh Hrev Hexp Huser Hact Hf) as [db' [Heq [Hs _]]].
  exists db'. split; [exact Heq|]. split.
  - exact (fresh_secret_differs settings db raw T record Hin Hh Hf).
  - split.
    + intros now' raw' jti'. apply refresh_refuses_revoked. apply Hs.
    + intros reqs now' raw' jti'. apply refresh_refuses_revoked.
      apply (run_spent settings _ reqs db' Hs).
Qed.

(** C1 as stated fails: [sam] logs in and is handed ["secret-1"]; he is
    then deactivated; the ledger record of ["secret-1"] is still unrevoked
    and unexpired, yet [refresh] answers 401 "User inactive". *)
Lemma C1_counterexample :
  snd (main.login_for_access_token default_settings sample.db0 100
         "secret-1" "jti-1" "sam@example.com" "s3cretpass")
  = Return {| schemas.Token.access_token :=
                auth.create_access_token default_settings 100 "jti-1" 3 None;
              schemas.Token.token_type := "bearer";
              schemas.Token.refresh_token := Some "secret-1" |}
  /\ existsb (fun r =>
                hashlib.eqb (RefreshToken.token_hash r)
                            (main._hash_refresh_token default_settings "secret-1")
                && negb (RefreshToken.revoked r)
                && (200 <? RefreshToken.expires_at r))
             (refresh_tokens (with_users sample.db1 sample.users_sam_inactive))
     = true
  /\ main.refresh_token default_settings
       (with_users sample.db1 sample.users_sam_inactive)
       200 "secret-2" "jti-2" "secret-1"
     = (with_users sample.db1 sample.users_sam_inactive, Raise UserInactive).
Proof. repeat split; vm_compute; reflexivity. Qed.

Lemma sample_db1_ledger : refresh_tokens sample.db1 = [sample.record1].
Proof. vm_compute. reflexivity. Qed.

Lemma sample_db1_unique (rows : list User.t) :
  unique_token_hash (with_users sample.db1 rows).
Proof.
  unfold unique_token_hash. rewrite refresh_tokens_with_users, sample_db1_ledger.
  simpl. constructor; [intros []|constructor].
Qed.

Lemma sample_db1_fresh (rows : list User.t) :
  fresh_secret default_settings (with_users sample.db1 rows) "secret-2".
Proof.
  intros r. rewrite refresh_tokens_with_users, sample_db1_ledger.
  intros [<-|[]]. vm_compute. discriminate.
Qed.

Lemma C1_witness :
  exists db',
    main.refresh_token default_settings sample.db1 200 "secret-2" "jti-2"
                       "secret-1"
    = (db', Return {| schemas.Token.access_token :=
                        auth.create_access_token default_settings 200 "jti-2"
                                                 (User.id sample.sam) None;
                      schemas.Token.token_type := "bearer";
                      schemas.Token.refresh_token := Some "secret-2" |})
    /\ "secret-2"%string <> "secret-1"%string
    /\ (forall now' raw' jti',
           main.refresh_token default_settings db' now' raw' jti' "secret-1"
           = (db', Raise InvalidToken))
    /\ (forall reqs now' raw' jti',
           main.refresh_token default_settings
             (run default_settings db' reqs) now' raw' jti' "secret-1"
           = (run default_settings db' reqs, Raise InvalidToken)).
Proof.
  apply (C1_refresh_rotates_once default_settings sample.db1 200 "secret-2"
           "jti-2" "secret-1" sample.record1 sample.sam).
  - exact (sample_db1_unique (users sample.db1)).
  - rewrite sample_db1_ledger. left. reflexivity.
  - reflexivity.
  - reflexivity.
  - vm_compute. reflexivity.
  - vm_compute. reflexivity.
  - reflexivity.
  - exact (sample_db1_fresh (users sample.db1)).
Defined.

(** C6: [logout(T)] answers the same empty success whether or not [T] is
    in the ledger; after it every [refresh(T)] fails with [InvalidToken];
    a second [logout(T)] changes nothing and answers the same; on a secret
    without a ledger record the database is left as it was. *)
Theorem C6_logout_revokes_idempotently
        (settings : Settings) (db : DB) (T : string) :
  let db1 := fst (main.logout settings db T) in
  snd (main.logout settings db T) = Return tt
  /\ (forall now raw jti,
         main.refresh_token settings db1 now raw jti T
         = (db1, Raise InvalidToken))
  /\ main.logout settings db1 T = (db1, Return tt)
  /\ (fresh_secret settings db T -> main.logout settings db T = (db, Return tt)).
Proof.
  simpl. split; [reflexivity|]. split; [|split].
  - intros now raw jti. apply refresh_refuses_revoked.
    intros r Hin Hh. simpl in Hin.
    apply in_update_revoked in Hin as [r0 [Hin0 [Hh0 [_ Hsel]]]].
    apply Hsel. apply hashlib_eqb_eq. congruence.
  - unfold main.logout, main._revoke_refresh_token. simpl.
    f_equal. unfold with_refresh_tokens. simpl. f_equal.
    apply update_revoked_idem. intros r. reflexivity.
  - intros Hf. unfold main.logout, main._revoke_refresh_token.
    rewrite update_revoked_none.
    + now rewrite with_refresh_tokens_same.
    + intros r Hin. apply hashlib_eqb_neq. now apply Hf.
Qed.

(** After [logout(T)] of a secret the ledger knows, [refresh(T)] keeps
    failing after any further requests. *)
Lemma logout_spends (settings : Settings) (db : DB) (T : string)
      (record : RefreshToken.t) :
  In record (refresh_tokens db) ->
  RefreshToken.token_hash record = main._hash_refresh_token settings T ->
  forall reqs now raw jti,
    let db' := run settings (fst (main.logout settings db T)) reqs in
    main.refresh_token settings db' now raw jti T = (db', Raise InvalidToken).
Proof.
  intros Hin Hh reqs now raw jti. simpl.
  apply refresh_refuses_revoked.
  apply (run_spent settings _ reqs). split.
  - destruct (update_revoked_in
                (fun r => hashlib.eqb (RefreshToken.token_hash r)
                                      (main._hash_refresh_token settings T))
                _ record Hin) as [r' [Hin' Hh']].
    exists r'. split; [exact Hin'|congruence].
  - intros r Hr Hrh. simpl in Hr.
    apply in_update_revoked in Hr as [r0 [Hin0 [Hh0 [_ Hsel]]]].
    apply Hsel. apply hashlib_eqb_eq. congruence.
Qed.

(** C10: when the record of the presented secret is unrevoked and
    unexpired but its owner is absent or inactive, [refresh] fails with 401
    "User inactive" and leaves the database, hence the ledger, as it was;
    once the owner is active again the same secret, still unexpired,
    rotates successfully. *)
Theorem C10_refresh_inactive_owner_keeps_ledger
        (settings : Settings) (db : DB) (now : Z) (raw jti T : string)
        (record : RefreshToken.t) :
  unique_token_hash db ->
  In record (refresh_tokens db) ->
  RefreshToken.token_hash record = main._hash_refresh_token settings T ->
  RefreshToken.revoked record = false ->
  now < RefreshToken.expires_at record ->
  (get_User db (RefreshToken.user_id record) = None
   \/ exists user, get_User db (RefreshToken.user_id record) = Some user
                   /\ User.active user = false) ->
  main.refresh_token settings db now raw jti T = (db, Raise UserInactive)
  /\ forall rows user now' raw' jti',
      get_User (with_users db rows) (RefreshToken.user_id record) = Some user ->
      User.active user = true ->
      now' < RefreshToken.expires_at record ->
      fresh_secret settings db raw' ->
      exists db',
        main.refresh_token settings (with_users db rows) now' raw' jti' T
        = (db', Return {| schemas.Token.access_token :=
                            auth.create_access_token settings now' jti'
                                                     (User.id user) None;
                          schemas.Token.token_type := "bearer";
                          schemas.Token.refresh_token := Some raw' |}).
Proof.
  intros Hu Hin Hh Hrev Hexp Howner. split.
  - unfold main.refresh_token.
    rewrite (refresh_lookup_unique db _ now record Hu Hin Hh Hrev Hexp).
    destruct Howner as [->|[user [-> Hact]]]; [reflexivity|].
    rewrite Hact. reflexivity.
  - intros rows user now' raw' jti' Huser Hact Hexp' Hf.
    destruct (refresh_rotates settings (with_users db rows) now' raw' jti' T
                record user Hu Hin Hh Hrev Hexp' Huser Hact Hf)
      as [db' [Heq _]].
    exists db'. exact Heq.
Qed.

Lemma C10_witness :
  main.refresh_token default_settings
    (with_users sample.db1 sample.users_sam_inactive)
    200 "secret-2" "jti-2" "secret-1"
  = (with_users sample.db1 sample.users_sam_inactive, Raise UserInactive)
  /\ forall rows user now' raw' jti',
      get_User (with_users (with_users sample.db1 sample.users_sam_inactive) rows)
               (RefreshToken.user_id sample.record1) = Some user ->
      User.active user = true ->
      now' < RefreshToken.expires_at sample.record1 ->
      fresh_secret default_settings
                   (with_users sample.db1 sample.users_sam_inactive) raw' ->
      exists db',
        main.refresh_token default_settings
          (with_users (with_users sample.db1 sample.users_sam_inactive) rows)
          now' raw' jti' "secret-1"
        = (db', Return {| schemas.Token.access_token :=
                            auth.create_access_token default_settings now' jti'
                                                     (User.id user) None;
                          schemas.Token.token_type := "bearer";
                          schemas.Token.refresh_token := Some raw' |}).
Proof.
  apply (C10_refresh_inactive_owner_keeps_ledger default_settings
           (with_users sample.db1 sample.users_sam_inactive)
           200 "secret-2" "jti-2" "secret-1" sample.record1).
  - exact (sample_db1_unique sample.users_sam_inactive).
  - rewrite refresh_tokens_with_users, sample_db1_ledger. left. reflexivity.
  - reflexivity.
  - reflexivity.
  - vm_compute. reflexivity.
  - right. exists sample.sam_inactive. split; vm_compute; reflexivity.
Defined.

Lemma C6_witness :
  main.logout default_settings sample.db0 "never-issued"
  = (sample.db0, Return tt).
Proof.
  apply (C6_logout_revokes_idempotently default_settings sample.db0
           "never-issued").
  intros r [].
Defined.

(* ================================================================= *)
(** ** Login (C2) *)

(** What [/auth/token] answers, by cases: the only inputs are the row the
    e-mail selects, the password check and the unique index; the [active]
    column is not read. *)
Lemma login_outcome (settings : Settings) (db : DB) (now : Z)
      (raw jti username password : string) :
  match auth.get_user db username with
  | None =>
      main.login_for_access_token settings db now raw jti username password
      = (db, Raise InvalidCredentials_login)
  | Some user =>
      match auth.verify_password password (User.hashed_password user) with
      | Return true =>
          (fresh_secret settings db raw ->
           is_return (snd (main.login_for_access_token settings db now raw jti
                             username password)) = true)
          /\ (~ fresh_secret settings db raw ->
              main.login_for_access_token settings db now raw jti
                                          username password
              = (db, Raise IntegrityError))
      | Return false =>
          main.login_for_access_token settings db now raw jti username password
          = (db, Raise InvalidCredentials_login)
      | Raise e =>
          main.login_for_access_token settings db now raw jti username password
          = (db, Raise e)
      end
  end.
Proof.
  unfold main.login_for_access_token, auth.authenticate_user.
  destruct (auth.get_user db username) as [user|]; [|reflexivity].
  destruct (auth.verify_password password (User.hashed_password user))
    as [[|]|e]; [|reflexivity|reflexivity].
  simpl negb. cbv iota.
  destruct (issue_cases settings db now raw (User.id user))
    as [[Hnf ->]|[Hf [record [_ [_ [_ [_ ->]]]]]]].
  - split; [intros Hf; contradiction|reflexivity].
  - split; [reflexivity|intros Hnf; contradiction].
Qed.

(** C2, the code at the failing input: [sam] is inactive, his password is
    right, and [/auth/token] answers 200 with an access token and a refresh
    secret. *)
Theorem C2_login_accepts_inactive_user :
  auth.get_user sample.db0_sam_inactive "sam@example.com"
  = Some sample.sam_inactive
  /\ User.active sample.sam_inactive = false
  /\ snd (main.login_for_access_token default_settings sample.db0_sam_inactive
            100 "secret-1" "jti-1" "sam@example.com" "s3cretpass")
     = Return {| schemas.Token.access_token :=
                   auth.create_access_token default_settings 100 "jti-1" 3 None;
                 schemas.Token.token_type := "bearer";
                 schemas.Token.refresh_token := Some "secret-1" |}.
Proof. repeat split; vm_compute; reflexivity. Qed.

(* ================================================================= *)
(** ** Session resolution (C4, C5) *)

Lemma decode_own_token (settings : Settings) (now : Z) (claims : jwt.Claims) :
  jwt.decode (jwt.Signed (algorithm settings) (secret_key settings) claims)
             (secret_key settings) [algorithm settings] now
  = if jwt.validate_exp claims now then inr claims
    else inl jwt.ExpiredSignatureError.
Proof.
  unfold jwt.decode. simpl existsb.
  now rewrite !String.eqb_refl.
Qed.

(** C4: a token signed with the process key whose [exp] is later than
    [now] is refused with the credentials exception whenever the user its
    [sub] names is absent from the users table or has [active = False]. *)
Theorem C4_authenticate_rejects_absent_or_inactive
        (settings : Settings) (db : DB) (now : Z) (claims : jwt.Claims)
        (user_id e : Z) :
  jwt.sub claims = Some user_id ->
  jwt.exp claims = Some e ->
  now < e ->
  (get_User db user_id = None
   \/ exists user, get_User db user_id = Some user /\ User.active user = false) ->
  auth.get_current_user settings db now
    (jwt.Signed (algorithm settings) (secret_key settings) claims)
  = Raise auth.credentials_exception.
Proof.
  intros Hsub Hexp Hlt Huser.
  unfold auth.get_current_user. rewrite decode_own_token.
  unfold jwt.validate_exp. rewrite Hexp.
  replace (e <? now) with false by (symmetry; apply Z.ltb_ge; lia).
  simpl. rewrite Hsub.
  destruct Huser as [->|[user [-> Hact]]]; [reflexivity|].
  now rewrite Hact.
Qed.

(** The same unexpired token resolves to [sam] while he is active and is
    refused on the next call once he has been deactivated. *)
Lemma C4_witness :
  auth.get_current_user default_settings sample.db0 500 (sample.sam_token 1000)
  = Return sample.sam
  /\ auth.get_current_user default_settings sample.db0_sam_inactive 500
       (sample.sam_token 1000)
     = Raise auth.credentials_exception.
Proof.
  split; [vm_compute; reflexivity|].
  apply (C4_authenticate_rejects_absent_or_inactive default_settings
           sample.db0_sam_inactive 500
           {| jwt.sub := Some 3; jwt.exp := Some 1000; jwt.iat := Some 0;
              jwt.jti := Some "jti-0" |} 3 1000).
  - reflexivity.
  - reflexivity.
  - lia.
  - right. exists sample.sam_inactive. split; vm_compute; reflexivity.
Defined.

(** C5, as the code has it: every token whose [exp] claim is earlier than
    [now] is refused with the credentials exception, whatever algorithm and
    key it was signed with. *)
Theorem C5_authenticate_rejects_past_exp
        (settings : Settings) (db : DB) (now : Z) (alg key : string)
        (claims : jwt.Claims) (e : Z) :
  jwt.exp claims = Some e ->
  e < now ->
  auth.get_current_user settings db now (jwt.Signed alg key claims)
  = Raise auth.credentials_exception.
Proof.
  intros Hexp Hlt. unfold auth.get_current_user, jwt.decode.
  destruct (negb (existsb (String.eqb alg) [algorithm settings]));
    [reflexivity|].
  destruct (negb (String.eqb key (secret_key settings))); [reflexivity|].
  unfold jwt.validate_exp. rewrite Hexp.
  replace (e <? now) with true by (symmetry; apply Z.ltb_lt; lia).
  reflexivity.
Qed.

Lemma C5_witness :
  auth.get_current_user default_settings sample.db0 500 (sample.sam_token 499)
  = Raise auth.credentials_exception.
Proof.
  apply (C5_authenticate_rejects_past_exp default_settings sample.db0 500
           "HS256" "change-me"
           {| jwt.sub := Some 3; jwt.exp := Some 499; jwt.iat := Some 0;
              jwt.jti := Some "jti-0" |} 499).
  - reflexivity.
  - lia.
Defined.

(** C5 as stated fails at [exp = now]: the expiry validation refuses only
    [exp < now], so the token of the active user [sam] with [exp = 500] is
    still accepted at time 500. *)
Lemma C5_counterexample :
  jwt.exp {| jwt.sub := Some 3; jwt.exp := Some 500; jwt.iat := Some 0;
             jwt.jti := Some "jti-0" |} = Some 500
  /\ 500 <= 500
  /\ auth.get_current_user default_settings sample.db0 500 (sample.sam_token 500)
     = Return sample.sam.
Proof. split; [reflexivity|split; [lia|vm_compute; reflexivity]]. Qed.

(* ================================================================= *)
(** ** Authorization (C3, C7, C8) *)

Lemma opt_Z_eqb_eq (a b : option Z) : opt_Z_eqb a b = true <-> a = b.
Proof.
  destruct a as [x|], b as [y|]; simpl; try (split; congruence).
  rewrite Z.eqb_eq. split; congruence.
Qed.

Lemma opt_Z_eqb_neq (a b : option Z) : opt_Z_eqb a b = false <-> a <> b.
Proof.
  rewrite <- opt_Z_eqb_eq. destruct (opt_Z_eqb a b); split; congruence.
Qed.


(** The role chain of [_task_guard], one role at a time. *)
Lemma task_guard_by_role (task : Task.t) (user : User.t) :
  main._task_guard task user
  = match User.role user with
    | admin => Return tt
    | manager =>
        if opt_Z_eqb (User.department_id user) (Some (Task.department_id task))
        then Return tt
        else Raise (HTTPException HTTP_403_FORBIDDEN
                                  "Not allowed outside department")
    | staff =>
        if User.id user =? Task.assigned_to_id task
        then Return tt
        else Raise (HTTPException HTTP_403_FORBIDDEN "Task not assigned to you")
    | collaborator => Return tt
    end.
Proof.
  unfold main._task_guard.
  destruct (User.role user); simpl.
  - reflexivity.
  - now destruct (opt_Z_eqb _ _).
  - rewrite orb_false_r. now destruct (User.id user =? _).
  - reflexivity.
Qed.

(** The field loop of [update_event] refuses exactly a manager's
    [department_id] that differs from the manager's own department. *)
Lemma apply_fields_manager (user : User.t) (update : schemas.EventUpdate.t)
      (event : Event.t) :
  User.role user = manager ->
  match schemas.EventUpdate.department_id update with
  | Some v =>
      if opt_Z_eqb (Some v) (User.department_id user)
      then Allow (main.apply_fields user
                    (main.model_dump_exclude_none update) event)
      else main.apply_fields user (main.model_dump_exclude_none update) event
           = Raise (HTTPException HTTP_403_FORBIDDEN
                                  "Cannot move events outside your department")
  | None =>
      Allow (main.apply_fields user (main.model_dump_exclude_none update) event)
  end.
Proof.
  intros Hrole. unfold main.model_dump_exclude_none, Allow.
  destruct update as [t d s dep]; simpl.
  destruct dep as [v|].
  - destruct (User.department_id user) as [d0|] eqn:Hd; simpl;
      [destruct (v =? d0) eqn:E|];
      destruct t, d, s; simpl; rewrite Hrole, Hd; simpl; rewrite ?E; simpl;
      eauto.
  - destruct t, d, s; simpl; eauto.
Qed.

(** C3 as stated fails: the staff user [stella] is not the assignee of
    task 1, so the default role predicate denies; the database holds a grant
    for her on that very task and one on all tasks; [get_task] still answers
    403. *)
Lemma C3_counterexample :
  main._task_guard sample.task1 sample.stella
  = Raise (HTTPException HTTP_403_FORBIDDEN "Task not assigned to you")
  /\ In sample.grant_exact (access_grants sample.db0)
  /\ grant_matches sample.grant_exact sample.stella "tasks" "1" "view" = true
  /\ In sample.grant_all (access_grants sample.db0)
  /\ grant_matches sample.grant_all sample.stella "tasks" "1" "view" = true
  /\ main.get_task sample.db0 1 sample.stella
     = Raise (HTTPException HTTP_403_FORBIDDEN "Task not assigned to you").
Proof.
  split; [reflexivity|]. split; [left; reflexivity|].
  split; [reflexivity|]. split; [right; left; reflexivity|].
  split; reflexivity.
Qed.

Lemma event_role_check_manager (event : Event.t) (user : User.t)
      (manager_detail other_detail : string) :
  User.role user = manager ->
  main.event_role_check event user manager_detail other_detail
  = match Event.department_id event with
    | Some d =>
        if opt_Z_eqb (Some d) (User.department_id user) then Return tt
        else Raise (HTTPException HTTP_403_FORBIDDEN manager_detail)
    | None => Raise (HTTPException HTTP_403_FORBIDDEN manager_detail)
    end.
Proof.
  intros Hrole. unfold main.event_role_check. rewrite Hrole. simpl Role_eqb.
  cbv iota.
  destruct (Event.department_id event) as [d|].
  - destruct (opt_Z_eqb (Some d) (User.department_id user)); reflexivity.
  - destruct (User.department_id user); reflexivity.
Qed.


(* ================================================================= *)
(** ** Further facts about the session endpoints *)

(** A token minted by [create_access_token] resolves to its user for as
    long as [now] has not passed its expiry and the user is active. *)
Lemma authenticate_accepts_issued_token (settings : Settings) (db : DB)
      (issued now : Z) (jti : string) (user : User.t) :
  get_User db (User.id user) = Some user ->
  User.active user = true ->
  now <= issued + timedelta_minutes (access_token_expire_minutes settings) ->
  auth.get_current_user settings db now
    (auth.create_access_token settings issued jti (User.id user) None)
  = Return user.
Proof.
  intros Huser Hact Hnow.
  unfold auth.get_current_user, auth.create_access_token, jwt.encode.
  rewrite decode_own_token. unfold jwt.validate_exp. simpl.
  replace (issued + timedelta_minutes (access_token_expire_minutes settings)
           <? now) with false by (symmetry; apply Z.ltb_ge; lia).
  simpl. now rewrite Huser, Hact.
Qed.

(** X8: rotation commits twice.  When the secret drawn for the new record
    is already in the ledger, the presented record has been revoked and
    committed before the insert is refused: the request ends in
    [IntegrityError] with the old secret spent and no new one issued. *)
Lemma refresh_commits_revocation_first (settings : Settings) (db : DB)
      (now : Z) (raw jti T : string) (record : RefreshToken.t) (user : User.t) :
  unique_token_hash db ->
  In record (refresh_tokens db) ->
  RefreshToken.token_hash record = main._hash_refresh_token settings T ->
  RefreshToken.revoked record = false ->
  now < RefreshToken.expires_at record ->
  get_User db (RefreshToken.user_id record) = Some user ->
  User.active user = true ->
  ~ fresh_secret settings db raw ->
  main.refresh_token settings db now raw jti T
  = (main.revoke_record db record, Raise IntegrityError).
Proof.
  intros Hu Hin Hh Hrev Hexp Huser Hact Hnf.
  unfold main.refresh_token.
  rewrite (refresh_lookup_unique db _ now record Hu Hin Hh Hrev Hexp).
  rewrite Huser, Hact. simpl negb. cbv iota.
  destruct (issue_cases settings (main.revoke_record db record) now raw
              (User.id user)) as [[_ ->]|[Hf _]]; [reflexivity|].
  exfalso. apply Hnf. intros r Hr.
  destruct (update_revoked_in
              (fun r0 => RefreshToken.id r0 =? RefreshToken.id record)
              _ r Hr) as [r' [Hin' Hh']].
  rewrite <- Hh'. now apply Hf.
Qed.

(** Every database reached from an empty ledger satisfies the unique index,
    so the index hypothesis of the rotation theorems holds in all of them. *)
Lemma reachable_unique (settings : Settings) (db : DB) (reqs : list request) :
  refresh_tokens db = [] ->
  unique_token_hash (run settings db reqs).
Proof.
  intros Hempty. apply run_unique.
  unfold unique_token_hash. rewrite Hempty. constructor.
Qed.

(* ================================================================= *)
(** ** More on sessions: tokens, login and the ledger *)

Lemma string_length_append (a b : string) :
  String.length (a ++ b)%string = (String.length a + String.length b)%nat.
Proof. induction a as [|c a IH]; simpl; [reflexivity|now rewrite IH]. Qed.

Lemma string_append_inj_l (a b k : string) :
  (a ++ k)%string = (b ++ k)%string -> a = b.
Proof.
  revert b. induction a as [|c a IH]; intros [|d b] H; simpl in H.
  - reflexivity.
  - exfalso. apply (f_equal String.length) in H. simpl in H.
    rewrite string_length_append in H. lia.
  - exfalso. apply (f_equal String.length) in H. simpl in H.
    rewrite string_length_append in H. lia.
  - injection H as -> H. f_equal. now apply IH.
Qed.

(** Two secrets have the same ledger hash only when they are equal. *)
Lemma hash_refresh_token_inj (settings : Settings) (a b : string) :
  main._hash_refresh_token settings a = main._hash_refresh_token settings b ->
  a = b.
Proof.
  unfold main._hash_refresh_token. intros H. injection H as H.
  exact (string_append_inj_l _ _ _ H).
Qed.

Lemma get_User_id (db : DB) (pk : Z) (user : User.t) :
  get_User db pk = Some user -> User.id user = pk /\ In user (users db).
Proof.
  unfold get_User. intros H. apply find_some in H as [Hin Hid].
  apply Z.eqb_eq in Hid. now split.
Qed.

(** The database a successful rotation leaves: the presented row revoked,
    one row appended for the same user. *)
Lemma refresh_rotates_appends (settings : Settings) (db : DB) (now : Z)
      (raw jti T : string) (record : RefreshToken.t) (user : User.t) :
  unique_token_hash db ->
  In record (refresh_tokens db) ->
  RefreshToken.token_hash record = main._hash_refresh_token settings T ->
  RefreshToken.revoked record = false ->
  now < RefreshToken.expires_at record ->
  get_User db (RefreshToken.user_id record) = Some user ->
  User.active user = true ->
  fresh_secret settings db raw ->
  exists fresh_row,
    main.refresh_token settings db now raw jti T
    = (with_refresh_tokens db
         (refresh_tokens (main.revoke_record db record) ++ [fresh_row]),
       Return {| schemas.Token.access_token :=
                   auth.create_access_token settings now jti
                                            (User.id user) None;
                 schemas.Token.token_type := "bearer";
                 schemas.Token.refresh_token := Some raw |})
    /\ RefreshToken.token_hash fresh_row = main._hash_refresh_token settings raw
    /\ RefreshToken.user_id fresh_row = RefreshToken.user_id record
    /\ RefreshToken.revoked fresh_row = false
    /\ RefreshToken.expires_at fresh_row
       = now + timedelta_minutes (refresh_token_expire_minutes settings).
Proof.
  intros Hu Hin Hh Hrev Hexp Huser Hact Hf.
  unfold main.refresh_token.
  rewrite (refresh_lookup_unique db _ now record Hu Hin Hh Hrev Hexp).
  rewrite Huser, Hact. simpl negb. cbv iota.
  pose proof (revoke_record_fresh settings db record raw Hf) as Hf1.
  destruct (issue_cases settings (main.revoke_record db record) now raw
              (User.id user))
    as [[Hnf _]|[_ [row [Hrh [Hru [Hrr [Hre Heq]]]]]]]; [contradiction|].
  rewrite Heq. exists row.
  destruct (get_User_id _ _ _ Huser) as [Hid _].
  repeat split; try assumption. congruence.
Qed.

(** What [login_for_access_token] leaves after a success: one row appended
    for the user. *)
Lemma login_appends (settings : Settings) (db : DB) (now : Z)
      (raw jti username password : string) (user : User.t) :
  auth.get_user db username = Some user ->
  auth.verify_password password (User.hashed_password user) = Return true ->
  fresh_secret settings db raw ->
  exists fresh_row,
    main.login_for_access_token settings db now raw jti username password
    = (with_refresh_tokens db (refresh_tokens db ++ [fresh_row]),
       Return {| schemas.Token.access_token :=
                   auth.create_access_token settings now jti
                                            (User.id user) None;
                 schemas.Token.token_type := "bearer";
                 schemas.Token.refresh_token := Some raw |})
    /\ RefreshToken.token_hash fresh_row = main._hash_refresh_token settings raw
    /\ RefreshToken.user_id fresh_row = User.id user
    /\ RefreshToken.revoked fresh_row = false
    /\ RefreshToken.expires_at fresh_row
       = now + timedelta_minutes (refresh_token_expire_minutes settings).
Proof.
  intros Huser Hpw Hf.
  unfold main.login_for_access_token, auth.authenticate_user.
  rewrite Huser, Hpw. simpl negb. cbv iota.
  destruct (issue_cases settings db now raw (User.id user))
    as [[Hnf _]|[_ [row [Hrh [Hru [Hrr [Hre Heq]]]]]]]; [contradiction|].
  rewrite Heq. exists row. repeat split; assumption.
Qed.

Lemma fresh_secret_app (settings : Settings) (db : DB)
      (rows : list RefreshToken.t) (row : RefreshToken.t)
      (raw raw' : string) :
  (forall r, In r rows ->
             exists r0, In r0 (refresh_tokens db)
                        /\ RefreshToken.token_hash r = RefreshToken.token_hash r0) ->
  RefreshToken.token_hash row = main._hash_refresh_token settings raw ->
  fresh_secret settings db raw' ->
  raw' <> raw ->
  fresh_secret settings (with_refresh_tokens db (rows ++ [row])) raw'.
Proof.
  intros Hrows Hrow Hf Hne r Hin. simpl in Hin.
  apply in_app_or in Hin as [Hin|[<-|[]]].
  - destruct (Hrows r Hin) as [r0 [Hin0 ->]]. now apply Hf.
  - rewrite Hrow. intros H. apply Hne. symmetry.
    exact (hash_refresh_token_inj settings _ _ H).
Qed.

Lemma unique_app_fresh (settings : Settings) (db : DB)
      (rows : list RefreshToken.t) (row : RefreshToken.t) (raw : string) :
  map RefreshToken.token_hash rows
  = map RefreshToken.token_hash (refresh_tokens db) ->
  unique_token_hash db ->
  RefreshToken.token_hash row = main._hash_refresh_token settings raw ->
  fresh_secret settings db raw ->
  unique_token_hash (with_refresh_tokens db (rows ++ [row])).
Proof.
  intros Hrows Hu Hrow Hf. unfold unique_token_hash in *. simpl.
  rewrite map_app, Hrows. simpl.
  apply NoDup_app; [exact Hu| | ].
  - constructor; [intros []|constructor].
  - intros x Hx [<-|[]].
    apply in_map_iff in Hx as [r [Hr Hin]].
    apply (Hf r Hin). congruence.
Qed.

(** X1: a token minted by [create_access_token] for a user the users table
    holds as active resolves to that user exactly while [now] has not
    passed the token's expiry; afterwards it is refused. *)
Theorem X1_issued_token_round_trip
        (settings : Settings) (db : DB) (issued now : Z) (jti : string)
        (user : User.t) :
  get_User db (User.id user) = Some user ->
  User.active user = true ->
  auth.get_current_user settings db now
    (auth.create_access_token settings issued jti (User.id user) None)
  = if now <=? issued + timedelta_minutes (access_token_expire_minutes settings)
    then Return user
    else Raise auth.credentials_exception.
Proof.
  intros Huser Hact.
  unfold auth.get_current_user, auth.create_access_token, jwt.encode.
  rewrite decode_own_token. unfold jwt.validate_exp. simpl.
  destruct (Z.leb_spec now
              (issued + timedelta_minutes (access_token_expire_minutes settings)))
    as [Hle|Hgt].
  - replace (issued + timedelta_minutes (access_token_expire_minutes settings)
             <? now) with false by (symmetry; apply Z.ltb_ge; lia).
    simpl. now rewrite Huser, Hact.
  - replace (issued + timedelta_minutes (access_token_expire_minutes settings)
             <? now) with true by (symmetry; apply Z.ltb_lt; lia).
    reflexivity.
Qed.

Lemma X1_witness :
  auth.get_current_user default_settings sample.db0 200
    (auth.create_access_token default_settings 100 "jti-1"
                              (User.id sample.sam) None)
  = if 200 <=? 100 + timedelta_minutes
                       (access_token_expire_minutes default_settings)
    then Return sample.sam
    else Raise auth.credentials_exception.
Proof.
  apply (X1_issued_token_round_trip default_settings sample.db0 100 200
           "jti-1" sample.sam); reflexivity.
Defined.

(** X2: whenever [get_current_user] returns a user, the token was signed
    with the configured key and algorithm, its [exp] (if any) is not before
    [now], its [sub] is the user's id, and the user is the active row the
    users table holds under that id. *)
Theorem X2_get_current_user_sound
        (settings : Settings) (db : DB) (now : Z) (token : jwt.Token)
        (user : User.t) :
  auth.get_current_user settings db now token = Return user ->
  exists claims,
    token = jwt.Signed (algorithm settings) (secret_key settings) claims
    /\ jwt.sub claims = Some (User.id user)
    /\ (forall e, jwt.exp claims = Some e -> now <= e)
    /\ get_User db (User.id user) = Some user
    /\ User.active user = true.
Proof.
  unfold auth.get_current_user, jwt.decode. intros H.
  destruct token as [raw|alg key claims]; [discriminate|].
  simpl existsb in H. rewrite orb_false_r in H.
  destruct (String.eqb alg (algorithm settings)) eqn:Ealg;
    [|discriminate].
  destruct (String.eqb key (secret_key settings)) eqn:Ekey;
    [|discriminate].
  simpl in H.
  destruct (jwt.validate_exp claims now) eqn:Eexp; [|discriminate].
  destruct (jwt.sub claims) as [uid|] eqn:Esub; [|discriminate].
  destruct (get_User db uid) as [u|] eqn:Eu; [|discriminate].
  destruct (User.active u) eqn:Eact; [|discriminate].
  simpl in H. injection H as ->.
  apply String.eqb_eq in Ealg, Ekey. subst alg key.
  destruct (get_User_id _ _ _ Eu) as [Hid _]. subst uid.
  exists claims. repeat split; auto.
  intros e He. unfold jwt.validate_exp in Eexp. rewrite He in Eexp.
  apply negb_true_iff, Z.ltb_ge in Eexp. exact Eexp.
Qed.

Lemma X2_witness :
  exists claims,
    sample.sam_token 1000
    = jwt.Signed (algorithm default_settings) (secret_key default_settings)
                 claims
    /\ jwt.sub claims = Some (User.id sample.sam)
    /\ (forall e, jwt.exp claims = Some e -> 500 <= e)
    /\ get_User sample.db0 (User.id sample.sam) = Some sample.sam
    /\ User.active sample.sam = true.
Proof.
  apply (X2_get_current_user_sound default_settings sample.db0 500
           (sample.sam_token 1000) sample.sam).
  vm_compute. reflexivity.
Defined.



(** X4: after a successful login, the refresh secret it returned rotates:
    presented before its expiry, with the user still active, [/auth/refresh]
    answers with a new pair for the same user. *)
Theorem X4_login_then_refresh
        (settings : Settings) (db : DB) (now : Z) (raw jti : string)
        (username password : string) (user : User.t)
        (now' : Z) (raw' jti' : string) :
  unique_token_hash db ->
  auth.get_user db username = Some user ->
  auth.verify_password password (User.hashed_password user) = Return true ->
  get_User db (User.id user) = Some user ->
  User.active user = true ->
  fresh_secret settings db raw ->
  fresh_secret settings db raw' ->
  raw' <> raw ->
  now' < now + timedelta_minutes (refresh_token_expire_minutes settings) ->
  exists db1 db2,
    main.login_for_access_token settings db now raw jti username password
    = (db1, Return {| schemas.Token.access_token :=
                        auth.create_access_token settings now jti
                                                 (User.id user) None;
                      schemas.Token.token_type := "bearer";
                      schemas.Token.refresh_token := Some raw |})
    /\ main.refresh_token settings db1 now' raw' jti' raw
       = (db2, Return {| schemas.Token.access_token :=
                           auth.create_access_token settings now' jti'
                                                    (User.id user) None;
                         schemas.Token.token_type := "bearer";
                         schemas.Token.refresh_token := Some raw' |}).
Proof.
  intros Hu Huser Hpw Hid Hact Hf Hf' Hne Hnow.
  destruct (login_appends settings db now raw jti username password user
              Huser Hpw Hf) as [row [Hlogin [Hrh [Hru [Hrr Hre]]]]].
  set (db1 := with_refresh_tokens db (refresh_tokens db ++ [row])) in *.
  assert (Hu1 : unique_token_hash db1)
    by (apply (unique_app_fresh settings db _ row raw); auto).
  assert (Hf1 : fresh_secret settings db1 raw').
  { apply (fresh_secret_app settings db _ row raw raw'); auto.
    intros r Hr. now exists r. }
  assert (Hin : In row (refresh_tokens db1))
    by (simpl; apply in_or_app; right; now left).
  assert (Hown : get_User db1 (RefreshToken.user_id row) = Some user)
    by (rewrite Hru; exact Hid).
  destruct (refresh_rotates settings db1 now' raw' jti' raw row user
              Hu1 Hin Hrh Hrr ltac:(lia) Hown Hact Hf1)
    as [db2 [Hrefresh _]].
  exists db1, db2. split; assumption.
Qed.

Lemma X4_witness :
  exists db1 db2,
    main.login_for_access_token default_settings sample.db0 100 "secret-1"
      "jti-1" "sam@example.com" "s3cretpass"
    = (db1, Return {| schemas.Token.access_token :=
                        auth.create_access_token default_settings 100 "jti-1"
                                                 (User.id sample.sam) None;
                      schemas.Token.token_type := "bearer";
                      schemas.Token.refresh_token := Some "secret-1" |})
    /\ main.refresh_token default_settings db1 200 "secret-2" "jti-2"
                          "secret-1"
       = (db2, Return {| schemas.Token.access_token :=
                           auth.create_access_token default_settings 200
                             "jti-2" (User.id sample.sam) None;
                         schemas.Token.token_type := "bearer";
                         schemas.Token.refresh_token := Some "secret-2" |}).
Proof.
  apply (X4_login_then_refresh default_settings sample.db0 100 "secret-1"
           "jti-1" "sam@example.com" "s3cretpass" sample.sam 200
           "secret-2" "jti-2").
  - unfold unique_token_hash. simpl. constructor.
  - reflexivity.
  - reflexivity.
  - reflexivity.
  - reflexivity.
  - intros r [].
  - intros r [].
  - discriminate.
  - vm_compute. reflexivity.
Defined.

(** X5: the refresh secret a login returned is dead once it has been
    logged out: whatever requests follow, [/auth/refresh] refuses it with
    "Invalid refresh token". *)
Theorem X5_login_logout_refresh
        (settings : Settings) (db : DB) (now : Z) (raw jti : string)
        (username password : string) (user : User.t) :
  auth.get_user db username = Some user ->
  auth.verify_password password (User.hashed_password user) = Return true ->
  fresh_secret settings db raw ->
  forall reqs now' raw' jti',
    let db1 :=
      fst (main.login_for_access_token settings db now raw jti
                                       username password) in
    let db2 := run settings (fst (main.logout settings db1 raw)) reqs in
    main.refresh_token settings db2 now' raw' jti' raw
    = (db2, Raise InvalidToken).
Proof.
  intros Huser Hpw Hf reqs now' raw' jti'.
  destruct (login_appends settings db now raw jti username password user
              Huser Hpw Hf) as [row [Hlogin [Hrh _]]].
  rewrite Hlogin. cbv zeta. unfold fst at 2.
  apply (logout_spends settings _ raw row); [|exact Hrh].
  simpl. apply in_or_app. right. now left.
Qed.

Lemma X5_witness :
  let db1 :=
    fst (main.login_for_access_token default_settings sample.db0 100
           "secret-1" "jti-1" "sam@example.com" "s3cretpass") in
  let db2 :=
    run default_settings (fst (main.logout default_settings db1 "secret-1"))
        [Login 150 "secret-2" "jti-2" "sam@example.com" "s3cretpass";
         Refresh 160 "secret-3" "jti-3" "secret-1"] in
  main.refresh_token default_settings db2 200 "secret-4" "jti-4" "secret-1"
  = (db2, Raise InvalidToken).
Proof.
  apply (X5_login_logout_refresh default_settings sample.db0 100 "secret-1"
           "jti-1" "sam@example.com" "s3cretpass" sample.sam
           (eq_refl _) (eq_refl _)
           (fun r (H : In r (refresh_tokens sample.db0)) =>
              match H with end)
           [Login 150 "secret-2" "jti-2" "sam@example.com" "s3cretpass";
            Refresh 160 "secret-3" "jti-3" "secret-1"]
           200 "secret-4" "jti-4").
Defined.

(** X6: [/auth/refresh] answers 401 "Invalid refresh token", leaving the
    database as it was, exactly when every ledger row carrying the hash of
    the presented secret is revoked or has [expires_at <= now]; in
    particular for a secret the ledger does not know and for one presented
    at the very second it expires. *)
Theorem X6_invalid_refresh_token_iff
        (settings : Settings) (db : DB) (now : Z) (raw jti T : string) :
  (forall r, In r (refresh_tokens db) ->
             RefreshToken.token_hash r = main._hash_refresh_token settings T ->
             RefreshToken.revoked r = true \/ RefreshToken.expires_at r <= now)
  <-> main.refresh_token settings db now raw jti T = (db, Raise InvalidToken).
Proof.
  unfold main.refresh_token. split.
  - intros Hdead.
    destruct (main.refresh_lookup db _ now) as [record|] eqn:E;
      [|reflexivity].
    exfalso. unfold main.refresh_lookup in E.
    apply find_some in E as [Hin Hp].
    apply andb_true_iff in Hp as [Hp Hexp].
    apply andb_true_iff in Hp as [Hh Hrev].
    apply hashlib_eqb_eq in Hh. apply Z.ltb_lt in Hexp.
    apply negb_true_iff in Hrev.
    destruct (Hdead record Hin Hh) as [H|H]; [congruence|lia].
  - destruct (main.refresh_lookup db _ now) as [record|] eqn:E.
    + intros H. exfalso.
      destruct (get_User db (RefreshToken.user_id record)) as [user|];
        [|discriminate].
      destruct (negb (User.active user)); [discriminate|].
      destruct (issue_cases settings (main.revoke_record db record) now raw
                  (User.id user)) as [[_ Heq]|[_ [row [_ [_ [_ [_ Heq]]]]]]];
        rewrite Heq in H; discriminate.
    + intros _ r Hin Hh. unfold main.refresh_lookup in E.
      pose proof (find_none _ _ E r Hin) as Hp. simpl in Hp.
      apply hashlib_eqb_eq in Hh. rewrite Hh in Hp. simpl in Hp.
      destruct (RefreshToken.revoked r); [now left|right].
      simpl in Hp. apply Z.ltb_ge in Hp. exact Hp.
Qed.

Lemma X6_witness :
  main.refresh_token default_settings sample.db1
    (RefreshToken.expires_at sample.record1) "secret-2" "jti-2" "secret-1"
  = (sample.db1, Raise InvalidToken).
Proof.
  apply (X6_invalid_refresh_token_iff default_settings sample.db1
           (RefreshToken.expires_at sample.record1) "secret-2" "jti-2"
           "secret-1").
  rewrite sample_db1_ledger. intros r [<-|[]] _. right. reflexivity.
Defined.

Lemma later_row_refl (r : RefreshToken.t) : later_row r r.
Proof. unfold later_row. auto 10. Qed.

Lemma later_row_trans (a b c : RefreshToken.t) :
  later_row a b -> later_row b c -> later_row a c.
Proof.
  unfold later_row.
  intros [H1 [H2 [H3 [H4 [H5 H6]]]]] [K1 [K2 [K3 [K4 [K5 K6]]]]].
  repeat split; try congruence. auto.
Qed.

Lemma ledger_extends_refl (db : DB) : ledger_extends db db.
Proof.
  unfold ledger_extends. repeat split; auto.
  intros r Hin. exists r. split; [exact Hin|apply later_row_refl].
Qed.

Lemma ledger_extends_trans (a b c : DB) :
  ledger_extends a b -> ledger_extends b c -> ledger_extends a c.
Proof.
  unfold ledger_extends.
  intros [H1 [H2 [H3 [H4 [H5 H6]]]]] [K1 [K2 [K3 [K4 [K5 K6]]]]].
  repeat split; try congruence; [|lia].
  intros r Hin. destruct (H1 r Hin) as [r1 [Hin1 Hl1]].
  destruct (K1 r1 Hin1) as [r2 [Hin2 Hl2]].
  exists r2. split; [exact Hin2|exact (later_row_trans _ _ _ Hl1 Hl2)].
Qed.

Lemma update_revoked_extends (sel : RefreshToken.t -> bool) (db : DB) :
  ledger_extends db
    (with_refresh_tokens db
       (RefreshToken.update_revoked sel (refresh_tokens db))).
Proof.
  unfold ledger_extends. simpl. repeat split; auto.
  - intros r Hin.
    exists (if sel r then RefreshToken.set_revoked r true else r). split.
    + unfold RefreshToken.update_revoked. apply in_map_iff. now exists r.
    + unfold later_row. destruct (sel r); simpl; auto 10.
  - unfold RefreshToken.update_revoked. now rewrite length_map.
Qed.

Lemma issue_extends (settings : Settings) (db : DB) (now : Z) (raw : string)
      (user_id : Z) :
  ledger_extends db
    (fst (main._issue_refresh_token settings db now raw user_id)).
Proof.
  destruct (issue_cases settings db now raw user_id)
    as [[_ ->]|[_ [row [_ [_ [_ [_ ->]]]]]]]; simpl.
  - apply ledger_extends_refl.
  - unfold ledger_extends. simpl. repeat split; auto.
    + intros r Hin. exists r. split;
        [apply in_or_app; now left|apply later_row_refl].
    + rewrite length_app. lia.
Qed.

Lemma step_extends (settings : Settings) (db : DB) (req : request) :
  ledger_extends db (step settings db req).
Proof.
  destruct req as [now raw jti u p|now raw jti token|token|rows]; simpl.
  - unfold main.login_for_access_token.
    destruct (auth.authenticate_user db u p) as [[user|]|e0];
      [|apply ledger_extends_refl|apply ledger_extends_refl].
    pose proof (issue_extends settings db now raw (User.id user)) as Hi.
    destruct (main._issue_refresh_token settings db now raw (User.id user))
      as [db' [tok|e]]; exact Hi.
  - unfold main.refresh_token.
    destruct (main.refresh_lookup db _ now) as [record|];
      [|apply ledger_extends_refl].
    destruct (get_User db (RefreshToken.user_id record)) as [user|];
      [|apply ledger_extends_refl].
    destruct (negb (User.active user)); [apply ledger_extends_refl|].
    pose proof (issue_extends settings (main.revoke_record db record) now raw
                  (User.id user)) as Hi.
    assert (Hr : ledger_extends db (main.revoke_record db record))
      by apply update_revoked_extends.
    destruct (main._issue_refresh_token settings (main.revoke_record db record)
                now raw (User.id user)) as [db' [tok|e]];
      exact (ledger_extends_trans _ _ _ Hr Hi).
  - apply update_revoked_extends.
  - unfold ledger_extends. simpl. repeat split; auto.
    intros r Hin. exists r. split; [exact Hin|apply later_row_refl].
Qed.

(** X7: whatever logins, refreshes, logouts and user-table changes are
    served, no refresh record is ever deleted or altered other than by
    setting [revoked]; a revoked record stays revoked; and the departments,
    tasks, events and access grants are left untouched. *)
Theorem X7_ledger_only_grows
        (settings : Settings) (reqs : list request) (db : DB) :
  ledger_extends db (run settings db reqs).
Proof.
  revert db. induction reqs as [|req reqs IH]; intros db; simpl.
  - apply ledger_extends_refl.
  - exact (ledger_extends_trans _ _ _ (step_extends settings db req)
             (IH (step settings db req))).
Qed.

(** X8, on the sample ledger: the draw repeats the secret already there;
    the presented record ends up revoked and the request fails. *)
Lemma X8_witness :
  main.refresh_token default_settings sample.db1 200 "secret-1" "jti-2"
                     "secret-1"
  = (main.revoke_record sample.db1 sample.record1, Raise IntegrityError).
Proof.
  apply (refresh_commits_revocation_first default_settings sample.db1 200
           "secret-1" "jti-2" "secret-1" sample.record1 sample.sam).
  - exact (sample_db1_unique (users sample.db1)).
  - rewrite sample_db1_ledger. left. reflexivity.
  - reflexivity.
  - reflexivity.
  - vm_compute. reflexivity.
  - vm_compute. reflexivity.
  - reflexivity.
  - intros Hf. apply (Hf sample.record1).
    + rewrite sample_db1_ledger. left. reflexivity.
    + reflexivity.
Defined.

(** X9: the secret a rotation returns belongs to the owner of the secret
    presented and rotates in its turn: presented before
    [now + refresh lifetime], with the owner still active, it yields a new
    pair for the same user. *)
Theorem X9_rotated_secret_rotates
        (settings : Settings) (db : DB) (now : Z) (raw jti T : string)
        (record : RefreshToken.t) (user : User.t)
        (now' : Z) (raw' jti' : string) :
  unique_token_hash db ->
  In record (refresh_tokens db) ->
  RefreshToken.token_hash record = main._hash_refresh_token settings T ->
  RefreshToken.revoked record = false ->
  now < RefreshToken.expires_at record ->
  get_User db (RefreshToken.user_id record) = Some user ->
  User.active user = true ->
  fresh_secret settings db raw ->
  fresh_secret settings db raw' ->
  raw' <> raw ->
  now' < now + timedelta_minutes (refresh_token_expire_minutes settings) ->
  exists db1 db2,
    main.refresh_token settings db now raw jti T
    = (db1, Return {| schemas.Token.access_token :=
                        auth.create_access_token settings now jti
                                                 (User.id user) None;
                      schemas.Token.token_type := "bearer";
                      schemas.Token.refresh_token := Some raw |})
    /\ main.refresh_token settings db1 now' raw' jti' raw
       = (db2, Return {| schemas.Token.access_token :=
                           auth.create_access_token settings now' jti'
                                                    (User.id user) None;
                         schemas.Token.token_type := "bearer";
                         schemas.Token.refresh_token := Some raw' |}).
Proof.
  intros Hu Hin Hh Hrev Hexp Huser Hact Hf Hf' Hne Hnow.
  destruct (refresh_rotates_appends settings db now raw jti T record user
              Hu Hin Hh Hrev Hexp Huser Hact Hf)
    as [row [Hfirst [Hrh [Hru [Hrr Hre]]]]].
  set (db1 := with_refresh_tokens db
                (refresh_tokens (main.revoke_record db record) ++ [row])) in *.
  assert (Hu1 : unique_token_hash db1).
  { apply (unique_app_fresh settings db _ row raw); auto.
    simpl. apply update_revoked_hashes. }
  assert (Hf1 : fresh_secret settings db1 raw').
  { apply (fresh_secret_app settings db _ row raw raw'); auto.
    intros r Hr. simpl in Hr.
    apply in_update_revoked in Hr as [r0 [Hin0 [Hh0 _]]].
    now exists r0. }
  assert (Hin1 : In row (refresh_tokens db1))
    by (simpl; apply in_or_app; right; now left).
  assert (Hown : get_User db1 (RefreshToken.user_id row) = Some user)
    by (rewrite Hru; exact Huser).
  destruct (refresh_rotates settings db1 now' raw' jti' raw row user
              Hu1 Hin1 Hrh Hrr ltac:(lia) Hown Hact Hf1)
    as [db2 [Hsecond _]].
  exists db1, db2. split; assumption.
Qed.

Lemma X9_witness :
  exists db1 db2,
    main.refresh_token default_settings sample.db1 200 "secret-2" "jti-2"
                       "secret-1"
    = (db1, Return {| schemas.Token.access_token :=
                        auth.create_access_token default_settings 200 "jti-2"
                                                 (User.id sample.sam) None;
                      schemas.Token.token_type := "bearer";
                      schemas.Token.refresh_token := Some "secret-2" |})
    /\ main.refresh_token default_settings db1 300 "secret-3" "jti-3"
                          "secret-2"
       = (db2, Return {| schemas.Token.access_token :=
                           auth.create_access_token default_settings 300
                             "jti-3" (User.id sample.sam) None;
                         schemas.Token.token_type := "bearer";
                         schemas.Token.refresh_token := Some "secret-3" |}).
Proof.
  apply (X9_rotated_secret_rotates default_settings sample.db1 200
           "secret-2" "jti-2" "secret-1" sample.record1 sample.sam 300
           "secret-3" "jti-3").
  - exact (sample_db1_unique (users sample.db1)).
  - rewrite sample_db1_ledger. left. reflexivity.
  - reflexivity.
  - reflexivity.
  - vm_compute. reflexivity.
  - vm_compute. reflexivity.
  - reflexivity.
  - exact (sample_db1_fresh (users sample.db1)).
  - intros r. rewrite sample_db1_ledger. intros [<-|[]].
    vm_compute. discriminate.
  - discriminate.
  - vm_compute. reflexivity.
Defined.

(* ================================================================= *)
(** ** Tables: ordering, keys and lookups *)

Lemma insert_by_perm {A : Type} (key : A -> Z) (x : A) (rows : list A) :
  Permutation (insert_by key x rows) (x :: rows).
Proof.
  induction rows as [|y rows IH]; simpl; [reflexivity|].
  destruct (key x <=? key y); [reflexivity|].
  rewrite IH. apply perm_swap.
Qed.

Lemma order_by_asc_perm {A : Type} (key : A -> Z) (rows : list A) :
  Permutation (order_by_asc key rows) rows.
Proof.
  induction rows as [|x rows IH]; simpl; [reflexivity|].
  rewrite insert_by_perm. now constructor.
Qed.

Lemma order_by_asc_In {A : Type} (key : A -> Z) (rows : list A) (x : A) :
  In x (order_by_asc key rows) <-> In x rows.
Proof.
  split; apply Permutation_in;
    [apply order_by_asc_perm|symmetry; apply order_by_asc_perm].
Qed.

Lemma insert_by_sorted {A : Type} (key : A -> Z) (x : A) (rows : list A) :
  StronglySorted (fun a b => key a <= key b) rows ->
  StronglySorted (fun a b => key a <= key b) (insert_by key x rows).
Proof.
  induction rows as [|y rows IH]; simpl; intros Hs.
  - constructor; [constructor|constructor].
  - inversion Hs as [|? ? Hs' Hall]; subst.
    destruct (Z.leb_spec (key x) (key y)) as [Hlt|Hge].
    + constructor; [exact Hs|].
      constructor; [lia|].
      eapply Forall_impl; [|exact Hall]. simpl. intros a Ha. lia.
    + constructor; [now apply IH|].
      apply Forall_forall. intros a Ha.
      apply (Permutation_in _ (insert_by_perm key x rows)) in Ha.
      destruct Ha as [<-|Ha]; [lia|].
      rewrite Forall_forall in Hall. now apply Hall.
Qed.

Lemma order_by_asc_sorted {A : Type} (key : A -> Z) (rows : list A) :
  StronglySorted (fun a b => key a <= key b) (order_by_asc key rows).
Proof.
  induction rows as [|x rows IH]; simpl; [constructor|].
  now apply insert_by_sorted.
Qed.

(** Ordering is stable: the rows of one key come out in table order. *)
Lemma insert_by_filter {A : Type} (key : A -> Z) (k : Z) (x : A)
      (rows : list A) :
  StronglySorted (fun a b => key a <= key b) rows ->
  filter (fun r => key r =? k) (insert_by key x rows)
  = filter (fun r => key r =? k) (x :: rows).
Proof.
  induction rows as [|y rows IH]; intros Hs; [reflexivity|].
  inversion Hs as [|? ? Hs' Hall]; subst.
  cbn [insert_by].
  destruct (Z.leb_spec (key x) (key y)) as [Hle|Hgt]; [reflexivity|].
  cbn [filter]. rewrite (IH Hs'). cbn [filter].
  destruct (key x =? k) eqn:Ex; [|reflexivity].
  destruct (key y =? k) eqn:Ey; [|reflexivity].
  apply Z.eqb_eq in Ex, Ey. lia.
Qed.

Lemma order_by_asc_stable {A : Type} (key : A -> Z) (k : Z) (rows : list A) :
  filter (fun r => key r =? k) (order_by_asc key rows)
  = filter (fun r => key r =? k) rows.
Proof.
  induction rows as [|x rows IH]; [reflexivity|].
  cbn [order_by_asc].
  rewrite (insert_by_filter key k x _ (order_by_asc_sorted key rows)).
  cbn [filter]. now rewrite IH.
Qed.

(** The first row of an ordered query has the least key. *)
Lemma order_by_asc_first {A : Type} (key : A -> Z) (rows : list A)
      (a : A) (rest : list A) :
  order_by_asc key rows = a :: rest ->
  In a rows /\ forall x, In x rows -> key a <= key x.
Proof.
  intros H. split.
  - apply (order_by_asc_In key). rewrite H. now left.
  - intros x Hx. apply (order_by_asc_In key) in Hx. rewrite H in Hx.
    pose proof (order_by_asc_sorted key rows) as Hs. rewrite H in Hs.
    inversion Hs as [|? ? _ Hall]; subst.
    destruct Hx as [<-|Hx]; [lia|].
    rewrite Forall_forall in Hall. now apply Hall.
Qed.

Lemma next_id_above {A : Type} (id_of : A -> Z) (rows : list A) (r : A) :
  In r rows -> id_of r < next_id id_of rows.
Proof.
  unfold next_id. induction rows as [|x rows IH]; [contradiction|].
  cbn [fold_right]. intros [<-|Hin]; [lia|]. specialize (IH Hin). lia.
Qed.

Lemma find_app_new {A : Type} (f : A -> bool) (rows : list A) (x : A) :
  (forall r, In r rows -> f r = false) ->
  find f (rows ++ [x]) = if f x then Some x else None.
Proof.
  induction rows as [|y rows IH]; simpl; intros H; [reflexivity|].
  rewrite (H y (or_introl eq_refl)). apply IH.
  intros r Hr. apply H. now right.
Qed.

Lemma find_app_old {A : Type} (f : A -> bool) (rows : list A) (x : A) :
  f x = false -> find f (rows ++ [x]) = find f rows.
Proof.
  intros Hx. induction rows as [|y rows IH]; simpl.
  - now rewrite Hx.
  - destruct (f y); [reflexivity|exact IH].
Qed.

Lemma find_filter_other {A : Type} (f keep : A -> bool) (rows : list A) :
  (forall r, f r = true -> keep r = true) ->
  find f (filter keep rows) = find f rows.
Proof.
  intros H. induction rows as [|y rows IH]; simpl; [reflexivity|].
  destruct (keep y) eqn:Ek; simpl.
  - destruct (f y); [reflexivity|exact IH].
  - destruct (f y) eqn:Ef; [|exact IH].
    rewrite (H y Ef) in Ek. discriminate.
Qed.

Lemma find_filter_gone {A : Type} (f keep : A -> bool) (rows : list A) :
  (forall r, f r = true -> keep r = false) ->
  find f (filter keep rows) = None.
Proof.
  intros H. induction rows as [|y rows IH]; simpl; [reflexivity|].
  destruct (keep y) eqn:Ek; simpl; [|exact IH].
  destruct (f y) eqn:Ef; [|exact IH].
  rewrite (H y Ef) in Ek. discriminate.
Qed.

(** Writing a row back under its key: the key now yields the new row, the
    other keys what they yielded. *)
Lemma find_map_replace {A : Type} (id_of : A -> Z) (rows : list A)
      (old new : A) (pk : Z) :
  id_of new = id_of old ->
  find (fun r => id_of r =? pk)
       (map (fun r => if id_of r =? id_of old then new else r) rows)
  = if pk =? id_of old
    then match find (fun r => id_of r =? pk) rows with
         | Some _ => Some new
         | None => None
         end
    else find (fun r => id_of r =? pk) rows.
Proof.
  intros Hid. induction rows as [|y rows IH]; simpl.
  - now destruct (pk =? id_of old).
  - destruct (Z.eqb_spec (id_of y) (id_of old)) as [Ey|Ey].
    + rewrite Hid. destruct (Z.eqb_spec pk (id_of old)) as [Ep|Ep].
      * subst pk. rewrite Z.eqb_refl.
        rewrite Ey, Z.eqb_refl. reflexivity.
      * replace (id_of old =? pk) with false
          by (symmetry; apply Z.eqb_neq; congruence).
        replace (id_of y =? pk) with false
          by (symmetry; apply Z.eqb_neq; congruence).
        rewrite IH.
        replace (pk =? id_of old) with false
          by (symmetry; now apply Z.eqb_neq).
        reflexivity.
    + destruct (Z.eqb_spec (id_of y) pk) as [Ek|Ek].
      * subst pk.
        replace (id_of y =? id_of old) with false
          by (symmetry; now apply Z.eqb_neq).
        reflexivity.
      * rewrite IH. reflexivity.
Qed.

(* ================================================================= *)
(** ** More on the task and event handlers *)

(** X10: a collaborator passes [_task_guard] on every task, reads every
    task, and creates tasks in any department for any assignee; but can
    delete no task and update or delete no event. *)
Theorem X10_collaborator_scope (user : User.t) :
  User.role user = collaborator ->
  (forall task, main._task_guard task user = Return tt)
  /\ (forall db task_id task,
         get_Task db task_id = Some task ->
         main.get_task db task_id user = Return task)
  /\ (forall db task_in dept assignee,
         get_Department db (schemas.TaskCreate.department_id task_in)
         = Some dept ->
         get_User db (schemas.TaskCreate.assigned_to_id task_in)
         = Some assignee ->
         schemas.TaskCreate.start_date task_in
         <= schemas.TaskCreate.end_date task_in ->
         Allow (snd (main.create_task db user task_in)))
  /\ (forall db task_id task,
         get_Task db task_id = Some task ->
         main.delete_task db task_id user
         = (db, Raise (HTTPException HTTP_403_FORBIDDEN
                                     "Not allowed to delete tasks")))
  /\ (forall db event_id event,
         get_Event db event_id = Some event ->
         (forall update,
             main.update_event db event_id update user
             = (db, Raise (HTTPException HTTP_403_FORBIDDEN
                                         "Not allowed to update events")))
         /\ main.delete_event db event_id user
            = (db, Raise (HTTPException HTTP_403_FORBIDDEN
                                        "Not allowed to delete events"))).
Proof.
  intros Hrole.
  assert (Hguard : forall task, main._task_guard task user = Return tt)
    by (intros task; now rewrite task_guard_by_role, Hrole).
  repeat apply conj.
  - exact Hguard.
  - intros db task_id task Htask. unfold main.get_task.
    now rewrite Htask, Hguard.
  - intros db task_in dept assignee Hd Ha Hdates. unfold main.create_task.
    rewrite Hd, Ha, Hrole. simpl.
    replace (schemas.TaskCreate.end_date task_in
             <? schemas.TaskCreate.start_date task_in)
      with false by (symmetry; apply Z.ltb_ge; lia).
    simpl. now eexists.
  - intros db task_id task Htask. unfold main.delete_task.
    now rewrite Htask, Hrole.
  - intros db event_id event Hev. split.
    + intros update. unfold main.update_event, main.event_role_check.
      now rewrite Hev, Hrole.
    + unfold main.delete_event, main.event_role_check.
      now rewrite Hev, Hrole.
Qed.

Lemma X10_witness :
  main.get_task sample.db0 1 sample.carl = Return sample.task1
  /\ main.delete_task sample.db0 1 sample.carl
     = (sample.db0, Raise (HTTPException HTTP_403_FORBIDDEN
                                         "Not allowed to delete tasks")).
Proof.
  destruct (X10_collaborator_scope sample.carl eq_refl)
    as [_ [Hget [_ [Hdel _]]]].
  split.
  - apply Hget. reflexivity.
  - apply (Hdel sample.db0 1 sample.task1). reflexivity.
Defined.

Lemma issue_never_raises_http (settings : Settings) (db : DB) (now : Z)
      (raw : string) (user_id : Z) (db' : DB) (status_code : Z)
      (detail : string) :
  main._issue_refresh_token settings db now raw user_id
  <> (db', Raise (HTTPException status_code detail)).
Proof.
  destruct (issue_cases settings db now raw user_id)
    as [[_ ->]|[_ [row [_ [_ [_ [_ ->]]]]]]]; discriminate.
Qed.

(** X11: a request answered with an HTTP error has written nothing: for
    each of the session, task, event, user and grant handlers, an
    [HTTPException] outcome comes with the database the handler was given. *)
Theorem X11_http_errors_write_nothing (status_code : Z) (detail : string) :
  let failed := fun (A : Type) (r : DB * outcome A) (db : DB) =>
                  snd r = Raise (HTTPException status_code detail) ->
                  fst r = db in
  (forall settings db now raw jti username password,
      failed _ (main.login_for_access_token settings db now raw jti
                  username password) db)
  /\ (forall settings db now raw jti token,
         failed _ (main.refresh_token settings db now raw jti token) db)
  /\ (forall db user task_in, failed _ (main.create_task db user task_in) db)
  /\ (forall db task_id user, failed _ (main.delete_task db task_id user) db)
  /\ (forall db task_id user,
         failed _ (main.send_task_to_admin db task_id user) db)
  /\ (forall db event_in user, failed _ (main.create_event db event_in user) db)
  /\ (forall db meeting user,
         failed _ (main.schedule_meeting db meeting user) db)
  /\ (forall db event_id update user,
         failed _ (main.update_event db event_id update user) db)
  /\ (forall db event_id user,
         failed _ (main.delete_event db event_id user) db)
  /\ (forall acct db salt user_in user,
         failed _ (main.create_user acct db salt user_in user) db)
  /\ (forall acct db salt user_id update user,
         failed _ (main.update_user acct db salt user_id update user) db)
  /\ (forall db grant user,
         failed _ (main.create_access_grant db grant user) db).
Proof.
  cbv zeta. repeat apply conj.
  - intros settings db now raw jti username password.
    unfold main.login_for_access_token.
    destruct (auth.authenticate_user db username password) as [[user|]|e0];
      [|reflexivity|reflexivity].
    pose proof (issue_never_raises_http settings db now raw (User.id user))
      as Hi.
    destruct (main._issue_refresh_token settings db now raw (User.id user))
      as [db' [tok|e]]; simpl; [discriminate|].
    intros H. injection H as ->. exfalso.
    now apply (Hi db' status_code detail).
  - intros settings db now raw jti token. unfold main.refresh_token.
    destruct (main.refresh_lookup db _ now) as [record|]; [|reflexivity].
    destruct (get_User db (RefreshToken.user_id record)) as [user|];
      [|reflexivity].
    destruct (negb (User.active user)); [reflexivity|].
    pose proof (issue_never_raises_http settings
                  (main.revoke_record db record) now raw (User.id user))
      as Hi.
    destruct (main._issue_refresh_token settings
                (main.revoke_record db record) now raw (User.id user))
      as [db' [tok|e]]; simpl; [discriminate|].
    intros H. injection H as ->. exfalso.
    now apply (Hi db' status_code detail).
  - intros db user task_in. unfold main.create_task.
    repeat match goal with
           | |- context [match ?x with _ => _ end] => destruct x
           end; simpl; congruence.
  - intros db task_id user. unfold main.delete_task.
    repeat match goal with
           | |- context [match ?x with _ => _ end] => destruct x
           end; simpl; congruence.
  - intros db task_id user. unfold main.send_task_to_admin.
    repeat match goal with
           | |- context [match ?x with _ => _ end] => destruct x
           end; simpl; congruence.
  - intros db event_in user. unfold main.create_event.
    repeat match goal with
           | |- context [match ?x with _ => _ end] => destruct x
           end; simpl; congruence.
  - intros db meeting user. unfold main.schedule_meeting.
    repeat match goal with
           | |- context [match ?x with _ => _ end] => destruct x
           end; simpl; congruence.
  - intros db event_id update user. unfold main.update_event.
    repeat match goal with
           | |- context [match ?x with _ => _ end] => destruct x
           end; simpl; congruence.
  - intros db event_id user. unfold main.delete_event.
    repeat match goal with
           | |- context [match ?x with _ => _ end] => destruct x
           end; simpl; congruence.
  - intros acct db salt user_in user. unfold main.create_user.
    repeat match goal with
           | |- context [match ?x with _ => _ end] => destruct x
           end; simpl; congruence.
  - intros acct db salt user_id update user. unfold main.update_user.
    repeat match goal with
           | |- context [match ?x with _ => _ end] => destruct x
           end; simpl; congruence.
  - intros db grant user. unfold main.create_access_grant.
    repeat match goal with
           | |- context [match ?x with _ => _ end] => destruct x
           end; simpl; congruence.
Qed.

Lemma X11_witness :
  fst (main.create_task sample.db0 sample.stella sample.task_elsewhere)
  = sample.db0.
Proof.
  destruct (X11_http_errors_write_nothing 403
              "Staff can only create tasks in their department")
    as [_ [_ [Hcreate _]]].
  apply Hcreate. reflexivity.
Defined.

(** X12: a task [create_task] returns is stored under a key larger than
    every key in the table, carries the requested columns and the caller as
    creator, leaves the other tasks as they were, and can be read back by
    its creator through [get_task], whatever the creator's role. *)
Theorem X12_created_task_can_be_read_back
        (db db' : DB) (user : User.t) (task_in : schemas.TaskCreate.t)
        (task : Task.t) :
  main.create_task db user task_in = (db', Return task) ->
  tasks db' = (tasks db ++ [task])%list
  /\ (forall t, In t (tasks db) -> Task.id t < Task.id task)
  /\ Task.title task = schemas.TaskCreate.title task_in
  /\ Task.start_date task = schemas.TaskCreate.start_date task_in
  /\ Task.end_date task = schemas.TaskCreate.end_date task_in
  /\ Task.department_id task = schemas.TaskCreate.department_id task_in
  /\ Task.assigned_to_id task = schemas.TaskCreate.assigned_to_id task_in
  /\ Task.created_by_id task = User.id user
  /\ Task.start_date task <= Task.end_date task
  /\ (forall pk, pk <> Task.id task -> get_Task db' pk = get_Task db pk)
  /\ main.get_task db' (Task.id task) user = Return task.
Proof.
  unfold main.create_task. intros H.
  destruct (get_Department db _) as [dept|]; [|discriminate].
  destruct (get_User db _) as [assignee|]; [|discriminate].
  destruct (Role_eqb (User.role user) manager
            && negb (opt_Z_eqb (User.department_id user)
                               (Some (schemas.TaskCreate.department_id task_in))))
    eqn:Emgr; [discriminate|].
  destruct (Role_eqb (User.role user) staff
            && negb (opt_Z_eqb (User.department_id user)
                               (Some (schemas.TaskCreate.department_id task_in))))
    eqn:Estaff1; [discriminate|].
  destruct (Role_eqb (User.role user) staff
            && negb (User.id user =? schemas.TaskCreate.assigned_to_id task_in))
    eqn:Estaff2; [discriminate|].
  destruct (schemas.TaskCreate.end_date task_in
            <? schemas.TaskCreate.start_date task_in) eqn:Edates;
    [discriminate|].
  cbv zeta in H. injection H as Hdb Htask. subst db' task. simpl.
  assert (Hfresh : forall t, In t (tasks db) ->
                             Task.id t < next_id Task.id (tasks db))
    by (intros t Ht; now apply next_id_above).
  assert (Hlookup :
            get_Task
              (with_tasks db
                 (tasks db ++
                    [{| Task.id := next_id Task.id (tasks db);
                        Task.title := schemas.TaskCreate.title task_in;
                        Task.start_date := schemas.TaskCreate.start_date task_in;
                        Task.end_date := schemas.TaskCreate.end_date task_in;
                        Task.department_id :=
                          schemas.TaskCreate.department_id task_in;
                        Task.assigned_to_id :=
                          schemas.TaskCreate.assigned_to_id task_in;
                        Task.created_by_id := User.id user |}]))
              (next_id Task.id (tasks db))
            = Some {| Task.id := next_id Task.id (tasks db);
                      Task.title := schemas.TaskCreate.title task_in;
                      Task.start_date := schemas.TaskCreate.start_date task_in;
                      Task.end_date := schemas.TaskCreate.end_date task_in;
                      Task.department_id :=
                        schemas.TaskCreate.department_id task_in;
                      Task.assigned_to_id :=
                        schemas.TaskCreate.assigned_to_id task_in;
                      Task.created_by_id := User.id user |}).
  { unfold get_Task. simpl. rewrite find_app_new.
    - simpl. now rewrite Z.eqb_refl.
    - intros t Ht. apply Z.eqb_neq. specialize (Hfresh t Ht). lia. }
  repeat apply conj; try reflexivity.
  - exact Hfresh.
  - apply Z.ltb_ge in Edates. lia.
  - intros pk Hpk. unfold get_Task. simpl. apply find_app_old.
    simpl. apply Z.eqb_neq. congruence.
  - unfold main.get_task. rewrite Hlookup.
    rewrite task_guard_by_role. simpl.
    destruct (User.role user); simpl in *; try reflexivity.
    + apply negb_false_iff in Emgr. now rewrite Emgr.
    + apply negb_false_iff in Estaff2. now rewrite Estaff2.
Qed.

Lemma X12_witness :
  main.get_task
    (fst (main.create_task sample.db0 sample.sam sample.task_for_sam))
    2 sample.sam
  = Return {| Task.id := 2; Task.title := "Inventory"; Task.start_date := 30;
              Task.end_date := 40; Task.department_id := 1;
              Task.assigned_to_id := 3; Task.created_by_id := 3 |}.
Proof.
  apply (X12_created_task_can_be_read_back sample.db0 _ sample.sam
           sample.task_for_sam
           {| Task.id := 2; Task.title := "Inventory"; Task.start_date := 30;
              Task.end_date := 40; Task.department_id := 1;
              Task.assigned_to_id := 3; Task.created_by_id := 3 |}).
  reflexivity.
Defined.

(** X13: after [delete_task] succeeds the task is gone from the table,
    every other task is still found under its key, and no task has been
    added. *)
Theorem X13_deleted_task_is_gone
        (db db' : DB) (task_id : Z) (user : User.t) :
  main.delete_task db task_id user = (db', Return tt) ->
  get_Task db' task_id = None
  /\ (forall pk, pk <> task_id -> get_Task db' pk = get_Task db pk)
  /\ (forall t, In t (tasks db') -> In t (tasks db) /\ Task.id t <> task_id)
  /\ users db' = users db /\ events db' = events db.
Proof.
  unfold main.delete_task. intros H.
  destruct (get_Task db task_id) as [db_task|] eqn:Htask; [|discriminate].
  assert (Hid : Task.id db_task = task_id).
  { unfold get_Task in Htask. apply find_some in Htask as [_ Hid].
    now apply Z.eqb_eq in Hid. }
  assert (Hdb : db' = with_tasks db
                  (filter (fun t => negb (Task.id t =? Task.id db_task))
                          (tasks db))).
  { cbv zeta in H.
    destruct (User.role user);
      repeat match type of H with
             | context [if ?c then _ else _] => destruct c
             end; congruence. }
  subst db'. rewrite Hid. simpl. repeat apply conj; try reflexivity.
  - unfold get_Task. simpl. apply find_filter_gone.
    intros r Hr. now rewrite Hr.
  - intros pk Hpk. unfold get_Task. simpl. apply find_filter_other.
    intros r Hr. apply Z.eqb_eq in Hr. apply negb_true_iff.
    apply Z.eqb_neq. congruence.
  - intros t Ht. apply filter_In in Ht as [Hin Hne]. split; [exact Hin|].
    apply negb_true_iff, Z.eqb_neq in Hne. exact Hne.
Qed.

Lemma X13_witness :
  get_Task (fst (main.delete_task sample.db0 1 sample.sam)) 1 = None.
Proof.
  apply (X13_deleted_task_is_gone sample.db0 _ 1 sample.sam).
  reflexivity.
Defined.

Lemma apply_fields_keeps (user : User.t) (fields : list main.field) :
  forall event event',
    main.apply_fields user fields event = Return event' ->
    Event.id event' = Event.id event
    /\ (User.role user = manager ->
        Event.department_id event = User.department_id user ->
        Event.department_id event' = User.department_id user).
Proof.
  induction fields as [|f fields IH]; intros event event' H;
    cbn [main.apply_fields] in H.
  - injection H as <-. auto.
  - destruct f as [v|v|v|v].
    + apply IH in H as [Hid Hd]. simpl in *. auto.
    + apply IH in H as [Hid Hd]. simpl in *. auto.
    + apply IH in H as [Hid Hd]. simpl in *. auto.
    + destruct (Role_eqb (User.role user) manager
                && negb (opt_Z_eqb (Some v) (User.department_id user)))
        eqn:E; [discriminate|].
      apply IH in H as [Hid Hd]. split; [exact Hid|].
      intros Hrole Hdept. apply Hd; [exact Hrole|].
      rewrite Hrole in E.
      change (negb (opt_Z_eqb (Some v) (User.department_id user)) = false)
        in E.
      apply negb_false_iff, opt_Z_eqb_eq in E. exact E.
Qed.

(** X14: after [update_event] succeeds the event keeps its key, is found
    under it with the returned columns, and every other event is as it was;
    when the caller is a manager, the event was and still is in the
    manager's own department. *)
Theorem X14_updated_event_is_stored
        (db db' : DB) (event_id : Z) (update : schemas.EventUpdate.t)
        (user : User.t) (updated : Event.t) :
  main.update_event db event_id update user = (db', Return updated) ->
  Event.id updated = event_id
  /\ get_Event db' event_id = Some updated
  /\ (forall pk, pk <> event_id -> get_Event db' pk = get_Event db pk)
  /\ (User.role user = manager ->
      exists d, User.department_id user = Some d
                /\ Event.department_id updated = Some d
                /\ exists before, get_Event db event_id = Some before
                                  /\ Event.department_id before = Some d).
Proof.
  unfold main.update_event. intros H.
  destruct (get_Event db event_id) as [db_event|] eqn:Hev; [|discriminate].
  assert (Hid : Event.id db_event = event_id).
  { unfold get_Event in Hev. apply find_some in Hev as [_ Hid].
    now apply Z.eqb_eq in Hid. }
  destruct (main.event_role_check db_event user _ _) eqn:Hcheck;
    [|discriminate].
  destruct (main.apply_fields user (main.model_dump_exclude_none update)
              db_event) as [ev|] eqn:Hloop; [|discriminate].
  injection H as Hdb Hupd. subst db' ev.
  destruct (apply_fields_keeps _ _ _ _ Hloop) as [Hkeep Hdept].
  repeat apply conj.
  - congruence.
  - unfold get_Event in *. simpl.
    rewrite (find_map_replace Event.id (events db) db_event updated event_id
               Hkeep).
    rewrite Hid, Z.eqb_refl, Hev. reflexivity.
  - intros pk Hpk. unfold get_Event. simpl.
    rewrite (find_map_replace Event.id (events db) db_event updated pk Hkeep).
    rewrite Hid.
    replace (pk =? event_id) with false by (symmetry; now apply Z.eqb_neq).
    reflexivity.
  - intros Hrole.
    rewrite (event_role_check_manager _ _ _ _ Hrole) in Hcheck.
    destruct (Event.department_id db_event) as [d|] eqn:Hd;
      [|discriminate].
    destruct (opt_Z_eqb (Some d) (User.department_id user)) eqn:E;
      [|discriminate].
    apply opt_Z_eqb_eq in E. exists d.
    split; [now symmetry|]. split.
    + rewrite (Hdept Hrole E). now symmetry.
    + exists db_event. split; [reflexivity|exact Hd].
Qed.

Lemma X14_witness :
  get_Event (fst (main.update_event sample.db0 1 sample.rename sample.mona)) 1
  = Some {| Event.id := 1; Event.title := "Budget review (moved)";
            Event.description := None; Event.scheduled_at := 50;
            Event.department_id := Some 1 |}.
Proof.
  apply (X14_updated_event_is_stored sample.db0 _ 1 sample.rename
           sample.mona
           {| Event.id := 1; Event.title := "Budget review (moved)";
              Event.description := None; Event.scheduled_at := 50;
              Event.department_id := Some 1 |}).
  reflexivity.
Defined.

Lemma opt_Z_eqb_sym (a b : option Z) : opt_Z_eqb a b = opt_Z_eqb b a.
Proof.
  destruct a as [x|], b as [y|]; simpl; try reflexivity. apply Z.eqb_sym.
Qed.

(** X15: [list_all_tasks] returns exactly the tasks of the table that
    [_task_guard] lets the caller read, by increasing [end_date]. *)
Theorem X15_list_all_tasks_matches_guard (db : DB) (user : User.t) :
  (forall t, In t (main.list_all_tasks db user)
             <-> In t (tasks db) /\ main._task_guard t user = Return tt)
  /\ StronglySorted (fun a b => Task.end_date a <= Task.end_date b)
                    (main.list_all_tasks db user).
Proof.
  split; [|apply order_by_asc_sorted].
  intros t. unfold main.list_all_tasks. rewrite order_by_asc_In.
  rewrite task_guard_by_role.
  destruct (User.role user); cbn [Role_eqb].
  - tauto.
  - rewrite filter_In, opt_Z_eqb_sym.
    destruct (opt_Z_eqb (User.department_id user)
                        (Some (Task.department_id t)));
      split; intros [H1 H2]; split; auto; discriminate.
  - rewrite filter_In, Z.eqb_sym.
    destruct (User.id user =? Task.assigned_to_id t);
      split; intros [H1 H2]; split; auto; discriminate.
  - tauto.
Qed.

(** X16: [list_department_tasks] applies no role rule: it returns exactly
    the tasks of the caller's department (none for a caller without
    department), so a staff user is shown the tasks of the department that
    are assigned to others, which [_task_guard] refuses to the same user. *)
Theorem X16_list_department_tasks_ignores_role (db : DB) (user : User.t) :
  (forall t, In t (main.list_department_tasks db user)
             <-> In t (tasks db)
                 /\ User.department_id user = Some (Task.department_id t))
  /\ (forall t,
         User.role user = staff ->
         In t (tasks db) ->
         User.department_id user = Some (Task.department_id t) ->
         Task.assigned_to_id t <> User.id user ->
         In t (main.list_department_tasks db user)
         /\ main._task_guard t user
            = Raise (HTTPException HTTP_403_FORBIDDEN
                                   "Task not assigned to you")).
Proof.
  assert (Hin : forall t, In t (main.list_department_tasks db user)
                          <-> In t (tasks db)
                              /\ User.department_id user
                                 = Some (Task.department_id t)).
  { intros t. unfold main.list_department_tasks.
    destruct (User.department_id user) as [d|].
    - rewrite order_by_asc_In, filter_In, Z.eqb_eq.
      split; intros [H1 H2]; split; congruence.
    - simpl. split; [contradiction|intros [_ H]; discriminate]. }
  split; [exact Hin|].
  intros t Hrole Ht Hdept Hassigned. split.
  - apply Hin. now split.
  - rewrite task_guard_by_role, Hrole.
    replace (User.id user =? Task.assigned_to_id t) with false;
      [reflexivity|]. symmetry. apply Z.eqb_neq. congruence.
Qed.

Lemma X16_witness :
  In sample.task1 (main.list_department_tasks sample.db0 sample.stella)
  /\ main._task_guard sample.task1 sample.stella
     = Raise (HTTPException HTTP_403_FORBIDDEN "Task not assigned to you").
Proof.
  apply (X16_list_department_tasks_ignores_role sample.db0 sample.stella).
  - reflexivity.
  - left. reflexivity.
  - reflexivity.
  - vm_compute. discriminate.
Defined.

Lemma unique_key_inj {A : Type} (key : A -> Z) (rows : list A) :
  NoDup (map key rows) ->
  forall r r', In r rows -> In r' rows -> key r = key r' -> r = r'.
Proof.
  induction rows as [|x rows IH]; simpl; intros Hnd r r' Hr Hr' Heq.
  - contradiction.
  - inversion Hnd as [|? ? Hnotin Hnd']; subst.
    destruct Hr as [->|Hr], Hr' as [->|Hr']; auto.
    + exfalso. apply Hnotin. rewrite Heq. now apply in_map.
    + exfalso. apply Hnotin. rewrite <- Heq. now apply in_map.
Qed.

(** X17: when [send_task_to_admin] succeeds, the task is stored under its
    key with, as assignee, the active administrator of least id; the other
    tasks are as they were.  It follows that a staff user who escalates a
    task can no longer read it. *)
Theorem X17_escalation_assigns_first_admin
        (db db' : DB) (task_id : Z) (user : User.t) (task : Task.t) :
  main.send_task_to_admin db task_id user = (db', Return task) ->
  (exists admin_user,
      In admin_user (users db)
      /\ User.role admin_user = admin
      /\ User.active admin_user = true
      /\ (forall u, In u (users db) -> User.role u = admin ->
                    User.active u = true -> User.id admin_user <= User.id u)
      /\ Task.assigned_to_id task = User.id admin_user)
  /\ Task.id task = task_id
  /\ get_Task db' task_id = Some task
  /\ (forall pk, pk <> task_id -> get_Task db' pk = get_Task db pk)
  /\ (User.role user = staff ->
      get_User db (User.id user) = Some user ->
      NoDup (map User.id (users db)) ->
      main.get_task db' task_id user
      = Raise (HTTPException HTTP_403_FORBIDDEN "Task not assigned to you")).
Proof.
  unfold main.send_task_to_admin. intros H.
  destruct (get_Task db task_id) as [db_task|] eqn:Htask; [|discriminate].
  assert (Hid : Task.id db_task = task_id).
  { unfold get_Task in Htask. apply find_some in Htask as [_ Hid].
    now apply Z.eqb_eq in Hid. }
  destruct (main._task_guard db_task user); [|discriminate].
  destruct (order_by_asc User.id _) as [|admin_user rest] eqn:Hadmins;
    [discriminate|].
  injection H as Hdb Hupd. subst db' task.
  destruct (order_by_asc_first _ _ _ _ Hadmins) as [Hin Hleast].
  apply filter_In in Hin as [Hin Hsel].
  apply andb_true_iff in Hsel as [Hrole Hact].
  assert (Hadmin : User.role admin_user = admin)
    by (destruct (User.role admin_user); simpl in Hrole;
        congruence || discriminate).
  assert (Hfound :
            get_Task
              (with_tasks db
                 (map (fun t => if Task.id t =? Task.id db_task
                                then main.set_assigned_to_id db_task
                                       (User.id admin_user)
                                else t) (tasks db))) task_id
            = Some (main.set_assigned_to_id db_task (User.id admin_user))).
  { unfold get_Task in *. simpl.
    rewrite (find_map_replace Task.id (tasks db) db_task
               (main.set_assigned_to_id db_task (User.id admin_user))
               task_id eq_refl).
    now rewrite Hid, Z.eqb_refl, Htask. }
  repeat apply conj.
  - exists admin_user. repeat split; auto.
    intros u Hu Hur Hua. apply Hleast. apply filter_In. split; [exact Hu|].
    now rewrite Hur, Hua.
  - exact Hid.
  - exact Hfound.
  - intros pk Hpk. unfold get_Task. simpl.
    rewrite (find_map_replace Task.id (tasks db) db_task
               (main.set_assigned_to_id db_task (User.id admin_user))
               pk eq_refl).
    rewrite Hid.
    replace (pk =? task_id) with false by (symmetry; now apply Z.eqb_neq).
    reflexivity.
  - intros Hstaff Huser Hnd. unfold main.get_task. rewrite Hfound.
    rewrite task_guard_by_role, Hstaff. simpl.
    replace (User.id user =? User.id admin_user) with false;
      [reflexivity|].
    symmetry. apply Z.eqb_neq. intros Heq.
    destruct (get_User_id _ _ _ Huser) as [_ Huin].
    assert (user = admin_user)
      by (apply (unique_key_inj User.id (users db) Hnd); auto).
    subst admin_user. rewrite Hstaff in Hadmin. discriminate.
Qed.

Lemma X17_witness :
  main.get_task (fst (main.send_task_to_admin sample.db0 1 sample.sam)) 1
                sample.sam
  = Raise (HTTPException HTTP_403_FORBIDDEN "Task not assigned to you").
Proof.
  apply (X17_escalation_assigns_first_admin sample.db0 _ 1 sample.sam
           (main.set_assigned_to_id sample.task1 1)).
  - reflexivity.
  - reflexivity.
  - reflexivity.
  - simpl. repeat constructor; simpl; intuition discriminate.
Defined.

(** X18: when no administrator is active, [send_task_to_admin] on a task
    the caller may read is refused with 400 "No admin available to review"
    and the task keeps its assignee. *)
Theorem X18_escalation_without_admin (db : DB) (task_id : Z)
      (user : User.t) (task : Task.t) :
  get_Task db task_id = Some task ->
  main._task_guard task user = Return tt ->
  (forall u, In u (users db) -> User.role u = admin ->
             User.active u = false) ->
  main.send_task_to_admin db task_id user
  = (db, Raise (HTTPException HTTP_400_BAD_REQUEST
                              "No admin available to review")).
Proof.
  intros Htask Hguard Hnone. unfold main.send_task_to_admin.
  rewrite Htask, Hguard.
  destruct (order_by_asc User.id _) as [|admin_user rest] eqn:Hadmins;
    [reflexivity|].
  exfalso.
  destruct (order_by_asc_first _ _ _ _ Hadmins) as [Hin _].
  apply filter_In in Hin as [Hin Hsel].
  apply andb_true_iff in Hsel as [Hrole Hact].
  assert (User.role admin_user = admin)
    by (destruct (User.role admin_user); simpl in Hrole;
        congruence || discriminate).
  rewrite (Hnone admin_user Hin) in Hact; [discriminate|assumption].
Qed.

Lemma X18_witness :
  main.send_task_to_admin sample.db0_no_admin 1 sample.sam
  = (sample.db0_no_admin,
     Raise (HTTPException HTTP_400_BAD_REQUEST "No admin available to review")).
Proof.
  apply (X18_escalation_without_admin sample.db0_no_admin 1 sample.sam
           sample.task1).
  - reflexivity.
  - reflexivity.
  - intros u [<-|[<-|[<-|[]]]]; discriminate.
Defined.

Lemma department_missing_false (db : DB) (department_id : option Z) :
  main.department_missing db department_id = false ->
  forall d, department_id = Some d -> exists dept, get_Department db d = Some dept.
Proof.
  unfold main.department_missing. intros H d ->.
  destruct (get_Department db d) as [dept|]; [now exists dept|discriminate].
Qed.

Lemma not_in_none_or_false (x y : option Z) :
  not_in_none_or x y = false <-> x = None \/ x = y.
Proof.
  unfold not_in_none_or. rewrite negb_false_iff, orb_true_iff.
  now rewrite !opt_Z_eqb_eq.
Qed.

Lemma not_in_none_or_true (x y : option Z) :
  not_in_none_or x y = true <-> x <> None /\ x <> y.
Proof.
  unfold not_in_none_or. rewrite negb_true_iff, orb_false_iff.
  now rewrite !opt_Z_eqb_neq.
Qed.

Lemma get_Event_appended (db : DB) (event : Event.t) :
  Event.id event = next_id Event.id (events db) ->
  get_Event (with_events db (events db ++ [event])) (Event.id event)
  = Some event
  /\ forall pk, pk <> Event.id event ->
                get_Event (with_events db (events db ++ [event])) pk
                = get_Event db pk.
Proof.
  intros Hid. unfold get_Event. simpl. split.
  - rewrite find_app_new; [now rewrite Z.eqb_refl|].
    intros e He. apply Z.eqb_neq.
    pose proof (next_id_above Event.id (events db) e He). lia.
  - intros pk Hpk. apply find_app_old. apply Z.eqb_neq. congruence.
Qed.

(** X19: [create_event] serves administrators and managers only; a manager
    may post to the own department or to none.  The event created is stored
    with the posted columns under a new key, its department (if any)
    exists, and a manager who posted a shared event can afterwards neither
    update nor delete it. *)
Theorem X19_create_event_rules
        (db : DB) (event_in : schemas.EventCreate.t) (user : User.t) :
  (User.role user = staff \/ User.role user = collaborator ->
   main.create_event db event_in user
   = (db, Raise (HTTPException HTTP_403_FORBIDDEN "Insufficient permissions")))
  /\ (User.role user = manager ->
      schemas.EventCreate.department_id event_in <> None ->
      schemas.EventCreate.department_id event_in <> User.department_id user ->
      main.create_event db event_in user
      = (db, Raise (HTTPException HTTP_403_FORBIDDEN
                      "Managers can only post to their department or shared")))
  /\ (forall db' event,
         main.create_event db event_in user = (db', Return event) ->
         (User.role user = admin \/ User.role user = manager)
         /\ Event.title event = schemas.EventCreate.title event_in
         /\ Event.description event = schemas.EventCreate.description event_in
         /\ Event.scheduled_at event = schemas.EventCreate.scheduled_at event_in
         /\ Event.department_id event
            = schemas.EventCreate.department_id event_in
         /\ (forall d, Event.department_id event = Some d ->
                       exists dept, get_Department db d = Some dept)
         /\ (forall e, In e (events db) -> Event.id e < Event.id event)
         /\ get_Event db' (Event.id event) = Some event
         /\ (User.role user = manager ->
             Event.department_id event = None ->
             (forall update,
                 main.update_event db' (Event.id event) update user
                 = (db', Raise (HTTPException HTTP_403_FORBIDDEN
                     "Managers cannot modify shared or other department events")))
             /\ main.delete_event db' (Event.id event) user
                = (db', Raise (HTTPException HTTP_403_FORBIDDEN
                    "Managers cannot delete shared or other department events")))).
Proof.
  repeat apply conj.
  - unfold main.create_event, auth.require_role.
    intros [Hrole|Hrole]; rewrite Hrole; reflexivity.
  - intros Hrole Hnone Hother. unfold main.create_event, auth.require_role.
    rewrite Hrole. cbn -[not_in_none_or].
    assert (E : not_in_none_or (schemas.EventCreate.department_id event_in)
                               (User.department_id user) = true)
      by now apply not_in_none_or_true.
    rewrite Hrole, E. reflexivity.
  - intros db' event H. unfold main.create_event, auth.require_role in H.
    destruct (negb (existsb (Role_eqb (User.role user)) [admin; manager]))
      eqn:Erole; [discriminate|].
    destruct (Role_eqb (User.role user) manager
              && not_in_none_or (schemas.EventCreate.department_id event_in)
                                (User.department_id user)) eqn:Emgr;
      [discriminate|].
    destruct (main.department_missing db
                (schemas.EventCreate.department_id event_in)) eqn:Edept;
      [discriminate|].
    cbv zeta in H. injection H as Hdb Hev. subst db' event.
    destruct (get_Event_appended db
                {| Event.id := next_id Event.id (events db);
                   Event.title := schemas.EventCreate.title event_in;
                   Event.description :=
                     schemas.EventCreate.description event_in;
                   Event.scheduled_at :=
                     schemas.EventCreate.scheduled_at event_in;
                   Event.department_id :=
                     schemas.EventCreate.department_id event_in |} eq_refl)
      as [Hfound _].
    repeat apply conj; try reflexivity.
    + destruct (User.role user); simpl in Erole; auto; discriminate.
    + exact (department_missing_false db _ Edept).
    + intros e He. now apply next_id_above.
    + exact Hfound.
    + intros Hrole Hshared. simpl in Hshared. split.
      * intros update. unfold main.update_event. rewrite Hfound.
        rewrite (event_role_check_manager _ _ _ _ Hrole). simpl.
        now rewrite Hshared.
      * unfold main.delete_event. rewrite Hfound.
        rewrite (event_role_check_manager _ _ _ _ Hrole). simpl.
        now rewrite Hshared.
Qed.

Lemma X19_witness :
  main.create_event sample.db0 sample.shared_notice sample.sam
  = (sample.db0,
     Raise (HTTPException HTTP_403_FORBIDDEN "Insufficient permissions"))
  /\ main.delete_event
       (fst (main.create_event sample.db0 sample.shared_notice sample.mona))
       (Event.id sample.town_hall) sample.mona
     = (fst (main.create_event sample.db0 sample.shared_notice sample.mona),
        Raise (HTTPException HTTP_403_FORBIDDEN
                 "Managers cannot delete shared or other department events")).
Proof.
  destruct (X19_create_event_rules sample.db0 sample.shared_notice sample.sam)
    as [Hrole _].
  destruct (X19_create_event_rules sample.db0 sample.shared_notice
              sample.mona) as [_ [_ Hcreated]].
  split.
  - apply Hrole. left. reflexivity.
  - apply (Hcreated _ sample.town_hall); reflexivity.
Defined.

(** X20: an event [schedule_meeting] stores always has a non-empty
    description (the default "Scheduled meeting" when none or an empty one
    was posted); for a manager or staff caller it is in the caller's
    department or in none.  A staff user may schedule a meeting but can
    afterwards neither update nor delete it. *)
Theorem X20_meetings_are_described
        (db db' : DB) (meeting : schemas.EventCreate.t) (user : User.t)
        (event : Event.t) :
  main.schedule_meeting db meeting user = (db', Return event) ->
  (exists d, Event.description event = Some d /\ d <> ""%string
             /\ (schemas.EventCreate.description meeting = Some d
                 \/ d = "Scheduled meeting"%string))
  /\ Event.title event = schemas.EventCreate.title meeting
  /\ Event.department_id event = schemas.EventCreate.department_id meeting
  /\ (User.role user = manager \/ User.role user = staff ->
      Event.department_id event = None
      \/ Event.department_id event = User.department_id user)
  /\ get_Event db' (Event.id event) = Some event
  /\ (User.role user = staff ->
      (forall update,
          main.update_event db' (Event.id event) update user
          = (db', Raise (HTTPException HTTP_403_FORBIDDEN
                                       "Not allowed to update events")))
      /\ main.delete_event db' (Event.id event) user
         = (db', Raise (HTTPException HTTP_403_FORBIDDEN
                                      "Not allowed to delete events"))).
Proof.
  unfold main.schedule_meeting. intros H.
  destruct (Role_eqb (User.role user) manager
            && not_in_none_or (schemas.EventCreate.department_id meeting)
                              (User.department_id user)) eqn:Emgr;
    [discriminate|].
  destruct (Role_eqb (User.role user) staff
            && not_in_none_or (schemas.EventCreate.department_id meeting)
                              (User.department_id user)) eqn:Estaff;
    [discriminate|].
  destruct (main.department_missing db
              (schemas.EventCreate.department_id meeting)) eqn:Edept;
    [discriminate|].
  cbv zeta in H. injection H as Hdb Hev. subst db'.
  assert (Hid : Event.id event = next_id Event.id (events db))
    by (now subst event).
  destruct (get_Event_appended db event Hid) as [Hfound _].
  assert (Hstored : get_Event
                      (with_events db (events db ++ [event]))
                      (Event.id event) = Some event) by exact Hfound.
  rewrite Hev. repeat apply conj.
  - subst event. simpl.
    destruct (schemas.EventCreate.description meeting) as [d|].
    + destruct (String.eqb d "") eqn:E.
      * exists "Scheduled meeting"%string.
        split; [reflexivity|]. split; [discriminate|now right].
      * apply String.eqb_neq in E.
        exists d. split; [reflexivity|]. split; [exact E|now left].
    + exists "Scheduled meeting"%string.
      split; [reflexivity|]. split; [discriminate|now right].
  - now subst event.
  - now subst event.
  - intros Hrole.
    assert (E : not_in_none_or (schemas.EventCreate.department_id meeting)
                               (User.department_id user) = false)
      by (destruct Hrole as [Hr|Hr]; rewrite Hr in *; simpl in *; assumption).
    apply not_in_none_or_false in E. now subst event.
  - exact Hstored.
  - intros Hrole. split.
    + intros update. unfold main.update_event. rewrite Hstored.
      unfold main.event_role_check. now rewrite Hrole.
    + unfold main.delete_event. rewrite Hstored.
      unfold main.event_role_check. now rewrite Hrole.
Qed.

Lemma X20_witness :
  main.delete_event
    (fst (main.schedule_meeting sample.db0 sample.shared_notice sample.sam))
    (Event.id sample.town_hall_meeting) sample.sam
  = (fst (main.schedule_meeting sample.db0 sample.shared_notice sample.sam),
     Raise (HTTPException HTTP_403_FORBIDDEN "Not allowed to delete events")).
Proof.
  apply (X20_meetings_are_described sample.db0 _ sample.shared_notice
           sample.sam sample.town_hall_meeting); reflexivity.
Defined.

(* ================================================================= *)
(** ** The user handlers *)

Lemma require_admin_or_manager (user : User.t) :
  auth.require_role [admin; manager] (Return user)
  = match User.role user with
    | admin | manager => Return user
    | _ => Raise (HTTPException HTTP_403_FORBIDDEN "Insufficient permissions")
    end.
Proof. unfold auth.require_role. now destruct (User.role user). Qed.

Lemma get_user_none (db : DB) (email : string) :
  auth.get_user db email = None ->
  ~ In email (map User.email (users db)).
Proof.
  unfold auth.get_user. intros H Hin.
  apply in_map_iff in Hin as [u [Hu Hin]].
  pose proof (find_none _ _ H u Hin) as Hp. simpl in Hp.
  rewrite Hu, String.eqb_refl in Hp. discriminate.
Qed.

Lemma truncate_short (n : nat) (bytes : string) :
  (String.length bytes <= n)%nat -> passlib.truncate n bytes = bytes.
Proof.
  revert n. induction bytes as [|c bytes IH]; intros [|n] H; simpl in *;
    try reflexivity; try lia.
  f_equal. apply IH. lia.
Qed.

Lemma utf8_two_bytes (n : nat) :
  (n < 256)%nat ->
  (n / 64 + 192 < 256)%nat /\ (n mod 64 + 128 < 256)%nat.
Proof.
  intros H. split.
  - assert (n / 64 < 4)%nat by (apply Nat.Div0.div_lt_upper_bound; lia). lia.
  - pose proof (Nat.mod_upper_bound n 64). lia.
Qed.

Lemma String_inj (c d : ascii) (s t : string) :
  String c s = String d t -> c = d /\ s = t.
Proof. intros H. injection H as -> ->. now split. Qed.

(** The encoding loses nothing. *)
Lemma utf8_inj (a b : string) : passlib.utf8 a = passlib.utf8 b -> a = b.
Proof.
  revert b. induction a as [|c a IH]; intros [|d b]; cbn [passlib.utf8].
  - reflexivity.
  - cbv zeta. destruct (nat_of_ascii d <? 128)%nat; discriminate.
  - cbv zeta. destruct (nat_of_ascii c <? 128)%nat; discriminate.
  - cbv zeta.
    pose proof (nat_ascii_bounded c) as Hc.
    pose proof (nat_ascii_bounded d) as Hd.
    destruct (utf8_two_bytes _ Hc) as [Hc1 Hc2].
    destruct (utf8_two_bytes _ Hd) as [Hd1 Hd2].
    destruct (Nat.ltb_spec (nat_of_ascii c) 128) as [Lc|Gc],
             (Nat.ltb_spec (nat_of_ascii d) 128) as [Ld|Gd]; intros H;
      apply String_inj in H as [H1 H].
    + subst d. f_equal. now apply IH.
    + exfalso. apply (f_equal nat_of_ascii) in H1.
      rewrite (nat_ascii_embedding _ Hd1) in H1. lia.
    + exfalso. apply (f_equal nat_of_ascii) in H1.
      rewrite (nat_ascii_embedding _ Hc1) in H1. lia.
    + apply String_inj in H as [H2 H].
      apply (f_equal nat_of_ascii) in H1, H2.
      rewrite (nat_ascii_embedding _ Hc1), (nat_ascii_embedding _ Hd1) in H1.
      rewrite (nat_ascii_embedding _ Hc2), (nat_ascii_embedding _ Hd2) in H2.
      assert (Hn : nat_of_ascii c = nat_of_ascii d).
      { rewrite (Nat.div_mod_eq (nat_of_ascii c) 64),
          (Nat.div_mod_eq (nat_of_ascii d) 64). lia. }
      f_equal.
      * rewrite <- (ascii_nat_embedding c), <- (ascii_nat_embedding d).
        now rewrite Hn.
      * now apply IH.
Qed.

(** Two secrets of at most 72 bytes that bcrypt reads alike are equal. *)
Lemma digest_secret_short (a b bytes : string) :
  passlib.digest_secret b = Return bytes ->
  passlib.digest_secret a = passlib.digest_secret b ->
  len (passlib.utf8 a) <= 72 ->
  len (passlib.utf8 b) <= 72 ->
  a = b.
Proof.
  intros Hb Hab Ha72 Hb72. rewrite Hb in Hab.
  unfold passlib.digest_secret in Hab, Hb. cbv zeta in Hab, Hb.
  repeat match type of Hab with
         | (if ?c then _ else _) = _ => destruct c; [discriminate|]
         end.
  repeat match type of Hb with
         | (if ?c then _ else _) = _ => destruct c; [discriminate|]
         end.
  assert (Hsame : passlib.truncate 72 (passlib.utf8 a)
                  = passlib.truncate 72 (passlib.utf8 b)) by congruence.
  rewrite !truncate_short in Hsame by (unfold len in Ha72, Hb72; lia).
  now apply utf8_inj.
Qed.

Lemma get_password_hash_digest (salt password : string)
      (hashed : passlib.bcrypt_hash) :
  auth.get_password_hash salt password = Return hashed ->
  exists bytes, passlib.digest_secret password = Return bytes.
Proof.
  unfold auth.get_password_hash, passlib.hash.
  destruct (passlib.digest_secret password) as [bytes|e]; [|discriminate].
  intros _. now exists bytes.
Qed.

(** A stored hash verifies exactly the secrets bcrypt reads the same bytes
    from; for every other secret the answer is [False] or a refusal. *)
Lemma passlib_verify_hash (salt password plain : string)
      (hashed : passlib.bcrypt_hash) :
  auth.get_password_hash salt password = Return hashed ->
  auth.verify_password plain hashed = Return true
  <-> passlib.digest_secret plain = passlib.digest_secret password.
Proof.
  unfold auth.get_password_hash, auth.verify_password, passlib.hash,
    passlib.verify.
  destruct (passlib.digest_secret password) as [bytes|e]; [|discriminate].
  intros H. injection H as <-.
  destruct (passlib.digest_secret plain) as [read|e].
  - split.
    + intros H. injection H as H. apply String.eqb_eq in H. now subst.
    + intros H. injection H as ->. now rewrite String.eqb_refl.
  - split; discriminate.
Qed.

Lemma passlib_hash_verifies (salt password : string)
      (hashed : passlib.bcrypt_hash) :
  auth.get_password_hash salt password = Return hashed ->
  auth.verify_password password hashed = Return true.
Proof.
  intros H. now apply (passlib_verify_hash salt password password hashed H).
Qed.

(** What [authenticate_user] answers once the e-mail selects a row. *)
Lemma authenticate_user_iff (db : DB) (email plain : string) (user : User.t) :
  auth.get_user db email = Some user ->
  auth.authenticate_user db email plain = Return (Some user)
  <-> auth.verify_password plain (User.hashed_password user) = Return true.
Proof.
  intros Hget. unfold auth.authenticate_user. rewrite Hget.
  destruct (auth.verify_password plain (User.hashed_password user))
    as [[|]|e]; simpl; split; congruence.
Qed.

(** X21: a user created by a manager is placed in the manager's own
    department, whatever department was posted (the posted one, if any, has
    to be the manager's), and is never an administrator. *)
Theorem X21_manager_creates_in_own_department
        (acct : AccountSettings) (db db' : DB) (salt : string)
        (user_in : schemas.UserCreate.t) (user created : User.t) :
  User.role user = manager ->
  main.create_user acct db salt user_in user = (db', Return created) ->
  User.department_id created = User.department_id user
  /\ User.role created <> admin
  /\ User.role created = schemas.UserCreate.role user_in
  /\ (schemas.UserCreate.department_id user_in = None
      \/ schemas.UserCreate.department_id user_in = User.department_id user).
Proof.
  intros Hrole H. unfold main.create_user in H.
  rewrite require_admin_or_manager, Hrole in H.
  rewrite Hrole in H. cbn [Role_eqb andb] in H.
  destruct (Role_eqb (schemas.UserCreate.role user_in) admin) eqn:Eadmin;
    [discriminate|].
  destruct (not_in_none_or (schemas.UserCreate.department_id user_in)
                           (User.department_id user)) eqn:Edept;
    [discriminate|].
  cbv zeta in H.
  destruct (len (schemas.UserCreate.password user_in)
            <? password_min_length acct); [discriminate|].
  destruct (auth.get_user db (schemas.UserCreate.email user_in));
    [discriminate|].
  destruct (auth.get_password_hash salt _) as [hashed|e0]; [|discriminate].
  injection H as _ <-. simpl. repeat apply conj.
  - reflexivity.
  - intros Hr. rewrite Hr in Eadmin. discriminate.
  - reflexivity.
  - now apply not_in_none_or_false.
Qed.

Lemma X21_witness :
  User.department_id sample.nora = User.department_id sample.mona
  /\ User.role sample.nora <> admin
  /\ User.role sample.nora = schemas.UserCreate.role sample.new_hire
  /\ (schemas.UserCreate.department_id sample.new_hire = None
      \/ schemas.UserCreate.department_id sample.new_hire
         = User.department_id sample.mona).
Proof.
  apply (X21_manager_creates_in_own_department default_account_settings
           sample.db0
           (fst (main.create_user default_account_settings sample.db0
                   "salt-2" sample.new_hire sample.mona))
           "salt-2" sample.new_hire sample.mona sample.nora).
  - reflexivity.
  - reflexivity.
Defined.

(** X22: [create_user] accepts only an e-mail no user has and a password of
    at least the configured length that passlib does not refuse.  The user
    it returns is stored and authenticates with the posted password; any
    other password authenticates exactly when bcrypt reads the same bytes
    from it, the first 72 bytes of its UTF-8 encoding, so among passwords
    of at most 72 bytes only the posted one authenticates.  The lookups of
    all other e-mails are unchanged; e-mails that were pairwise distinct
    stay so. *)
Theorem X22_created_user_can_authenticate
        (acct : AccountSettings) (db db' : DB) (salt : string)
        (user_in : schemas.UserCreate.t) (user created : User.t) :
  main.create_user acct db salt user_in user = (db', Return created) ->
  auth.get_user db (schemas.UserCreate.email user_in) = None
  /\ password_min_length acct <= len (schemas.UserCreate.password user_in)
  /\ User.email created = schemas.UserCreate.email user_in
  /\ User.active created = schemas.UserCreate.active user_in
  /\ get_User db' (User.id created) = Some created
  /\ auth.authenticate_user db' (schemas.UserCreate.email user_in)
                            (schemas.UserCreate.password user_in)
     = Return (Some created)
  /\ (forall password,
         auth.authenticate_user db' (schemas.UserCreate.email user_in) password
         = Return (Some created)
         <-> passlib.digest_secret password
             = passlib.digest_secret (schemas.UserCreate.password user_in))
  /\ (len (passlib.utf8 (schemas.UserCreate.password user_in)) <= 72 ->
      forall password,
        len (passlib.utf8 password) <= 72 ->
        auth.authenticate_user db' (schemas.UserCreate.email user_in) password
        = Return (Some created) ->
        password = schemas.UserCreate.password user_in)
  /\ (forall email,
         email <> schemas.UserCreate.email user_in ->
         auth.get_user db' email = auth.get_user db email)
  /\ (NoDup (map User.email (users db)) ->
      NoDup (map User.email (users db'))).
Proof.
  intros H. unfold main.create_user in H.
  destruct (auth.require_role [admin; manager] (Return user)) as [cu|];
    [|discriminate].
  destruct (Role_eqb (User.role cu) manager
            && Role_eqb (schemas.UserCreate.role user_in) admin);
    [discriminate|].
  destruct (Role_eqb (User.role cu) manager
            && not_in_none_or (schemas.UserCreate.department_id user_in)
                              (User.department_id cu)); [discriminate|].
  cbv zeta in H.
  destruct (len (schemas.UserCreate.password user_in)
            <? password_min_length acct) eqn:Elen; [discriminate|].
  destruct (auth.get_user db (schemas.UserCreate.email user_in)) eqn:Eemail;
    [discriminate|].
  destruct (auth.get_password_hash salt
              (schemas.UserCreate.password user_in))
    as [hashed|e0] eqn:Ehash; [|discriminate].
  injection H as Hdb Hcreated.
  assert (Hmail : User.email created = schemas.UserCreate.email user_in)
    by now subst created.
  assert (Hpw : User.hashed_password created = hashed)
    by now subst created.
  assert (Hid : User.id created = next_id User.id (users db))
    by now subst created.
  assert (Husers : users db' = (users db ++ [created])%list)
    by (subst db'; simpl; now rewrite Hcreated).
  assert (Hget : auth.get_user db' (schemas.UserCreate.email user_in)
                 = Some created).
  { unfold auth.get_user in *. rewrite Husers, find_app_new.
    - now rewrite Hmail, String.eqb_refl.
    - intros r Hr. exact (find_none _ _ Eemail r Hr). }
  repeat apply conj.
  - reflexivity.
  - apply Z.ltb_ge in Elen. lia.
  - exact Hmail.
  - now subst created.
  - unfold get_User. rewrite Husers, find_app_new.
    + now rewrite Z.eqb_refl.
    + intros r Hr. apply Z.eqb_neq.
      pose proof (next_id_above User.id (users db) r Hr). lia.
  - apply (authenticate_user_iff _ _ _ _ Hget). rewrite Hpw.
    exact (passlib_hash_verifies _ _ _ Ehash).
  - intros password. rewrite (authenticate_user_iff _ _ _ _ Hget), Hpw.
    exact (passlib_verify_hash _ _ _ _ Ehash).
  - intros Hposted password Hshort Hauth.
    destruct (get_password_hash_digest _ _ _ Ehash) as [bytes Hbytes].
    apply (digest_secret_short _ _ bytes Hbytes); [|exact Hshort|exact Hposted].
    apply (passlib_verify_hash _ _ _ _ Ehash). rewrite <- Hpw.
    now apply (authenticate_user_iff _ _ _ _ Hget).
  - intros email Hne. unfold auth.get_user. rewrite Husers.
    apply find_app_old. rewrite Hmail. apply String.eqb_neq. congruence.
  - intros Hnd. rewrite Husers, map_app. simpl.
    apply NoDup_app; [exact Hnd| | ].
    + constructor; [intros []|constructor].
    + intros x Hx [<-|[]]. rewrite Hmail in Hx.
      exact (get_user_none db _ Eemail Hx).
Qed.

(** On the sample data: the posted password has 73 characters, and a
    password that differs from it in the 73rd only authenticates as well. *)
Lemma X22_witness :
  let db' :=
    fst (main.create_user default_account_settings sample.db0 "salt-2"
           sample.long_hire sample.mona) in
  auth.authenticate_user db' "lena@example.com" sample.seventy_two_b
  = Return (Some sample.lena)
  /\ sample.seventy_two_c <> sample.seventy_two_b
  /\ auth.authenticate_user db' "lena@example.com" sample.seventy_two_c
     = Return (Some sample.lena).
Proof.
  destruct (X22_created_user_can_authenticate default_account_settings
              sample.db0
              (fst (main.create_user default_account_settings sample.db0
                      "salt-2" sample.long_hire sample.mona))
              "salt-2" sample.long_hire sample.mona sample.lena eq_refl)
    as [_ [_ [_ [_ [_ [Hposted [Hothers _]]]]]]].
  split; [exact Hposted|]. split; [discriminate|].
  apply Hothers. reflexivity.
Defined.

(** What the field loop of [update_user] leaves, column by column. *)
Lemma apply_user_fields_result (acct : AccountSettings) (salt : string)
      (update : schemas.UserUpdate.t) (before after : User.t) :
  main.apply_user_fields acct salt (main.model_dump_user_update update) before
  = Return after ->
  User.id after = User.id before
  /\ User.email after = User.email before
  /\ User.department_id after
     = match schemas.UserUpdate.department_id update with
       | Some v => Some v
       | None => User.department_id before
       end
  /\ User.role after
     = match schemas.UserUpdate.role update with
       | Some v => v
       | None => User.role before
       end
  /\ User.active after
     = match schemas.UserUpdate.active update with
       | Some v => v
       | None => User.active before
       end
  /\ match schemas.UserUpdate.password update with
     | Some v =>
         auth.get_password_hash salt v = Return (User.hashed_password after)
     | None => User.hashed_password after = User.hashed_password before
     end
  /\ (forall v, schemas.UserUpdate.password update = Some v ->
                password_min_length acct <= len v).
Proof.
  unfold main.model_dump_user_update.
  destruct update as [[n|] [d|] [r|] [a|] [p|]]; simpl;
    try (destruct (len p <? password_min_length acct) eqn:Elen;
         [discriminate|];
         destruct (auth.get_password_hash salt p) as [hashed|e0];
         [|discriminate]);
    intros H; injection H as <-; simpl; repeat split; auto;
    try (intros v Hv; discriminate);
    intros v Hv; injection Hv as <-; apply Z.ltb_ge in Elen; lia.
Qed.

Lemma find_map_replace_pred {A : Type} (p sel : A -> bool) (rows : list A)
      (old new : A) :
  find p rows = Some old ->
  sel old = true ->
  p new = true ->
  find p (map (fun r => if sel r then new else r) rows) = Some new.
Proof.
  intros Hfind Hsel Hnew.
  induction rows as [|x rows IH]; simpl in *; [discriminate|].
  destruct (p x) eqn:Epx.
  - injection Hfind as ->. now rewrite Hsel, Hnew.
  - destruct (sel x).
    + now rewrite Hnew.
    + rewrite Epx. now apply IH.
Qed.

(** X23: when a manager's [update_user] succeeds, the user updated was in
    the manager's department and still is, is an administrator afterwards
    only if it was one before, keeps its id and e-mail, and is stored under
    its key. *)
Theorem X23_manager_update_scope
        (acct : AccountSettings) (db db' : DB) (salt : string) (user_id : Z)
        (update : schemas.UserUpdate.t) (user updated : User.t) :
  User.role user = manager ->
  main.update_user acct db salt user_id update user = (db', Return updated) ->
  exists before,
    get_User db user_id = Some before
    /\ User.department_id before = User.department_id user
    /\ User.department_id updated = User.department_id user
    /\ (User.role updated = admin -> User.role before = admin)
    /\ User.id updated = user_id
    /\ User.email updated = User.email before
    /\ get_User db' user_id = Some updated.
Proof.
  intros Hrole H. unfold main.update_user in H.
  rewrite require_admin_or_manager, Hrole in H.
  destruct (get_User db user_id) as [before|] eqn:Hbefore; [|discriminate].
  rewrite Hrole in H. cbn [Role_eqb andb] in H.
  destruct (negb (opt_Z_eqb (User.department_id before)
                            (User.department_id user))) eqn:Edept;
    [discriminate|].
  destruct (match schemas.UserUpdate.role update with
            | Some r => Role_eqb r admin
            | None => false
            end) eqn:Eadmin; [discriminate|].
  destruct (not_in_none_or (schemas.UserUpdate.department_id update)
                           (User.department_id user)) eqn:Emove;
    [discriminate|].
  destruct (main.apply_user_fields acct salt
              (main.model_dump_user_update update) before)
    as [after|] eqn:Hloop; [|discriminate].
  injection H as Hdb Hupd. subst db' after.
  destruct (apply_user_fields_result _ _ _ _ _ Hloop)
    as [Hid [Hmail [Hd [Hr _]]]].
  destruct (get_User_id _ _ _ Hbefore) as [Hpk _].
  apply negb_false_iff, opt_Z_eqb_eq in Edept.
  apply not_in_none_or_false in Emove.
  exists before. repeat apply conj; auto.
  - rewrite Hd. destruct (schemas.UserUpdate.department_id update) as [v|];
      [|exact Edept].
    destruct Emove as [Hm|Hm]; [discriminate|exact Hm].
  - rewrite Hr. destruct (schemas.UserUpdate.role update) as [r|]; [|auto].
    intros ->. discriminate.
  - congruence.
  - unfold get_User in *. simpl.
    rewrite (find_map_replace User.id (users db) before updated user_id Hid).
    now rewrite Hpk, Z.eqb_refl, Hbefore.
Qed.

Lemma X23_witness :
  exists before,
    get_User sample.db0 3 = Some before
    /\ User.department_id before = User.department_id sample.mona
    /\ User.department_id sample.sam_new_password
       = User.department_id sample.mona
    /\ (User.role sample.sam_new_password = admin -> User.role before = admin)
    /\ User.id sample.sam_new_password = 3
    /\ User.email sample.sam_new_password = User.email before
    /\ get_User
         (fst (main.update_user default_account_settings sample.db0 "salt-3"
                 3 sample.new_password sample.mona)) 3
       = Some sample.sam_new_password.
Proof.
  apply (X23_manager_update_scope default_account_settings sample.db0 _
           "salt-3" 3 sample.new_password sample.mona
           sample.sam_new_password).
  - reflexivity.
  - reflexivity.
Defined.

(** X24: a password posted to [update_user] is stored only if it has the
    configured minimum length, otherwise the request writes nothing; once
    stored, the user authenticates with the new password, and with any
    other password exactly when bcrypt reads the same bytes from it (the
    first 72 bytes of its UTF-8 encoding): the old password no longer
    authenticates unless it shares them, and among passwords of at most 72
    bytes only the new one authenticates. *)
Theorem X24_password_change_round_trip
        (acct : AccountSettings) (db : DB) (salt : string) (user_id : Z)
        (update : schemas.UserUpdate.t) (user : User.t) (password : string) :
  schemas.UserUpdate.password update = Some password ->
  (len password < password_min_length acct ->
   is_return (snd (main.update_user acct db salt user_id update user)) = false
   /\ fst (main.update_user acct db salt user_id update user) = db)
  /\ (forall db' before updated,
         get_User db user_id = Some before ->
         auth.get_user db (User.email before) = Some before ->
         main.update_user acct db salt user_id update user
         = (db', Return updated) ->
         password_min_length acct <= len password
         /\ auth.authenticate_user db' (User.email before) password
            = Return (Some updated)
         /\ (forall other,
                auth.authenticate_user db' (User.email before) other
                = Return (Some updated)
                <-> passlib.digest_secret other
                    = passlib.digest_secret password)
         /\ (len (passlib.utf8 password) <= 72 ->
             forall other,
               len (passlib.utf8 other) <= 72 ->
               auth.authenticate_user db' (User.email before) other
               = Return (Some updated) ->
               other = password)).
Proof.
  intros Hpw. split.
  - intros Hshort.
    assert (Hloop : forall before,
               is_return (main.apply_user_fields acct salt
                            (main.model_dump_user_update update) before)
               = false).
    { intros before.
      destruct (main.apply_user_fields acct salt
                  (main.model_dump_user_update update) before)
        as [after|] eqn:E; [|reflexivity].
      destruct (apply_user_fields_result _ _ _ _ _ E)
        as [_ [_ [_ [_ [_ [_ Hlen]]]]]].
      specialize (Hlen password Hpw). lia. }
    unfold main.update_user.
    destruct (auth.require_role [admin; manager] (Return user)) as [cu|];
      [|split; reflexivity].
    destruct (get_User db user_id) as [before|]; [|split; reflexivity].
    repeat match goal with
           | |- context [if ?c then _ else _] =>
               destruct c; [split; reflexivity|]
           end.
    specialize (Hloop before).
    destruct (main.apply_user_fields acct salt
                (main.model_dump_user_update update) before);
      [discriminate|split; reflexivity].
  - intros db' before updated Hbefore Hmail H. unfold main.update_user in H.
    destruct (auth.require_role [admin; manager] (Return user)) as [cu|];
      [|discriminate].
    rewrite Hbefore in H.
    repeat match type of H with
           | context [if ?c then _ else _] => destruct c; [discriminate|]
           end.
    destruct (main.apply_user_fields acct salt
                (main.model_dump_user_update update) before)
      as [after|] eqn:Hloop; [|discriminate].
    injection H as Hdb Hupd. subst db' after.
    destruct (apply_user_fields_result _ _ _ _ _ Hloop)
      as [Hid [Hemail [_ [_ [_ [Hhash Hlen]]]]]].
    rewrite Hpw in Hhash.
    assert (Hget : auth.get_user
                     (with_users db
                        (map (fun u => if User.id u =? User.id before
                                       then updated else u) (users db)))
                     (User.email before) = Some updated).
    { unfold auth.get_user in *. simpl.
      apply (find_map_replace_pred _ _ _ before updated Hmail).
      - apply Z.eqb_refl.
      - rewrite Hemail. apply String.eqb_refl. }
    repeat apply conj.
    + exact (Hlen password Hpw).
    + apply (authenticate_user_iff _ _ _ _ Hget).
      exact (passlib_hash_verifies _ _ _ Hhash).
    + intros other. rewrite (authenticate_user_iff _ _ _ _ Hget).
      exact (passlib_verify_hash _ _ _ _ Hhash).
    + intros Hposted other Hshort Hauth.
      destruct (get_password_hash_digest _ _ _ Hhash) as [bytes Hbytes].
      apply (digest_secret_short _ _ bytes Hbytes);
        [|exact Hshort|exact Hposted].
      apply (passlib_verify_hash _ _ _ _ Hhash).
      now apply (authenticate_user_iff _ _ _ _ Hget).
Qed.

(** On the sample data: the new password authenticates, and so does the
    same text followed by anything past its 72nd byte; the old password no
    longer does. *)
Lemma X24_witness :
  let db' :=
    fst (main.update_user default_account_settings sample.db0 "salt-3" 3
           sample.new_long_password sample.mona) in
  auth.authenticate_user db' "sam@example.com" sample.seventy_two_b
  = Return (Some sample.sam_long_password)
  /\ auth.authenticate_user db' "sam@example.com" sample.seventy_two_c
     = Return (Some sample.sam_long_password)
  /\ auth.authenticate_user db' "sam@example.com" "s3cretpass"
     <> Return (Some sample.sam_long_password).
Proof.
  destruct (X24_password_change_round_trip default_account_settings
              sample.db0 "salt-3" 3 sample.new_long_password sample.mona
              sample.seventy_two_b eq_refl) as [_ Hstored].
  destruct (Hstored _ sample.sam sample.sam_long_password
              eq_refl eq_refl eq_refl) as [_ [Hnew [Hothers _]]].
  split; [exact Hnew|]. split.
  - apply Hothers. reflexivity.
  - intros H. apply Hothers in H. discriminate.
Defined.

(* ================================================================= *)
(** ** Updating a task *)

Lemma TaskStatus_eqb_eq (a b : TaskStatus) :
  TaskStatus_eqb a b = true <-> a = b.
Proof. destruct a, b; simpl; split; congruence. Qed.

(** A property of the row that every permitted [setattr] keeps is kept by
    the field loop. *)
Lemma apply_task_fields_inv (P : TaskRow.t -> Prop) (allowed : list string)
      (fields : list main.task_field) :
  (forall f r,
      existsb (String.eqb (main.task_field_name f)) allowed = true ->
      P r -> P (main.setattr_task r f)) ->
  forall r, P r -> P (main.apply_task_fields allowed fields r).
Proof.
  intros Hstep. induction fields as [|f fields IH]; intros r Hr; simpl.
  - exact Hr.
  - destruct (existsb (String.eqb (main.task_field_name f)) allowed) eqn:E;
      simpl.
    + apply IH. now apply Hstep.
    + now apply IH.
Qed.

Lemma apply_task_fields_status (allowed : list string)
      (fields : list main.task_field) :
  existsb (String.eqb "status") allowed = true ->
  forall r,
    TaskRow.status (main.apply_task_fields allowed fields r)
    = fold_left (fun s f => match f with main.tf_status v => v | _ => s end)
                fields (TaskRow.status r).
Proof.
  intros Hallowed. induction fields as [|f fields IH]; intros r;
    cbn [main.apply_task_fields fold_left]; [reflexivity|].
  destruct (existsb (String.eqb (main.task_field_name f)) allowed) eqn:E;
    cbn [negb]; rewrite IH.
  - now destruct f.
  - destruct f; try reflexivity.
    cbn [main.task_field_name] in E. rewrite Hallowed in E. discriminate.
Qed.

Lemma model_dump_task_update_status (update : schemas.TaskUpdate.t)
      (s : TaskStatus) :
  fold_left (fun s f => match f with main.tf_status v => v | _ => s end)
            (main.model_dump_task_update update) s
  = match schemas.TaskUpdate.status update with
    | Some v => v
    | None => s
    end.
Proof.
  unfold main.model_dump_task_update.
  destruct update as [[a|] [b|] [c|] [d|] [e|] [f|] [g|] [h|]]; reflexivity.
Qed.

Lemma allowed_fields_status (user : User.t) :
  existsb (String.eqb "status") (main.allowed_fields user) = true.
Proof. unfold main.allowed_fields. now destruct (User.role user). Qed.

(** What [update_task] does to the row it finds, in one equation. *)
Lemma update_task_result (rows rows' : list TaskRow.t) (now task_id : Z)
      (update : schemas.TaskUpdate.t) (user : User.t) (updated : TaskRow.t) :
  main.update_task rows now task_id update user = (rows', Return updated) ->
  exists before t1,
    find (fun r => Task.id (TaskRow.task r) =? task_id) rows = Some before
    /\ Task.id (TaskRow.task before) = task_id
    /\ main._task_guard (TaskRow.task before) user = Return tt
    /\ t1 = main.apply_task_fields (main.allowed_fields user)
              (main.model_dump_task_update update) before
    /\ Task.start_date (TaskRow.task t1) <= Task.end_date (TaskRow.task t1)
    /\ TaskRow.task updated = TaskRow.task t1
    /\ TaskRow.status updated = TaskRow.status t1
    /\ TaskRow.description updated = TaskRow.description t1
    /\ TaskRow.due_date updated = TaskRow.due_date t1
    /\ TaskRow.completed_at updated
       = (if TaskStatus_eqb (TaskRow.status t1) done
          then match TaskRow.completed_at t1 with
               | Some c => Some c
               | None => Some now
               end
          else None)
    /\ rows' = map (fun r => if Task.id (TaskRow.task r)
                                =? Task.id (TaskRow.task before)
                             then updated else r) rows.
Proof.
  unfold main.update_task. intros H.
  destruct (find _ rows) as [before|] eqn:Hfind; [|discriminate].
  destruct (main._task_guard (TaskRow.task before) user) as [[]|] eqn:Hguard;
    [|discriminate].
  cbv zeta in H.
  set (t1 := main.apply_task_fields (main.allowed_fields user)
               (main.model_dump_task_update update) before) in *.
  destruct (Task.end_date (TaskRow.task t1) <? Task.start_date (TaskRow.task t1))
    eqn:Edates; [discriminate|].
  injection H as Hrows Hupd.
  exists before, t1.
  assert (Hid : Task.id (TaskRow.task before) = task_id).
  { apply find_some in Hfind as [_ Hid]. now apply Z.eqb_eq in Hid. }
  apply Z.ltb_ge in Edates.
  destruct (TaskStatus_eqb (TaskRow.status t1) done) eqn:Estatus;
    destruct (TaskRow.completed_at t1) as [c|] eqn:Ecompleted;
    simpl in Hupd; subst updated rows'; simpl;
    repeat split; auto; try lia; try congruence.
Qed.

(** X25: [update_task] never changes the key or the creator of a task, and
    for a staff or manager caller it silently ignores a posted title,
    assignee or department: those columns are as before.  The row returned
    is the one stored under the key. *)
Theorem X25_update_task_protected_columns
        (rows rows' : list TaskRow.t) (now task_id : Z)
        (update : schemas.TaskUpdate.t) (user : User.t) (updated : TaskRow.t) :
  main.update_task rows now task_id update user = (rows', Return updated) ->
  exists before,
    find (fun r => Task.id (TaskRow.task r) =? task_id) rows = Some before
    /\ Task.id (TaskRow.task updated) = task_id
    /\ Task.created_by_id (TaskRow.task updated)
       = Task.created_by_id (TaskRow.task before)
    /\ (User.role user = staff \/ User.role user = manager ->
        Task.title (TaskRow.task updated) = Task.title (TaskRow.task before)
        /\ Task.assigned_to_id (TaskRow.task updated)
           = Task.assigned_to_id (TaskRow.task before)
        /\ Task.department_id (TaskRow.task updated)
           = Task.department_id (TaskRow.task before))
    /\ find (fun r => Task.id (TaskRow.task r) =? task_id) rows'
       = Some updated.
Proof.
  intros H.
  destruct (update_task_result _ _ _ _ _ _ _ H)
    as [before [t1 [Hfind [Hid [_ [Ht1 [_ [Htask [_ [_ [_ [_ Hrows]]]]]]]]]]]].
  exists before.
  assert (Hkeys : Task.id (TaskRow.task t1) = Task.id (TaskRow.task before)
                  /\ Task.created_by_id (TaskRow.task t1)
                     = Task.created_by_id (TaskRow.task before)).
  { subst t1.
    apply (apply_task_fields_inv
             (fun r => Task.id (TaskRow.task r) = Task.id (TaskRow.task before)
                       /\ Task.created_by_id (TaskRow.task r)
                          = Task.created_by_id (TaskRow.task before))).
    - intros f r _ [H1 H2]. destruct f; simpl; auto.
    - auto. }
  destruct Hkeys as [Hkey Hcreator].
  repeat apply conj.
  - exact Hfind.
  - congruence.
  - congruence.
  - intros Hrole. rewrite Htask. subst t1.
    apply (apply_task_fields_inv
             (fun r => Task.title (TaskRow.task r)
                       = Task.title (TaskRow.task before)
                       /\ Task.assigned_to_id (TaskRow.task r)
                          = Task.assigned_to_id (TaskRow.task before)
                       /\ Task.department_id (TaskRow.task r)
                          = Task.department_id (TaskRow.task before))).
    + intros f r Hallowed [H1 [H2 H3]]. unfold main.allowed_fields in Hallowed.
      destruct Hrole as [Hr|Hr]; rewrite Hr in Hallowed;
        destruct f; simpl in Hallowed; try discriminate; simpl; auto.
    + auto.
  - rewrite Hrows.
    rewrite (find_map_replace (fun r => Task.id (TaskRow.task r)) rows before
               updated task_id) by congruence.
    now rewrite Hid, Z.eqb_refl, Hfind.
Qed.

Lemma X25_witness :
  exists before,
    find (fun r => Task.id (TaskRow.task r) =? 1) [sample.row1] = Some before
    /\ Task.id (TaskRow.task sample.row1_done) = 1
    /\ Task.created_by_id (TaskRow.task sample.row1_done)
       = Task.created_by_id (TaskRow.task before)
    /\ (User.role sample.sam = staff \/ User.role sample.sam = manager ->
        Task.title (TaskRow.task sample.row1_done)
        = Task.title (TaskRow.task before)
        /\ Task.assigned_to_id (TaskRow.task sample.row1_done)
           = Task.assigned_to_id (TaskRow.task before)
        /\ Task.department_id (TaskRow.task sample.row1_done)
           = Task.department_id (TaskRow.task before))
    /\ find (fun r => Task.id (TaskRow.task r) =? 1) [sample.row1_done]
       = Some sample.row1_done.
Proof.
  apply (X25_update_task_protected_columns [sample.row1] [sample.row1_done]
           500 1 sample.finish_and_rename sample.sam sample.row1_done).
  reflexivity.
Defined.

(** X26: after every successful [update_task] the completion stamp follows
    the status: the status is the posted one (the old one if none was
    posted); a task that is [done] carries the stamp it had, or [now] if it
    had none; a task that is not [done] carries no stamp; and the task does
    not end before it starts. *)
Theorem X26_completed_at_follows_status
        (rows rows' : list TaskRow.t) (now task_id : Z)
        (update : schemas.TaskUpdate.t) (user : User.t) (updated : TaskRow.t) :
  main.update_task rows now task_id update user = (rows', Return updated) ->
  exists before,
    find (fun r => Task.id (TaskRow.task r) =? task_id) rows = Some before
    /\ TaskRow.status updated
       = match schemas.TaskUpdate.status update with
         | Some v => v
         | None => TaskRow.status before
         end
    /\ (TaskRow.status updated = done ->
        TaskRow.completed_at updated
        = Some match TaskRow.completed_at before with
               | Some c => c
               | None => now
               end)
    /\ (TaskRow.status updated <> done -> TaskRow.completed_at updated = None)
    /\ Task.start_date (TaskRow.task updated)
       <= Task.end_date (TaskRow.task updated).
Proof.
  intros H.
  destruct (update_task_result _ _ _ _ _ _ _ H)
    as [before [t1 [Hfind [_ [_ [Ht1 [Hdates [Htask [Hstatus [_ [_ [Hcompleted _]]]]]]]]]]]].
  exists before.
  assert (Hs1 : TaskRow.status t1
                = match schemas.TaskUpdate.status update with
                  | Some v => v
                  | None => TaskRow.status before
                  end).
  { subst t1.
    rewrite (apply_task_fields_status _ _ (allowed_fields_status user)).
    apply model_dump_task_update_status. }
  assert (Hc1 : TaskRow.completed_at t1 = TaskRow.completed_at before).
  { subst t1.
    apply (apply_task_fields_inv
             (fun r => TaskRow.completed_at r = TaskRow.completed_at before)).
    - intros f r _ Hr. now destruct f.
    - reflexivity. }
  rewrite Hc1 in Hcompleted.
  repeat apply conj.
  - exact Hfind.
  - congruence.
  - intros Hdone. rewrite Hstatus in Hdone. rewrite Hcompleted, Hdone. simpl.
    now destruct (TaskRow.completed_at before).
  - intros Hnot. rewrite Hcompleted.
    destruct (TaskStatus_eqb (TaskRow.status t1) done) eqn:E;
      [|reflexivity].
    apply TaskStatus_eqb_eq in E. congruence.
  - now rewrite Htask.
Qed.

Lemma X26_witness :
  exists before,
    find (fun r => Task.id (TaskRow.task r) =? 1) [sample.row1] = Some before
    /\ TaskRow.status sample.row1_done
       = match schemas.TaskUpdate.status sample.finish_and_rename with
         | Some v => v
         | None => TaskRow.status before
         end
    /\ (TaskRow.status sample.row1_done = done ->
        TaskRow.completed_at sample.row1_done
        = Some match TaskRow.completed_at before with
               | Some c => c
               | None => 500
               end)
    /\ (TaskRow.status sample.row1_done <> done ->
        TaskRow.completed_at sample.row1_done = None)
    /\ Task.start_date (TaskRow.task sample.row1_done)
       <= Task.end_date (TaskRow.task sample.row1_done).
Proof.
  apply (X26_completed_at_follows_status [sample.row1] [sample.row1_done]
           500 1 sample.finish_and_rename sample.sam sample.row1_done).
  reflexivity.
Defined.

(** X27: an access grant created by a manager is for a user of the
    manager's own department and is scoped to that department or to none;
    it is appended to the grants with the posted columns.  Staff and
    collaborators cannot create grants. *)
Theorem X27_manager_grants_within_department
        (db : DB) (grant : schemas.AccessGrantCreate.t) (user : User.t) :
  (User.role user = staff \/ User.role user = collaborator ->
   main.create_access_grant db grant user
   = (db, Raise (HTTPException HTTP_403_FORBIDDEN "Insufficient permissions")))
  /\ (forall db' created,
         User.role user = manager ->
         main.create_access_grant db grant user = (db', Return created) ->
         (exists target,
             get_User db (schemas.AccessGrantCreate.user_id grant) = Some target
             /\ User.department_id target = User.department_id user)
         /\ (AccessGrant.department_id created = None
             \/ AccessGrant.department_id created = User.department_id user)
         /\ AccessGrant.user_id created = schemas.AccessGrantCreate.user_id grant
         /\ AccessGrant.resource_type created
            = schemas.AccessGrantCreate.resource_type grant
         /\ AccessGrant.resource_id created
            = schemas.AccessGrantCreate.resource_id grant
         /\ AccessGrant.permission created
            = schemas.AccessGrantCreate.permission grant
         /\ access_grants db' = (access_grants db ++ [created])%list).
Proof.
  split.
  - unfold main.create_access_grant. rewrite require_admin_or_manager.
    intros [Hrole|Hrole]; now rewrite Hrole.
  - intros db' created Hrole H. unfold main.create_access_grant in H.
    rewrite require_admin_or_manager, Hrole in H. cbv zeta in H.
    rewrite Hrole in H. cbn [Role_eqb] in H.
    destruct (not_in_none_or (schemas.AccessGrantCreate.department_id grant)
                             (User.department_id user)) eqn:Edept;
      [discriminate|].
    destruct (get_User db (schemas.AccessGrantCreate.user_id grant))
      as [target|] eqn:Htarget; [|discriminate].
    destruct (negb (opt_Z_eqb (User.department_id target)
                              (User.department_id user))) eqn:Esame;
      [discriminate|].
    injection H as Hdb Hcreated. subst db' created. simpl.
    apply negb_false_iff, opt_Z_eqb_eq in Esame.
    apply not_in_none_or_false in Edept.
    repeat apply conj; auto.
    exists target. now split.
Qed.

Lemma X27_witness :
  main.create_access_grant sample.db0 sample.grant_for_sam sample.sam
  = (sample.db0,
     Raise (HTTPException HTTP_403_FORBIDDEN "Insufficient permissions"))
  /\ (exists target,
         get_User sample.db0
                  (schemas.AccessGrantCreate.user_id sample.grant_for_sam)
         = Some target
         /\ User.department_id target = User.department_id sample.mona).
Proof.
  destruct (X27_manager_grants_within_department sample.db0
              sample.grant_for_sam sample.sam) as [Hstaff _].
  destruct (X27_manager_grants_within_department sample.db0
              sample.grant_for_sam sample.mona) as [_ Hmgr].
  split.
  - apply Hstaff. left. reflexivity.
  - destruct (Hmgr (with_access_grants sample.db0
                      (access_grants sample.db0 ++ [sample.grant3]))
                   sample.grant3 eq_refl eq_refl) as [Htarget _].
    exact Htarget.
Defined.

(* ================================================================= *)
(** ** config.py: the allowed origins *)

Lemma append_slash_nonempty (p : string) : (p ++ "/")%string <> ""%string.
Proof. destruct p; discriminate. Qed.

Lemma rstrip_slash_no_trailing (s p : string) :
  config.rstrip_slash s <> (p ++ "/")%string.
Proof.
  revert p. induction s as [|a rest IH]; intros p; simpl.
  - intros H. symmetry in H. exact (append_slash_nonempty p H).
  - destruct (config.rstrip_slash rest) as [|b kept] eqn:E.
    + destruct (Ascii.eqb_spec a "/") as [->|Hne].
      * intros H. symmetry in H. exact (append_slash_nonempty p H).
      * destruct p as [|c p]; simpl; intros H.
        -- injection H as H. contradiction.
        -- injection H as _ H. exact (append_slash_nonempty p (eq_sym H)).
    + destruct p as [|c p]; simpl; intros H.
      * injection H as _ H. discriminate.
      * injection H as _ H. exact (IH p H).
Qed.

Lemma normalize_loop_spec (strip : string -> string)
      (origins : list string) :
  forall seen,
    NoDup seen ->
    NoDup (config.normalize_loop strip seen origins)
    /\ forall o,
        In o (config.normalize_loop strip seen origins)
        <-> In o seen
            \/ (o <> ""%string /\ exists x, In x origins /\ o = config.rstrip_slash (strip x)).
Proof.
  induction origins as [|x origins IH]; intros seen Hnd;
    cbn [config.normalize_loop].
  - split; [exact Hnd|]. intros o. split; [now left|].
    intros [H|[_ [y [[] _]]]]. exact H.
  - destruct (negb (String.eqb (config.rstrip_slash (strip x)) "")
              && negb (existsb (String.eqb (config.rstrip_slash (strip x))) seen)) eqn:E.
    + apply andb_true_iff in E as [Hne Hnew].
      apply negb_true_iff, String.eqb_neq in Hne.
      apply negb_true_iff in Hnew.
      assert (Hnotin : ~ In (config.rstrip_slash (strip x)) seen).
      { intros Hin.
        assert (existsb (String.eqb (config.rstrip_slash (strip x))) seen = true).
        { apply existsb_exists. exists (config.rstrip_slash (strip x)).
          split; [exact Hin|apply String.eqb_refl]. }
        congruence. }
      assert (Hnd' : NoDup (seen ++ [config.rstrip_slash (strip x)])).
      { apply NoDup_app; [exact Hnd| | ].
        - constructor; [intros []|constructor].
        - intros y Hy [<-|[]]. contradiction. }
      destruct (IH _ Hnd') as [Hres Hmem]. split; [exact Hres|].
      intros o. rewrite Hmem, in_app_iff. simpl. split.
      * intros [[H|[<-|[]]]|[Ho [y [Hy Hoy]]]].
        -- now left.
        -- right. split; [exact Hne|]. exists x. split; [now left|reflexivity].
        -- right. split; [exact Ho|]. exists y. split; [now right|exact Hoy].
      * intros [H|[Ho [y [[<-|Hy] Hoy]]]].
        -- left. now left.
        -- left. right. left. now symmetry.
        -- right. split; [exact Ho|]. now exists y.
    + destruct (IH _ Hnd) as [Hres Hmem]. split; [exact Hres|].
      intros o. rewrite Hmem. simpl. split.
      * intros [H|[Ho [y [Hy Hoy]]]]; [now left|].
        right. split; [exact Ho|]. exists y. split; [now right|exact Hoy].
      * intros [H|[Ho [y [[<-|Hy] Hoy]]]].
        -- now left.
        -- apply andb_false_iff in E as [E|E].
           ++ apply negb_false_iff, String.eqb_eq in E. congruence.
           ++ apply negb_false_iff, existsb_exists in E as [z [Hz Hxz]].
              apply String.eqb_eq in Hxz. left. congruence.
        -- right. split; [exact Ho|]. now exists y.
Qed.

Lemma normalize_origins_spec (strip : string -> string)
      (origins : list string) :
  NoDup (config._normalize_origins strip origins)
  /\ forall o,
      In o (config._normalize_origins strip origins)
      <-> o <> ""%string /\ exists x, In x origins /\ o = config.rstrip_slash (strip x).
Proof.
  unfold config._normalize_origins.
  destruct (normalize_loop_spec strip origins [] (NoDup_nil _)) as [Hnd Hmem].
  split; [exact Hnd|]. intros o. rewrite Hmem. simpl. tauto.
Qed.

(** X28: the origins [_normalize_origins] returns are exactly the non-empty
    cleaned forms ([strip] then [rstrip("/")]) of the entries given, each
    once; and whatever the raw setting is, a string in either syntax or a
    list, [_parse_allowed_origins] returns origins without duplicates,
    without an empty entry and without a trailing slash. *)
Theorem X28_allowed_origins_are_normalized
        (strip : string -> string)
        (json_loads_list : string -> option (list string)) :
  (forall origins,
      NoDup (config._normalize_origins strip origins)
      /\ forall o,
          In o (config._normalize_origins strip origins)
          <-> o <> ""%string
              /\ exists x, In x origins
                           /\ o = config.rstrip_slash (strip x))
  /\ (forall raw,
         NoDup (config._parse_allowed_origins strip json_loads_list raw)
         /\ ~ In ""%string
                (config._parse_allowed_origins strip json_loads_list raw)
         /\ forall o p,
             In o (config._parse_allowed_origins strip json_loads_list raw) ->
             o <> (p ++ "/")%string).
Proof.
  assert (Hnorm : forall origins,
             NoDup (config._normalize_origins strip origins)
             /\ ~ In ""%string (config._normalize_origins strip origins)
             /\ forall o p, In o (config._normalize_origins strip origins) ->
                            o <> (p ++ "/")%string).
  { intros origins.
    destruct (normalize_origins_spec strip origins) as [Hnd Hmem].
    split; [exact Hnd|]. split.
    - intros H. apply Hmem in H as [H _]. now apply H.
    - intros o p H. apply Hmem in H as [_ [x [_ ->]]].
      apply rstrip_slash_no_trailing. }
  split.
  - intros origins. exact (normalize_origins_spec strip origins).
  - intros [raw|items]; unfold config._parse_allowed_origins.
    + destruct (String.eqb (strip raw) "").
      * split; [constructor|]. split; [intros []|intros o p []].
      * destruct (if config.startswith_bracket (strip raw)
                  then json_loads_list (strip raw) else None);
          apply Hnorm.
    + apply Hnorm.
Qed.

(* ================================================================= *)
(** ** Seeding the administrator *)

(** X29: [seed_admin] does nothing when a user with the administrator's
    e-mail exists, and writes nothing when it fails.  When it succeeds
    there is a user with that e-mail and a second run changes nothing.
    When it had to create the user, the default password has the minimum
    length, the user is an active administrator of a department named
    "Administration", authenticates with the default password, and a login
    with these credentials succeeds. *)
Theorem X29_seed_admin_gives_a_login
        (acct : AccountSettings) (db : DB) (salt : string) :
  (forall existing,
      auth.get_user db (admin_email acct) = Some existing ->
      main.seed_admin acct db salt = (db, inr tt))
  /\ (forall e, snd (main.seed_admin acct db salt) = inl e ->
                fst (main.seed_admin acct db salt) = db)
  /\ (forall db',
         main.seed_admin acct db salt = (db', inr tt) ->
         (forall salt', main.seed_admin acct db' salt' = (db', inr tt))
         /\ (auth.get_user db (admin_email acct) = None ->
             exists admin_user dept,
               auth.authenticate_user db' (admin_email acct)
                                      (default_admin_password acct)
               = Return (Some admin_user)
               /\ User.role admin_user = admin
               /\ User.active admin_user = true
               /\ User.department_id admin_user = Some (Department.id dept)
               /\ get_Department db' (Department.id dept) = Some dept
               /\ Department.name dept = "Administration"%string
               /\ password_min_length acct
                  <= len (default_admin_password acct)
               /\ forall settings now raw jti,
                   fresh_secret settings db' raw ->
                   is_return
                     (snd (main.login_for_access_token settings db' now raw
                             jti (admin_email acct)
                             (default_admin_password acct)))
                   = true)).
Proof.
  repeat apply conj.
  - intros existing H. unfold main.seed_admin. now rewrite H.
  - intros e. unfold main.seed_admin.
    destruct (auth.get_user db (admin_email acct)); [reflexivity|].
    destruct (existsb _ (departments db)); [reflexivity|].
    cbv zeta.
    destruct (len (default_admin_password acct) <? password_min_length acct);
      [reflexivity|].
    destruct (auth.get_password_hash salt (default_admin_password acct));
      [simpl; discriminate|reflexivity].
  - intros db' H. unfold main.seed_admin in H.
    destruct (auth.get_user db (admin_email acct)) as [existing|] eqn:Hmail.
    + injection H as <-. split; [|discriminate].
      intros salt'. unfold main.seed_admin. now rewrite Hmail.
    + destruct (existsb _ (departments db)) eqn:Hname; [discriminate|].
      cbv zeta in H.
      destruct (len (default_admin_password acct) <? password_min_length acct)
        eqn:Elen; [discriminate|].
      destruct (auth.get_password_hash salt (default_admin_password acct))
        as [hashed|e0] eqn:Ehash; [|discriminate].
      injection H as Hdb.
      set (dept := {| Department.id := next_id Department.id (departments db);
                      Department.name := "Administration" |}) in *.
      set (admin_user :=
             {| User.id := next_id User.id (users db);
                User.full_name := "System Admin";
                User.email := admin_email acct;
                User.hashed_password := hashed;
                User.department_id := Some (Department.id dept);
                User.role := admin;
                User.active := true |}) in *.
      assert (Hget : auth.get_user db' (admin_email acct) = Some admin_user).
      { subst db'. unfold auth.get_user in *. simpl. rewrite find_app_new.
        - simpl. now rewrite String.eqb_refl.
        - intros r Hr. exact (find_none _ _ Hmail r Hr). }
      assert (Hpw : auth.verify_password (default_admin_password acct)
                      (User.hashed_password admin_user) = Return true)
        by exact (passlib_hash_verifies _ _ _ Ehash).
      split.
      * intros salt'. unfold main.seed_admin. now rewrite Hget.
      * intros _. exists admin_user, dept. repeat apply conj; auto.
        -- now apply (authenticate_user_iff _ _ _ _ Hget).
        -- subst db'. unfold get_Department. simpl. rewrite find_app_new.
           ++ simpl. now rewrite Z.eqb_refl.
           ++ intros r Hr. apply Z.eqb_neq.
              pose proof (next_id_above Department.id (departments db) r Hr).
              simpl. lia.
        -- apply Z.ltb_ge in Elen. lia.
        -- intros settings now raw jti Hfresh.
           destruct (login_appends settings db' now raw jti _ _ admin_user
                       Hget Hpw Hfresh) as [row [-> _]].
           reflexivity.
Qed.

Lemma X29_witness :
  main.seed_admin default_account_settings
    (fst (main.seed_admin default_account_settings sample.db0_no_admin
            "salt-9")) "salt-10"
  = (fst (main.seed_admin default_account_settings sample.db0_no_admin
            "salt-9"), inr tt).
Proof.
  destruct (X29_seed_admin_gives_a_login default_account_settings
              sample.db0_no_admin "salt-9") as [_ [_ Hseeded]].
  apply (Hseeded (fst (main.seed_admin default_account_settings
                         sample.db0_no_admin "salt-9")) (eq_refl _)).
Defined.

(* ================================================================= *)
(** ** Concurrent rotation (C9) *)

(** Served with no other session in between, the three steps of a thread
    are [refresh_token]. *)
Lemma refresh_token_alone (settings : Settings) (db : DB) (now : Z)
      (raw jti T : string) :
  refresh_thread.alone settings db (refresh_thread.Querying now raw jti T)
  = (fst (main.refresh_token settings db now raw jti T),
     refresh_thread.Responded
       (snd (main.refresh_token settings db now raw jti T))).
Proof.
  unfold refresh_thread.alone, main.refresh_token.
  cbn [refresh_thread.step].
  destruct (main.refresh_lookup db _ now) as [record|]; [|reflexivity].
  destruct (get_User db (RefreshToken.user_id record)) as [user|];
    [|reflexivity].
  destruct (negb (User.active user)); [reflexivity|].
  cbn [refresh_thread.step].
  destruct (main._issue_refresh_token settings (main.revoke_record db record)
              now raw (User.id user)) as [db2 [tok|e]]; reflexivity.
Qed.

Lemma issue_fresh (settings : Settings) (db : DB) (now : Z) (raw : string)
      (user_id : Z) :
  fresh_secret settings db raw ->
  main._issue_refresh_token settings db now raw user_id
  = (with_refresh_tokens db
       (refresh_tokens db
        ++ [{| RefreshToken.id := next_id RefreshToken.id (refresh_tokens db);
               RefreshToken.user_id := user_id;
               RefreshToken.token_hash := main._hash_refresh_token settings raw;
               RefreshToken.expires_at :=
                 now + timedelta_minutes (refresh_token_expire_minutes settings);
               RefreshToken.revoked := false;
               RefreshToken.created_at := now |}]),
     Return raw).
Proof.
  intros Hf. apply fresh_secret_existsb in Hf.
  unfold main._issue_refresh_token. cbv zeta. now rewrite Hf.
Qed.

Lemma next_id_above_key {A : Type} (id_of : A -> Z) (rows : list A) (r : A)
      (k : Z) :
  In r rows -> id_of r = k -> next_id id_of rows <> k.
Proof.
  intros Hin <-. pose proof (next_id_above id_of rows r Hin). lia.
Qed.

(** One step of a thread that is [i] steps past its queries: it moves on,
    whatever the other session has committed meanwhile, as long as the
    secret it drew is not in the ledger. *)
Lemma step_after (settings : Settings) (record : RefreshToken.t)
      (user : User.t) (now : Z) (raw jti : string) (db : DB) (i : nat) :
  (exists r0, In r0 (refresh_tokens db)
              /\ RefreshToken.id r0 = RefreshToken.id record) ->
  ((i < 2)%nat -> fresh_secret settings db raw) ->
  exists db',
    refresh_thread.step settings db
      (refresh_thread.after settings record user now raw jti i)
    = (db', refresh_thread.after settings record user now raw jti (S i))
    /\ (exists r0, In r0 (refresh_tokens db')
                   /\ RefreshToken.id r0 = RefreshToken.id record)
    /\ ((S i < 2)%nat -> fresh_secret settings db' raw)
    /\ ((i = 1)%nat -> live settings db' record raw)
    /\ (forall raw', raw' <> raw -> fresh_secret settings db raw' ->
                     fresh_secret settings db' raw')
    /\ (forall raw', live settings db record raw' ->
                     live settings db' record raw').
Proof.
  intros [r0 [Hin0 Hid0]] Hfresh.
  destruct i as [|[|i]]; cbn [refresh_thread.after refresh_thread.step].
  - exists (main.revoke_record db record).
    split; [reflexivity|]. split; [|split; [|split; [|split]]].
    + exists (if RefreshToken.id r0 =? RefreshToken.id record
              then RefreshToken.set_revoked r0 true else r0).
      split.
      * simpl. unfold RefreshToken.update_revoked. apply in_map_iff.
        now exists r0.
      * now destruct (RefreshToken.id r0 =? RefreshToken.id record).
    + intros _. apply revoke_record_fresh. apply Hfresh. lia.
    + discriminate.
    + intros raw' _ Hf. now apply revoke_record_fresh.
    + intros raw' [r [Hin [Hh [Hrev Hid]]]]. exists r.
      split; [|now repeat split].
      simpl. unfold RefreshToken.update_revoked. apply in_map_iff.
      exists r. split; [|exact Hin].
      apply Z.eqb_neq in Hid. now rewrite Hid.
  - rewrite (issue_fresh settings db now raw (User.id user))
      by (apply Hfresh; lia).
    eexists. split; [reflexivity|]. split; [|split; [|split; [|split]]].
    + exists r0. split; [|exact Hid0]. simpl. apply in_or_app. now left.
    + lia.
    + intros _. eexists. split; [simpl; apply in_or_app; right; now left|].
      simpl. repeat split.
      exact (next_id_above_key _ _ r0 _ Hin0 Hid0).
    + intros raw' Hne Hf r Hin. simpl in Hin.
      apply in_app_or in Hin as [Hin|[<-|[]]]; [now apply Hf|].
      simpl. intros H. apply Hne. symmetry.
      exact (hash_refresh_token_inj settings _ _ H).
    + intros raw' [r [Hin [Hh [Hrev Hid]]]]. exists r.
      split; [|now repeat split]. simpl. apply in_or_app. now left.
  - exists db. split; [reflexivity|]. split; [now exists r0|].
    split; [lia|]. split; [lia|]. split; auto.
Qed.

(** Two threads past their queries, in any schedule: each advances by the
    steps the schedule gives it. *)
Lemma interleave_after (settings : Settings) (record : RefreshToken.t)
      (user : User.t) (nowA nowB : Z) (rawA jtiA rawB jtiB : string) :
  rawA <> rawB ->
  forall (schedule : list refresh_thread.who) (db : DB) (i j : nat),
    (exists r0, In r0 (refresh_tokens db)
                /\ RefreshToken.id r0 = RefreshToken.id record) ->
    ((i < 2)%nat -> fresh_secret settings db rawA) ->
    ((j < 2)%nat -> fresh_secret settings db rawB) ->
    ((2 <= i)%nat -> live settings db record rawA) ->
    ((2 <= j)%nat -> live settings db record rawB) ->
    exists db',
      refresh_thread.interleave settings db
        (refresh_thread.after settings record user nowA rawA jtiA i)
        (refresh_thread.after settings record user nowB rawB jtiB j)
        schedule
      = (db',
         (refresh_thread.after settings record user nowA rawA jtiA
            (i + refresh_thread.steps_of refresh_thread.first schedule),
          refresh_thread.after settings record user nowB rawB jtiB
            (j + refresh_thread.steps_of refresh_thread.second schedule)))
      /\ ((2 <= i + refresh_thread.steps_of refresh_thread.first schedule)%nat ->
          live settings db' record rawA)
      /\ ((2 <= j + refresh_thread.steps_of refresh_thread.second schedule)%nat ->
          live settings db' record rawB).
Proof.
  intros Hne schedule.
  induction schedule as [|w schedule IH]; intros db i j Hrow HfA HfB HlA HlB.
  - exists db. cbn [refresh_thread.interleave]. unfold refresh_thread.steps_of.
    simpl. rewrite !Nat.add_0_r. auto.
  - destruct w; cbn [refresh_thread.interleave].
    + destruct (step_after settings record user nowA rawA jtiA db i Hrow HfA)
        as [db1 [-> [Hrow1 [Hf1 [Hl1 [Hother Hlive]]]]]].
      destruct (IH db1 (S i) j Hrow1 Hf1) as [db' [Heq [HA HB]]].
      * intros Hj. apply Hother; [congruence|now apply HfB].
      * intros Hi. destruct (Nat.eq_dec i 1) as [->|Hi1];
          [now apply Hl1|]. apply Hlive, HlA. lia.
      * intros Hj. now apply Hlive, HlB.
      * exists db'. unfold refresh_thread.steps_of in *. simpl in *.
        rewrite <- !plus_n_Sm. auto.
    + destruct (step_after settings record user nowB rawB jtiB db j Hrow HfB)
        as [db1 [-> [Hrow1 [Hf1 [Hl1 [Hother Hlive]]]]]].
      destruct (IH db1 i (S j) Hrow1) as [db' [Heq [HA HB]]].
      * intros Hi. apply Hother; [exact Hne|now apply HfA].
      * exact Hf1.
      * intros Hi. now apply Hlive, HlA.
      * intros Hj. destruct (Nat.eq_dec j 1) as [->|Hj1];
          [now apply Hl1|]. apply Hlive, HlB. lia.
      * exists db'. unfold refresh_thread.steps_of in *. simpl in *.
        rewrite <- !plus_n_Sm. auto.
Qed.

(** C9, the code at the failing input.  Two requests present the same
    unrevoked, unexpired secret [T] of an active user, each on its own
    session, and both run their queries before either commits.  Whatever
    the order of their commits after that, both are answered with a new
    pair, and the ledger ends with an unrevoked row for each of the two new
    secrets: the revocation and the insert are separate commits, and
    nothing makes the second session look at the row again.  Served one
    after the other, the second request is refused. *)
Theorem C9_concurrent_refresh_both_succeed
        (settings : Settings) (db : DB) (T : string)
        (record : RefreshToken.t) (user : User.t)
        (nowA nowB : Z) (rawA jtiA rawB jtiB : string)
        (rest : list refresh_thread.who) :
  unique_token_hash db ->
  In record (refresh_tokens db) ->
  RefreshToken.token_hash record = main._hash_refresh_token settings T ->
  RefreshToken.revoked record = false ->
  nowA < RefreshToken.expires_at record ->
  nowB < RefreshToken.expires_at record ->
  get_User db (RefreshToken.user_id record) = Some user ->
  User.active user = true ->
  fresh_secret settings db rawA ->
  fresh_secret settings db rawB ->
  rawA <> rawB ->
  (2 <= refresh_thread.steps_of refresh_thread.first rest)%nat ->
  (2 <= refresh_thread.steps_of refresh_thread.second rest)%nat ->
  (exists db',
      refresh_thread.interleave settings db
        (refresh_thread.Querying nowA rawA jtiA T)
        (refresh_thread.Querying nowB rawB jtiB T)
        (refresh_thread.first :: refresh_thread.second :: rest)
      = (db',
         (refresh_thread.Responded
            (Return (refresh_thread.rotated settings user nowA rawA jtiA)),
          refresh_thread.Responded
            (Return (refresh_thread.rotated settings user nowB rawB jtiB))))
      /\ live settings db' record rawA
      /\ live settings db' record rawB)
  /\ snd (refresh_thread.alone settings
            (fst (refresh_thread.alone settings db
                    (refresh_thread.Querying nowA rawA jtiA T)))
            (refresh_thread.Querying nowB rawB jtiB T))
     = refresh_thread.Responded (Raise InvalidToken).
Proof.
  intros Hu Hin Hh Hrev HexpA HexpB Huser Hact HfA HfB Hne HstepsA HstepsB.
  split.
  - cbn [refresh_thread.interleave refresh_thread.step].
    rewrite (refresh_lookup_unique db _ nowA record Hu Hin Hh Hrev HexpA).
    rewrite Huser, Hact. cbn [negb refresh_thread.step].
    rewrite (refresh_lookup_unique db _ nowB record Hu Hin Hh Hrev HexpB).
    rewrite Huser, Hact. cbn [negb].
    destruct (interleave_after settings record user nowA nowB rawA jtiA
                rawB jtiB Hne rest db 0 0) as [db' [Heq [HA HB]]].
    + now exists record.
    + intros _. exact HfA.
    + intros _. exact HfB.
    + lia.
    + lia.
    + exists db'. cbn [refresh_thread.after] in Heq. rewrite Heq.
      cbn [Nat.add] in *.
      destruct (refresh_thread.steps_of refresh_thread.first rest)
        as [|[|a]]; [lia|lia|].
      destruct (refresh_thread.steps_of refresh_thread.second rest)
        as [|[|b]]; [lia|lia|].
      cbn [refresh_thread.after]. split; [reflexivity|].
      split; [apply HA|apply HB]; lia.
  - rewrite !refresh_token_alone. cbn [fst snd]. f_equal.
    destruct (refresh_rotates settings db nowA rawA jtiA T record user
                Hu Hin Hh Hrev HexpA Huser Hact HfA)
      as [db' [Heq [Hspent _]]].
    rewrite Heq. cbn [fst].
    now rewrite (refresh_refuses_revoked settings db' nowB rawB jtiB T
                   (proj2 Hspent)).
Qed.

(** On the sample ledger: both requests present ["secret-1"], their commits
    alternate, and both are answered with a new pair. *)
Lemma C9_witness :
  (exists db',
      refresh_thread.interleave default_settings sample.db1
        (refresh_thread.Querying 200 "secret-2" "jti-2" "secret-1")
        (refresh_thread.Querying 201 "secret-3" "jti-3" "secret-1")
        [refresh_thread.first; refresh_thread.second;
         refresh_thread.first; refresh_thread.second;
         refresh_thread.first; refresh_thread.second]
      = (db',
         (refresh_thread.Responded
            (Return (refresh_thread.rotated default_settings sample.sam 200
                       "secret-2" "jti-2")),
          refresh_thread.Responded
            (Return (refresh_thread.rotated default_settings sample.sam 201
                       "secret-3" "jti-3"))))
      /\ live default_settings db' sample.record1 "secret-2"
      /\ live default_settings db' sample.record1 "secret-3")
  /\ snd (refresh_thread.alone default_settings
            (fst (refresh_thread.alone default_settings sample.db1
                    (refresh_thread.Querying 200 "secret-2" "jti-2"
                                             "secret-1")))
            (refresh_thread.Querying 201 "secret-3" "jti-3" "secret-1"))
     = refresh_thread.Responded (Raise InvalidToken).
Proof.
  apply (C9_concurrent_refresh_both_succeed default_settings sample.db1
           "secret-1" sample.record1 sample.sam 200 201
           "secret-2" "jti-2" "secret-3" "jti-3"
           [refresh_thread.first; refresh_thread.second;
            refresh_thread.first; refresh_thread.second]).
  - exact (sample_db1_unique []).
  - left. reflexivity.
  - reflexivity.
  - reflexivity.
  - reflexivity.
  - reflexivity.
  - reflexivity.
  - reflexivity.
  - exact (sample_db1_fresh []).
  - intros r [<-|[]]. vm_compute. discriminate.
  - discriminate.
  - vm_compute. lia.
  - vm_compute. lia.
Defined.

(* ================================================================= *)
(** ** Who is refused: the role chains of the handlers *)

Lemma Forbidden_Return {A : Type} (a : A) : ~ Forbidden (Return a).
Proof. intros [detail H]. discriminate. Qed.

Lemma Forbidden_403 {A : Type} (detail : string) :
  Forbidden (@Raise A (HTTPException HTTP_403_FORBIDDEN detail)).
Proof. now exists detail. Qed.

Lemma Forbidden_400 {A : Type} (detail : string) :
  ~ Forbidden (@Raise A (HTTPException HTTP_400_BAD_REQUEST detail)).
Proof. intros [d H]. injection H as H _. vm_compute in H. discriminate. Qed.

Lemma Forbidden_404 {A : Type} (detail : string) :
  ~ Forbidden (@Raise A (HTTPException HTTP_404_NOT_FOUND detail)).
Proof. intros [d H]. injection H as H _. vm_compute in H. discriminate. Qed.

Lemma Forbidden_PasswordValueError {A : Type} :
  ~ Forbidden (@Raise A PasswordValueError).
Proof. intros [d H]. discriminate. Qed.

Lemma Forbidden_Raise {A B : Type} (e : exn) :
  Forbidden (@Raise A e) <-> Forbidden (@Raise B e).
Proof.
  split; intros [d H]; exists d; injection H as ->; reflexivity.
Qed.

Ltac refused := solve [apply Forbidden_403].
Ltac not_refused :=
  solve [ apply Forbidden_Return | apply Forbidden_400 | apply Forbidden_404
        | apply Forbidden_PasswordValueError ].

Lemma task_guard_forbidden (task : Task.t) (user : User.t) :
  Forbidden (main._task_guard task user)
  <-> match User.role user with
      | manager => User.department_id user <> Some (Task.department_id task)
      | staff => Task.assigned_to_id task <> User.id user
      | admin | collaborator => False
      end.
Proof.
  rewrite task_guard_by_role. destruct (User.role user).
  - split; [apply Forbidden_Return|contradiction].
  - destruct (opt_Z_eqb (User.department_id user)
                        (Some (Task.department_id task))) eqn:E.
    + apply opt_Z_eqb_eq in E. split; [intros H|intros H; contradiction].
      now apply Forbidden_Return in H.
    + apply opt_Z_eqb_neq in E. split; [auto|intros _; refused].
  - destruct (User.id user =? Task.assigned_to_id task) eqn:E.
    + apply Z.eqb_eq in E. split; [intros H|intros H; congruence].
      now apply Forbidden_Return in H.
    + apply Z.eqb_neq in E. split; [intros _; congruence|intros _; refused].
  - split; [apply Forbidden_Return|contradiction].
Qed.

Lemma get_task_forbidden (db : DB) (task_id : Z) (user : User.t)
      (task : Task.t) :
  get_Task db task_id = Some task ->
  Forbidden (main.get_task db task_id user)
  <-> Forbidden (main._task_guard task user).
Proof.
  intros Htask. unfold main.get_task. rewrite Htask.
  destruct (main._task_guard task user) as [[]|e];
    [|apply Forbidden_Raise].
  split; intros H; exfalso; revert H; apply Forbidden_Return.
Qed.

Lemma send_task_to_admin_forbidden (db : DB) (task_id : Z) (user : User.t)
      (task : Task.t) :
  get_Task db task_id = Some task ->
  Forbidden (snd (main.send_task_to_admin db task_id user))
  <-> Forbidden (main._task_guard task user).
Proof.
  intros Htask. unfold main.send_task_to_admin. rewrite Htask.
  destruct (main._task_guard task user) as [[]|e];
    [|apply Forbidden_Raise].
  destruct (order_by_asc User.id _) as [|admin_user rest]; cbn [snd];
    split; intros H; exfalso; revert H;
    solve [apply Forbidden_Return | apply Forbidden_400].
Qed.

Lemma update_task_forbidden (rows : list TaskRow.t) (now : Z) (task_id : Z)
      (update : schemas.TaskUpdate.t) (user : User.t) (row : TaskRow.t) :
  find (fun r => Task.id (TaskRow.task r) =? task_id) rows = Some row ->
  Forbidden (snd (main.update_task rows now task_id update user))
  <-> Forbidden (main._task_guard (TaskRow.task row) user).
Proof.
  intros Hrow. unfold main.update_task. rewrite Hrow.
  destruct (main._task_guard (TaskRow.task row) user) as [[]|e];
    [|apply Forbidden_Raise].
  cbv zeta.
  destruct (Task.end_date _ <? Task.start_date _); cbn [snd];
    split; intros H; exfalso; revert H;
    solve [apply Forbidden_Return | apply Forbidden_400].
Qed.

Lemma delete_task_forbidden (db : DB) (task_id : Z) (user : User.t)
      (task : Task.t) :
  get_Task db task_id = Some task ->
  Forbidden (snd (main.delete_task db task_id user))
  <-> match User.role user with
      | admin => False
      | manager => User.department_id user <> Some (Task.department_id task)
      | staff => Task.assigned_to_id task <> User.id user
      | collaborator => True
      end.
Proof.
  intros Htask. unfold main.delete_task. rewrite Htask. cbv zeta.
  destruct (User.role user).
  - split; [apply Forbidden_Return|contradiction].
  - destruct (opt_Z_eqb (User.department_id user)
                        (Some (Task.department_id task))) eqn:E; cbn [negb snd].
    + apply opt_Z_eqb_eq in E. split; [intros H|intros H; contradiction].
      now apply Forbidden_Return in H.
    + apply opt_Z_eqb_neq in E. split; [auto|intros _; refused].
  - destruct (Task.assigned_to_id task =? User.id user) eqn:E; cbn [negb snd].
    + apply Z.eqb_eq in E. split; [intros H|intros H; contradiction].
      now apply Forbidden_Return in H.
    + apply Z.eqb_neq in E. split; [auto|intros _; refused].
  - split; [auto|intros _; refused].
Qed.

Ltac no_refused H :=
  split; [let F := fresh in intros F; exfalso; revert F; not_refused
         |let F := fresh in intros F; exfalso; apply H; exact F].




Lemma apply_fields_other (user : User.t) (fields : list main.field) :
  Role_eqb (User.role user) manager = false ->
  forall event, Allow (main.apply_fields user fields event).
Proof.
  intros H. induction fields as [|f fields IH]; intros event;
    cbn [main.apply_fields].
  - now exists event.
  - destruct f; try apply IH. rewrite H. cbn [andb]. apply IH.
Qed.

Lemma update_event_forbidden (db : DB) (event_id : Z)
      (update : schemas.EventUpdate.t) (user : User.t) (event : Event.t) :
  get_Event db event_id = Some event ->
  Forbidden (snd (main.update_event db event_id update user))
  <-> match User.role user with
      | admin => False
      | manager =>
          Event.department_id event = None
          \/ Event.department_id event <> User.department_id user
          \/ exists v, schemas.EventUpdate.department_id update = Some v
                       /\ Some v <> User.department_id user
      | staff | collaborator => True
      end.
Proof.
  intros Hev. unfold main.update_event. rewrite Hev.
  destruct (User.role user) eqn:Hrole.
  - unfold main.event_role_check. rewrite Hrole. cbn [Role_eqb negb].
    destruct (apply_fields_other user (main.model_dump_exclude_none update)
                (f_equal (fun r => Role_eqb r manager) Hrole) event)
      as [e' ->].
    cbn [snd]. no_refused (fun F : False => F).
  - rewrite (event_role_check_manager _ _ _ _ Hrole).
    destruct (Event.department_id event) as [d|].
    + destruct (opt_Z_eqb (Some d) (User.department_id user)) eqn:E.
      * apply opt_Z_eqb_eq in E.
        pose proof (apply_fields_manager user update event Hrole) as Hloop.
        destruct (schemas.EventUpdate.department_id update) as [v|].
        -- destruct (opt_Z_eqb (Some v) (User.department_id user)) eqn:Ev.
           ++ apply opt_Z_eqb_eq in Ev. destruct Hloop as [e' ->]. cbn [snd].
              split; [intros F; exfalso; revert F; not_refused|].
              intros [F|[F|[v' [Hv F]]]]; [discriminate|contradiction|].
              congruence.
           ++ apply opt_Z_eqb_neq in Ev. rewrite Hloop. cbn [snd].
              split; [intros _|intros _; refused].
              right. right. now exists v.
        -- destruct Hloop as [e' ->]. cbn [snd].
           split; [intros F; exfalso; revert F; not_refused|].
           intros [F|[F|[v' [Hv F]]]]; [discriminate|contradiction|].
           discriminate.
      * apply opt_Z_eqb_neq in E. cbn [snd].
        split; [intros _; right; now left|intros _; refused].
    + cbn [snd]. split; [intros _; now left|intros _; refused].
  - unfold main.event_role_check. rewrite Hrole. cbn [Role_eqb negb snd].
    split; [auto|intros _; refused].
  - unfold main.event_role_check. rewrite Hrole. cbn [Role_eqb negb snd].
    split; [auto|intros _; refused].
Qed.

Lemma delete_event_forbidden (db : DB) (event_id : Z) (user : User.t)
      (event : Event.t) :
  get_Event db event_id = Some event ->
  Forbidden (snd (main.delete_event db event_id user))
  <-> match User.role user with
      | admin => False
      | manager =>
          Event.department_id event = None
          \/ Event.department_id event <> User.department_id user
      | staff | collaborator => True
      end.
Proof.
  intros Hev. unfold main.delete_event. rewrite Hev.
  destruct (User.role user) eqn:Hrole.
  - unfold main.event_role_check. rewrite Hrole. cbn [Role_eqb negb snd].
    no_refused (fun F : False => F).
  - rewrite (event_role_check_manager _ _ _ _ Hrole).
    destruct (Event.department_id event) as [d|].
    + destruct (opt_Z_eqb (Some d) (User.department_id user)) eqn:E.
      * apply opt_Z_eqb_eq in E. cbn [snd].
        split; [intros F; exfalso; revert F; not_refused|].
        intros [F|F]; [discriminate|contradiction].
      * apply opt_Z_eqb_neq in E. cbn [snd].
        split; [intros _; now right|intros _; refused].
    + cbn [snd]. split; [intros _; now left|intros _; refused].
  - unfold main.event_role_check. rewrite Hrole. cbn [Role_eqb negb snd].
    split; [auto|intros _; refused].
  - unfold main.event_role_check. rewrite Hrole. cbn [Role_eqb negb snd].
    split; [auto|intros _; refused].
Qed.




Lemma create_access_grant_forbidden (db : DB)
      (grant : schemas.AccessGrantCreate.t) (user : User.t) :
  Forbidden (snd (main.create_access_grant db grant user))
  <-> match User.role user with
      | admin => False
      | manager =>
          (schemas.AccessGrantCreate.department_id grant <> None
           /\ schemas.AccessGrantCreate.department_id grant
              <> User.department_id user)
          \/ match get_User db (schemas.AccessGrantCreate.user_id grant) with
             | Some target =>
                 User.department_id target <> User.department_id user
             | None => True
             end
      | staff | collaborator => True
      end.
Proof.
  unfold main.create_access_grant. rewrite require_admin_or_manager.
  destruct (User.role user) eqn:Hrole; try rewrite Hrole;
    cbn [Role_eqb snd].
  - no_refused (fun F : False => F).
  - destruct (not_in_none_or (schemas.AccessGrantCreate.department_id grant)
                             (User.department_id user)) eqn:E.
    + apply not_in_none_or_true in E. cbn [snd].
      split; [intros _; now left|intros _; refused].
    + apply not_in_none_or_false in E.
      destruct (get_User db (schemas.AccessGrantCreate.user_id grant))
        as [target|].
      * destruct (opt_Z_eqb (User.department_id target)
                            (User.department_id user)) eqn:Ed; cbn [negb snd].
        -- apply opt_Z_eqb_eq in Ed.
           split; [intros F; exfalso; revert F; not_refused|].
           intros [[F1 F2]|F]; [|contradiction].
           destruct E as [E|E]; contradiction.
        -- apply opt_Z_eqb_neq in Ed.
           split; [intros _; now right|intros _; refused].
      * cbn [snd]. split; [intros _; now right|intros _; refused].
  - split; [auto|intros _; refused].
  - split; [auto|intros _; refused].
Qed.




(* ================================================================= *)
(** ** Department scope of a manager (C7) *)



(* ================================================================= *)
(** ** Ownership scope of a staff user (C8) *)




(* ================================================================= *)
(** ** Access grants (C3) *)

(** The tables a handler reads, with the grants out of the way. *)
Ltac forget_grants :=
  unfold get_Department, get_User, get_Task, get_Event, auth.get_user,
    main.department_missing, get_Department;
  cbn [with_access_grants departments users tasks events refresh_tokens].

Ltac same_decision :=
  repeat (match goal with
          | |- context [match ?c with _ => _ end] => destruct c
          end; try reflexivity).

(** C3, as the code has it.  Access grants are written by
    [create_access_grant] and read by no authorization check: the session
    resolver, the task handlers and listings, the event handlers, the user
    handlers and the role check of [create_access_grant] itself answer the
    same whatever rows the [access_grants] table holds, and creating a
    grant changes that table only.  So a denial of [_task_guard] stays a
    denial in [get_task], [delete_task], [send_task_to_admin] and
    [update_task], also when a grant that matches the user, the resource
    and the permission is in the table; and once [create_access_grant] has
    stored a grant, for whatever user, the answers to the user under study
    are what they were. *)
Theorem C3_grants_are_not_consulted
        (db : DB) (grants : list AccessGrant.t) (user : User.t) :
  (forall settings now token,
      auth.get_current_user settings (with_access_grants db grants) now token
      = auth.get_current_user settings db now token)
  /\ (forall task_id,
         main.get_task (with_access_grants db grants) task_id user
         = main.get_task db task_id user)
  /\ (forall task_in,
         snd (main.create_task (with_access_grants db grants) user task_in)
         = snd (main.create_task db user task_in))
  /\ (forall task_id,
         snd (main.delete_task (with_access_grants db grants) task_id user)
         = snd (main.delete_task db task_id user))
  /\ (forall task_id,
         snd (main.send_task_to_admin (with_access_grants db grants) task_id
                user)
         = snd (main.send_task_to_admin db task_id user))
  /\ main.list_my_tasks (with_access_grants db grants) user
     = main.list_my_tasks db user
  /\ main.list_department_tasks (with_access_grants db grants) user
     = main.list_department_tasks db user
  /\ main.list_all_tasks (with_access_grants db grants) user
     = main.list_all_tasks db user
  /\ (forall event_in,
         snd (main.create_event (with_access_grants db grants) event_in user)
         = snd (main.create_event db event_in user))
  /\ (forall meeting,
         snd (main.schedule_meeting (with_access_grants db grants) meeting
                user)
         = snd (main.schedule_meeting db meeting user))
  /\ (forall event_id update,
         snd (main.update_event (with_access_grants db grants) event_id update
                user)
         = snd (main.update_event db event_id update user))
  /\ (forall event_id,
         snd (main.delete_event (with_access_grants db grants) event_id user)
         = snd (main.delete_event db event_id user))
  /\ (forall acct salt user_in,
         snd (main.create_user acct (with_access_grants db grants) salt
                user_in user)
         = snd (main.create_user acct db salt user_in user))
  /\ (forall acct salt user_id update,
         snd (main.update_user acct (with_access_grants db grants) salt
                user_id update user)
         = snd (main.update_user acct db salt user_id update user))
  /\ (forall grant,
         Forbidden (snd (main.create_access_grant
                           (with_access_grants db grants) grant user))
         <-> Forbidden (snd (main.create_access_grant db grant user)))
  /\ (forall grant,
         fst (main.create_access_grant db grant user)
         = with_access_grants db
             (access_grants (fst (main.create_access_grant db grant user))))
  /\ (forall task_id task g resource_type resource_id permission,
         get_Task db task_id = Some task ->
         Forbidden (main._task_guard task user) ->
         In g grants ->
         grant_matches g user resource_type resource_id permission = true ->
         Forbidden (main.get_task (with_access_grants db grants) task_id user)
         /\ Forbidden (snd (main.delete_task (with_access_grants db grants)
                              task_id user))
         /\ Forbidden (snd (main.send_task_to_admin
                              (with_access_grants db grants) task_id user))
         /\ forall rows now update row,
             find (fun r => Task.id (TaskRow.task r) =? task_id) rows
             = Some row ->
             TaskRow.task row = task ->
             Forbidden (snd (main.update_task rows now task_id update user)))
  /\ (forall grant creator db1 created,
         main.create_access_grant db grant creator = (db1, Return created) ->
         In created (access_grants db1)
         /\ AccessGrant.user_id created
            = schemas.AccessGrantCreate.user_id grant
         /\ (forall task_id,
                main.get_task db1 task_id user = main.get_task db task_id user)
         /\ (forall task_id,
                snd (main.delete_task db1 task_id user)
                = snd (main.delete_task db task_id user))
         /\ (forall event_id update,
                snd (main.update_event db1 event_id update user)
                = snd (main.update_event db event_id update user))).
Proof.
  assert (Hdelete : forall gs task_id,
             snd (main.delete_task (with_access_grants db gs) task_id user)
             = snd (main.delete_task db task_id user)).
  { intros gs task_id. unfold main.delete_task. forget_grants.
    same_decision. }
  assert (Hupdate : forall gs event_id update,
             snd (main.update_event (with_access_grants db gs) event_id
                    update user)
             = snd (main.update_event db event_id update user)).
  { intros gs event_id update. unfold main.update_event. forget_grants.
    same_decision. }
  repeat apply conj.
  - reflexivity.
  - reflexivity.
  - intros task_in. unfold main.create_task. forget_grants. same_decision.
  - exact (Hdelete grants).
  - intros task_id. unfold main.send_task_to_admin. forget_grants.
    same_decision.
  - reflexivity.
  - reflexivity.
  - reflexivity.
  - intros event_in. unfold main.create_event. forget_grants. same_decision.
  - intros meeting. unfold main.schedule_meeting. forget_grants.
    same_decision.
  - exact (Hupdate grants).
  - intros event_id. unfold main.delete_event. forget_grants. same_decision.
  - intros acct salt user_in. unfold main.create_user. forget_grants.
    same_decision.
  - intros acct salt user_id update. unfold main.update_user. forget_grants.
    same_decision.
  - intros grant. rewrite !create_access_grant_forbidden. apply iff_refl.
  - intros grant. unfold main.create_access_grant.
    destruct db as [ds us ts es rs gs]. same_decision.
  - intros task_id task g resource_type resource_id permission
           Htask Hguard _ _.
    assert (Htask' : get_Task (with_access_grants db grants) task_id
                     = Some task) by exact Htask.
    split; [|split; [|split]].
    + now apply (get_task_forbidden _ _ _ _ Htask').
    + apply (delete_task_forbidden _ _ _ _ Htask').
      apply task_guard_forbidden in Hguard.
      destruct (User.role user); auto.
    + now apply (send_task_to_admin_forbidden _ _ _ _ Htask').
    + intros rows now update row Hrow <-.
      now apply (update_task_forbidden _ _ _ _ _ _ Hrow).
  - intros grant creator db1 created Hcreate.
    assert (Hdb1 : db1 = with_access_grants db
                           (access_grants db ++ [created])
                   /\ AccessGrant.user_id created
                      = schemas.AccessGrantCreate.user_id grant).
    { unfold main.create_access_grant in Hcreate.
      destruct (auth.require_role [admin; manager] (Return creator))
        as [cu|]; [|discriminate].
      cbv zeta in Hcreate.
      repeat match type of Hcreate with
             | context [match ?c with _ => _ end] =>
                 destruct c; try discriminate
             end;
        injection Hcreate as <- <-; split; reflexivity. }
    destruct Hdb1 as [-> Huid].
    split; [simpl; apply in_or_app; right; now left|].
    split; [exact Huid|]. split; [reflexivity|].
    split; [apply Hdelete|apply Hupdate].
Qed.

Lemma C3_witness :
  Forbidden (main.get_task (with_access_grants sample.db0 [sample.grant_all])
                           1 sample.stella)
  /\ Forbidden (snd (main.delete_task
                       (with_access_grants sample.db0 [sample.grant_all])
                       1 sample.stella)).
Proof.
  destruct (C3_grants_are_not_consulted sample.db0 [sample.grant_all]
              sample.stella)
    as [_ [_ [_ [_ [_ [_ [_ [_ [_ [_ [_ [_ [_ [_ [_ [_ [Hdenied _]]]]]]]]]]]]]]]]].
  destruct (Hdenied 1 sample.task1 sample.grant_all "tasks" "1" "view")
    as [Hget [Hdel _]].
  - reflexivity.
  - exists "Task not assigned to you". reflexivity.
  - left. reflexivity.
  - reflexivity.
  - split; [exact Hget|exact Hdel].
Defined.
